(** * trainDataGenerator: epoch-based, prefetching batch generator

    A shallow embedding of [compiled/interface/trainDataGenerator.h]
    (namespace [djc]) and the properties of its batch accounting, its
    file-retry loop, its epoch shuffle and its worker hand-off.

    Conventions.
    - [size_t] fields are integers in [Z]; every arithmetic operation of the
      source on them is followed by [wrap64].  The [int] field
      [randomcount_] wraps with [wrap_int].
    - A member function is a computation [M A]: it takes the object and
      yields an [outcome], which records how the call ended and in which
      state it left the object.
    - The worker thread started with [new std::thread(&readBuffer, this)]
      is run at the point where the foreground joins it: between the launch
      and the join the foreground never touches what the worker writes
      ([buffer_read]) nor changes what it reads ([nextread_]). *)

From Stdlib Require Import String ZArith List Bool Lia Permutation.
Import ListNotations.

Local Open Scope Z_scope.

(** ** Machine integers *)

Definition wrap64 (x : Z) : Z := x mod 2 ^ 64.

Definition wrap32 (x : Z) : Z := x mod 2 ^ 32.

(** Two's complement wrap-around of [int]. *)
Definition wrap_int (x : Z) : Z := (x + 2 ^ 31) mod 2 ^ 32 - 2 ^ 31.

Definition size_t_range (x : Z) : Prop := 0 <= x < 2 ^ 64.

(** ** std::mt19937 seeding

    The engine state after [seed(value)] as the C++ standard fixes it:
    [x_0 = value mod 2^32] and
    [x_i = (1812433253 * (x_(i-1) xor (x_(i-1) >> 30)) + i) mod 2^32]
    for [i = 1 .. 623].  Constructing an engine from a value seeds it with
    that value. *)

Record mt19937 : Type := { mt_state : list Z; mt_index : nat }.

Fixpoint mt_fill (n : nat) (i prev : Z) : list Z :=
  match n with
  | O => []
  | S n' =>
      let x := wrap32 (1812433253 * Z.lxor prev (Z.shiftr prev 30) + i) in
      x :: mt_fill n' (i + 1) x
  end.

Definition mt19937_new (value : Z) : mt19937 :=
  let x0 := wrap32 value in
  {| mt_state := x0 :: mt_fill 623 1 x0; mt_index := 624 |}.

Definition mt19937_seed (g : mt19937) (value : Z) : mt19937 :=
  let x0 := wrap32 value in
  {| mt_state := x0 :: mt_fill 623 1 x0; mt_index := 624 |}.

Arguments mt_fill : simpl never.
Arguments mt19937_new : simpl never.
Arguments mt19937_seed : simpl never.

(** ** Exceptions and the worker handle *)

Inductive exception : Type :=
| runtime_error (what : string)
| out_of_range.

(** [std::thread * readthread_]: the null pointer, a pointer to a thread
    that has been started and not yet joined, or a pointer that has been
    passed to [delete] and not reassigned. *)
Inductive thread_ptr : Type :=
| null
| joinable
| dangling.

Section Generator.

(** The element type of the [trainData<T>] template. *)
Variable T : Type.

(** ** trainData *)

(** Modelled from the spec: [trainData<T>] is declared in [trainData.h];
    it is an appendable, splittable container of samples, here the
    sequence of its samples. *)
Definition trainData : Type := list T.

(** Modelled from the spec: [nElements() -> count]. *)
Definition nElements (td : trainData) : Z := Z.of_nat (length td).

(** Modelled from the spec: [append(other)]. *)
Definition append (td other : trainData) : trainData := td ++ other.

(** Modelled from the spec: [split(n) -> (prefix, remainder retained in
    place)]; the first component is the returned block, the second what
    stays in the object. *)
Definition split (td : trainData) (n : Z) : trainData * trainData :=
  (firstn (Z.to_nat n) td, skipn (Z.to_nat n) td).

(** Modelled from the spec: [clear()]. *)
Definition clear (td : trainData) : trainData := [].

(** ** The collaborators of the generator *)

(** What one look at a file finds: [io::fileExists] is false; the file
    exists and [readFromFile] throws a [std::exception]; or the file is
    read. *)
Inductive probe_result : Type :=
| Absent
| Corrupt (what : string)
| Readable (content : trainData).

(** Modelled from the spec: the files and the library calls the header
    relies on and does not define.
    - [readShapesFromFile f] gives the feature, target and weight shapes
      stored in [f] (the shape metadata, not the content);
    - [probe t f] is what the reader finds when it looks at [f] at time
      [t], time counted in the [sleep(1)] calls made so far;
    - [std_shuffle g l] is the result of [std::shuffle] on [l] with the
      engine [g]. *)
Record platform : Type := {
  readShapesFromFile :
    string -> list (list Z) * list (list Z) * list (list Z);
  probe : nat -> string -> probe_result;
  std_shuffle : mt19937 -> list string -> list string
}.

(** [std::shuffle] rearranges the range it is given. *)
Definition shuffle_permutes (env : platform) : Prop :=
  forall g l, Permutation l (std_shuffle env g l).

(** ** The object *)

(** The data members of [trainDataGenerator<T>], in declaration order.
    [clock] is not a member: it is the time of the model, the number of
    [sleep(1)] calls completed so far, and it selects what [probe] finds. *)
Record trainDataGenerator : Type := {
  debug : bool;
  orig_infiles_ : list string;
  shuffled_infiles_ : list string;
  randomcount_ : Z;
  batchsize_ : Z;
  buffer_store : trainData;
  buffer_read : trainData;
  readthread_ : thread_ptr;
  nextread_ : string;
  filecount_ : Z;
  nbatches_ : Z;
  ntotal_ : Z;
  nsamplesprocessed_ : Z;
  lastbatchsize_ : Z;
  filetimeout_ : Z;
  threading_ : bool;
  clock : nat
}.

Definition set_orig_infiles_ (v : list string) (s : trainDataGenerator) : trainDataGenerator :=
  {| debug := debug s; orig_infiles_ := v; shuffled_infiles_ := shuffled_infiles_ s;
     randomcount_ := randomcount_ s; batchsize_ := batchsize_ s;
     buffer_store := buffer_store s; buffer_read := buffer_read s;
     readthread_ := readthread_ s; nextread_ := nextread_ s;
     filecount_ := filecount_ s; nbatches_ := nbatches_ s; ntotal_ := ntotal_ s;
     nsamplesprocessed_ := nsamplesprocessed_ s; lastbatchsize_ := lastbatchsize_ s;
     filetimeout_ := filetimeout_ s; threading_ := threading_ s; clock := clock s |}.

Definition set_shuffled_infiles_ (v : list string) (s : trainDataGenerator) : trainDataGenerator :=
  {| debug := debug s; orig_infiles_ := orig_infiles_ s; shuffled_infiles_ := v;
     randomcount_ := randomcount_ s; batchsize_ := batchsize_ s;
     buffer_store := buffer_store s; buffer_read := buffer_read s;
     readthread_ := readthread_ s; nextread_ := nextread_ s;
     filecount_ := filecount_ s; nbatches_ := nbatches_ s; ntotal_ := ntotal_ s;
     nsamplesprocessed_ := nsamplesprocessed_ s; lastbatchsize_ := lastbatchsize_ s;
     filetimeout_ := filetimeout_ s; threading_ := threading_ s; clock := clock s |}.

Definition set_randomcount_ (v : Z) (s : trainDataGenerator) : trainDataGenerator :=
  {| debug := debug s; orig_infiles_ := orig_infiles_ s;
     shuffled_infiles_ := shuffled_infiles_ s; randomcount_ := v;
     batchsize_ := batchsize_ s; buffer_store := buffer_store s;
     buffer_read := buffer_read s; readthread_ := readthread_ s;
     nextread_ := nextread_ s; filecount_ := filecount_ s; nbatches_ := nbatches_ s;
     ntotal_ := ntotal_ s; nsamplesprocessed_ := nsamplesprocessed_ s;
     lastbatchsize_ := lastbatchsize_ s; filetimeout_ := filetimeout_ s;
     threading_ := threading_ s; clock := clock s |}.

Definition set_batchsize_ (v : Z) (s : trainDataGenerator) : trainDataGenerator :=
  {| debug := debug s; orig_infiles_ := orig_infiles_ s;
     shuffled_infiles_ := shuffled_infiles_ s; randomcount_ := randomcount_ s;
     batchsize_ := v; buffer_store := buffer_store s; buffer_read := buffer_read s;
     readthread_ := readthread_ s; nextread_ := nextread_ s;
     filecount_ := filecount_ s; nbatches_ := nbatches_ s; ntotal_ := ntotal_ s;
     nsamplesprocessed_ := nsamplesprocessed_ s; lastbatchsize_ := lastbatchsize_ s;
     filetimeout_ := filetimeout_ s; threading_ := threading_ s; clock := clock s |}.

Definition set_buffer_store (v : trainData) (s : trainDataGenerator) : trainDataGenerator :=
  {| debug := debug s; orig_infiles_ := orig_infiles_ s;
     shuffled_infiles_ := shuffled_infiles_ s; randomcount_ := randomcount_ s;
     batchsize_ := batchsize_ s; buffer_store := v; buffer_read := buffer_read s;
     readthread_ := readthread_ s; nextread_ := nextread_ s;
     filecount_ := filecount_ s; nbatches_ := nbatches_ s; ntotal_ := ntotal_ s;
     nsamplesprocessed_ := nsamplesprocessed_ s; lastbatchsize_ := lastbatchsize_ s;
     filetimeout_ := filetimeout_ s; threading_ := threading_ s; clock := clock s |}.

Definition set_buffer_read (v : trainData) (s : trainDataGenerator) : trainDataGenerator :=
  {| debug := debug s; orig_infiles_ := orig_infiles_ s;
     shuffled_infiles_ := shuffled_infiles_ s; randomcount_ := randomcount_ s;
     batchsize_ := batchsize_ s; buffer_store := buffer_store s; buffer_read := v;
     readthread_ := readthread_ s; nextread_ := nextread_ s;
     filecount_ := filecount_ s; nbatches_ := nbatches_ s; ntotal_ := ntotal_ s;
     nsamplesprocessed_ := nsamplesprocessed_ s; lastbatchsize_ := lastbatchsize_ s;
     filetimeout_ := filetimeout_ s; threading_ := threading_ s; clock := clock s |}.

Definition set_readthread_ (v : thread_ptr) (s : trainDataGenerator) : trainDataGenerator :=
  {| debug := debug s; orig_infiles_ := orig_infiles_ s;
     shuffled_infiles_ := shuffled_infiles_ s; randomcount_ := randomcount_ s;
     batchsize_ := batchsize_ s; buffer_store := buffer_store s;
     buffer_read := buffer_read s; readthread_ := v; nextread_ := nextread_ s;
     filecount_ := filecount_ s; nbatches_ := nbatches_ s; ntotal_ := ntotal_ s;
     nsamplesprocessed_ := nsamplesprocessed_ s; lastbatchsize_ := lastbatchsize_ s;
     filetimeout_ := filetimeout_ s; threading_ := threading_ s; clock := clock s |}.

Definition set_nextread_ (v : string) (s : trainDataGenerator) : trainDataGenerator :=
  {| debug := debug s; orig_infiles_ := orig_infiles_ s;
     shuffled_infiles_ := shuffled_infiles_ s; randomcount_ := randomcount_ s;
     batchsize_ := batchsize_ s; buffer_store := buffer_store s;
     buffer_read := buffer_read s; readthread_ := readthread_ s; nextread_ := v;
     filecount_ := filecount_ s; nbatches_ := nbatches_ s; ntotal_ := ntotal_ s;
     nsamplesprocessed_ := nsamplesprocessed_ s; lastbatchsize_ := lastbatchsize_ s;
     filetimeout_ := filetimeout_ s; threading_ := threading_ s; clock := clock s |}.

Definition set_filecount_ (v : Z) (s : trainDataGenerator) : trainDataGenerator :=
  {| debug := debug s; orig_infiles_ := orig_infiles_ s;
     shuffled_infiles_ := shuffled_infiles_ s; randomcount_ := randomcount_ s;
     batchsize_ := batchsize_ s; buffer_store := buffer_store s;
     buffer_read := buffer_read s; readthread_ := readthread_ s;
     nextread_ := nextread_ s; filecount_ := v; nbatches_ := nbatches_ s;
     ntotal_ := ntotal_ s; nsamplesprocessed_ := nsamplesprocessed_ s;
     lastbatchsize_ := lastbatchsize_ s; filetimeout_ := filetimeout_ s;
     threading_ := threading_ s; clock := clock s |}.

Definition set_nbatches_ (v : Z) (s : trainDataGenerator) : trainDataGenerator :=
  {| debug := debug s; orig_infiles_ := orig_infiles_ s;
     shuffled_infiles_ := shuffled_infiles_ s; randomcount_ := randomcount_ s;
     batchsize_ := batchsize_ s; buffer_store := buffer_store s;
     buffer_read := buffer_read s; readthread_ := readthread_ s;
     nextread_ := nextread_ s; filecount_ := filecount_ s; nbatches_ := v;
     ntotal_ := ntotal_ s; nsamplesprocessed_ := nsamplesprocessed_ s;
     lastbatchsize_ := lastbatchsize_ s; filetimeout_ := filetimeout_ s;
     threading_ := threading_ s; clock := clock s |}.

Definition set_ntotal_ (v : Z) (s : trainDataGenerator) : trainDataGenerator :=
  {| debug := debug s; orig_infiles_ := orig_infiles_ s;
     shuffled_infiles_ := shuffled_infiles_ s; randomcount_ := randomcount_ s;
     batchsize_ := batchsize_ s; buffer_store := buffer_store s;
     buffer_read := buffer_read s; readthread_ := readthread_ s;
     nextread_ := nextread_ s; filecount_ := filecount_ s; nbatches_ := nbatches_ s;
     ntotal_ := v; nsamplesprocessed_ := nsamplesprocessed_ s;
     lastbatchsize_ := lastbatchsize_ s; filetimeout_ := filetimeout_ s;
     threading_ := threading_ s; clock := clock s |}.

Definition set_nsamplesprocessed_ (v : Z) (s : trainDataGenerator) : trainDataGenerator :=
  {| debug := debug s; orig_infiles_ := orig_infiles_ s;
     shuffled_infiles_ := shuffled_infiles_ s; randomcount_ := randomcount_ s;
     batchsize_ := batchsize_ s; buffer_store := buffer_store s;
     buffer_read := buffer_read s; readthread_ := readthread_ s;
     nextread_ := nextread_ s; filecount_ := filecount_ s; nbatches_ := nbatches_ s;
     ntotal_ := ntotal_ s; nsamplesprocessed_ := v; lastbatchsize_ := lastbatchsize_ s;
     filetimeout_ := filetimeout_ s; threading_ := threading_ s; clock := clock s |}.

Definition set_lastbatchsize_ (v : Z) (s : trainDataGenerator) : trainDataGenerator :=
  {| debug := debug s; orig_infiles_ := orig_infiles_ s;
     shuffled_infiles_ := shuffled_infiles_ s; randomcount_ := randomcount_ s;
     batchsize_ := batchsize_ s; buffer_store := buffer_store s;
     buffer_read := buffer_read s; readthread_ := readthread_ s;
     nextread_ := nextread_ s; filecount_ := filecount_ s; nbatches_ := nbatches_ s;
     ntotal_ := ntotal_ s; nsamplesprocessed_ := nsamplesprocessed_ s;
     lastbatchsize_ := v; filetimeout_ := filetimeout_ s; threading_ := threading_ s;
     clock := clock s |}.

Definition set_filetimeout_ (v : Z) (s : trainDataGenerator) : trainDataGenerator :=
  {| debug := debug s; orig_infiles_ := orig_infiles_ s;
     shuffled_infiles_ := shuffled_infiles_ s; randomcount_ := randomcount_ s;
     batchsize_ := batchsize_ s; buffer_store := buffer_store s;
     buffer_read := buffer_read s; readthread_ := readthread_ s;
     nextread_ := nextread_ s; filecount_ := filecount_ s; nbatches_ := nbatches_ s;
     ntotal_ := ntotal_ s; nsamplesprocessed_ := nsamplesprocessed_ s;
     lastbatchsize_ := lastbatchsize_ s; filetimeout_ := v; threading_ := threading_ s;
     clock := clock s |}.

Definition set_threading_ (v : bool) (s : trainDataGenerator) : trainDataGenerator :=
  {| debug := debug s; orig_infiles_ := orig_infiles_ s;
     shuffled_infiles_ := shuffled_infiles_ s; randomcount_ := randomcount_ s;
     batchsize_ := batchsize_ s; buffer_store := buffer_store s;
     buffer_read := buffer_read s; readthread_ := readthread_ s;
     nextread_ := nextread_ s; filecount_ := filecount_ s; nbatches_ := nbatches_ s;
     ntotal_ := ntotal_ s; nsamplesprocessed_ := nsamplesprocessed_ s;
     lastbatchsize_ := lastbatchsize_ s; filetimeout_ := filetimeout_ s;
     threading_ := v; clock := clock s |}.

Definition set_clock (v : nat) (s : trainDataGenerator) : trainDataGenerator :=
  {| debug := debug s; orig_infiles_ := orig_infiles_ s;
     shuffled_infiles_ := shuffled_infiles_ s; randomcount_ := randomcount_ s;
     batchsize_ := batchsize_ s; buffer_store := buffer_store s;
     buffer_read := buffer_read s; readthread_ := readthread_ s;
     nextread_ := nextread_ s; filecount_ := filecount_ s; nbatches_ := nbatches_ s;
     ntotal_ := ntotal_ s; nsamplesprocessed_ := nsamplesprocessed_ s;
     lastbatchsize_ := lastbatchsize_ s; filetimeout_ := filetimeout_ s;
     threading_ := threading_ s; clock := v |}.

(** ** Outcomes and the computation monad *)

(** How a call ends.
    - [Returns a s]: it returns [a] and leaves the object in [s];
    - [Throws e s]: the exception [e] leaves the call, the object is in [s];
    - [Terminated]: an exception left the worker thread, [std::terminate]
      ends the process;
    - [Undefined]: the call has no defined behaviour (a deleted thread is
      joined, an integer is divided by zero);
    - [Unfinished]: the loop budget given to the model is used up. *)
Inductive outcome (A : Type) : Type :=
| Returns (a : A) (s : trainDataGenerator)
| Throws (e : exception) (s : trainDataGenerator)
| Terminated
| Undefined
| Unfinished.

Arguments Returns {A} a s.
Arguments Throws {A} e s.
Arguments Terminated {A}.
Arguments Undefined {A}.
Arguments Unfinished {A}.

Definition M (A : Type) : Type := trainDataGenerator -> outcome A.

Definition ret {A : Type} (a : A) : M A := fun s => Returns a s.

Definition bind {A B : Type} (m : M A) (k : A -> M B) : M B :=
  fun s =>
    match m s with
    | Returns a s' => k a s'
    | Throws e s' => Throws e s'
    | Terminated => Terminated
    | Undefined => Undefined
    | Unfinished => Unfinished
    end.

Definition throw {A : Type} (e : exception) : M A := fun s => Throws e s.

Definition undefined {A : Type} : M A := fun _ => Undefined.

Definition get {A : Type} (f : trainDataGenerator -> A) : M A :=
  fun s => Returns (f s) s.

Definition modify (f : trainDataGenerator -> trainDataGenerator) : M unit :=
  fun s => Returns tt (f s).

Notation "x <- m ;; k" := (bind m (fun x => k))
  (at level 61, m at next level, right associativity).
Notation "m ;; k" := (bind m (fun _ => k))
  (at level 61, right associativity).

(** The object a call leaves behind, when the process survives it. *)
Definition state_after {A : Type} (o : outcome A) : option trainDataGenerator :=
  match o with
  | Returns _ s => Some s
  | Throws _ s => Some s
  | _ => None
  end.

(** [std::vector::at]. *)
Definition vector_at (l : list string) (i : Z) : M string :=
  match nth_error l (Z.to_nat i) with
  | Some x => if i <? Z.of_nat (length l) then ret x else throw out_of_range
  | None => throw out_of_range
  end.

(** ** Construction and the inline members *)

(** The constructor's initialiser list. *)
Definition trainDataGenerator_new : trainDataGenerator :=
  {| debug := false; orig_infiles_ := []; shuffled_infiles_ := [];
     randomcount_ := 1; batchsize_ := 2; buffer_store := [];
     buffer_read := []; readthread_ := null; nextread_ := EmptyString;
     filecount_ := 0; nbatches_ := 0; ntotal_ := 0;
     nsamplesprocessed_ := 0; lastbatchsize_ := 0; filetimeout_ := 10;
     threading_ := true; clock := O |}.

(** [ntotal_ / batchsize_] on [size_t]. *)
Definition size_t_div (a b : Z) : M Z :=
  if b =? 0 then undefined else ret (a / b).

Definition setBatchSize (nelements : Z) : M unit :=
  modify (set_batchsize_ nelements) ;;
  n <- get ntotal_ ;;
  b <- get batchsize_ ;;
  q <- size_t_div n b ;;
  modify (set_nbatches_ q).

Definition getNTotal (s : trainDataGenerator) : Z := ntotal_ s.

Definition setFileTimeout (seconds : Z) : M unit :=
  modify (set_filetimeout_ seconds).

Definition getNBatches (s : trainDataGenerator) : Z := nbatches_ s.

Definition lastBatch (s : trainDataGenerator) : bool :=
  wrap64 (ntotal_ s - lastbatchsize_ s) <=? nsamplesprocessed_ s.

Definition enableThreading (en : bool) : M unit :=
  modify (set_threading_ en).

(** ** The out-of-line members *)

Variable env : platform.

(** [shuffleFilelist()].  [rd] is the value drawn from
    [std::random_device]; the engine built from it is re-seeded with
    [randomcount_] before it is used. *)
Definition shuffleFilelist (rd : Z) : M unit :=
  let g := mt19937_new rd in
  c <- get randomcount_ ;;
  let g := mt19937_seed g c in
  modify (set_randomcount_ (wrap_int (c + 1))) ;;
  l <- get shuffled_infiles_ ;;
  modify (set_shuffled_infiles_ (std_shuffle env g l)).

Definition readBuffer_error (f : string) : exception :=
  runtime_error
    (String.append "trainDataGenerator<T>::readBuffer: file "
       (String.append f " could not be read.")).

(** The [while(ntries < filetimeout_)] loop of [readBuffer].  Each turn
    looks at the file once.  A file that is absent costs [sleep(1)] and
    [ntries++]; a file that exists but fails to parse costs [ntries+=1] in
    the handler and then the same [sleep(1)] and [ntries++]. *)
Fixpoint readBuffer_while (fuel : nat) (ntries : Z) : M unit :=
  fun s =>
    if ntries <? filetimeout_ s then
      match fuel with
      | O => Unfinished
      | S fuel' =>
          match probe env (clock s) (nextread_ s) with
          | Readable content => Returns tt (set_buffer_read content s)
          | Corrupt _ =>
              readBuffer_while fuel' (wrap64 (wrap64 (ntries + 1) + 1))
                (set_clock (S (clock s)) s)
          | Absent =>
              readBuffer_while fuel' (wrap64 (ntries + 1))
                (set_clock (S (clock s)) s)
          end
      end
    else
      Throws (readBuffer_error (nextread_ s))
        (set_buffer_read (clear (buffer_read s)) s).

(** [readBuffer()].  The loop is entered at most [filetimeout_] times
    unless [ntries] wraps around, so that many turns are budgeted. *)
Definition readBuffer : M unit :=
  t <- get filetimeout_ ;;
  readBuffer_while (Z.to_nat t) 0.

Definition readNTotal_error (f : string) : exception :=
  runtime_error
    (String.append
       "trainDataGenerator<T>::readNTotal: no features filled in trainData object "
       f).

(** The [for(const auto& f: orig_infiles_)] loop of [readNTotal]. *)
Fixpoint readNTotal_for (files : list string) : M unit :=
  match files with
  | [] => ret tt
  | f :: rest =>
      let '(fs, ts, ws) := readShapesFromFile env f in
      match fs with
      | (n :: _) :: _ =>
          modify (fun s => set_ntotal_ (wrap64 (ntotal_ s + n)) s) ;;
          readNTotal_for rest
      | _ => throw (readNTotal_error f)
      end
  end.

Definition readNTotal : M unit :=
  modify (set_ntotal_ 0) ;;
  files <- get orig_infiles_ ;;
  readNTotal_for files ;;
  n <- get ntotal_ ;;
  b <- get batchsize_ ;;
  q <- size_t_div n b ;;
  modify (set_nbatches_ q).

Definition setFileList (files : list string) : M unit :=
  modify (set_orig_infiles_ files) ;;
  orig <- get orig_infiles_ ;;
  modify (set_shuffled_infiles_ orig) ;;
  readNTotal.

(** [readthread_->join()]: the worker runs [readBuffer] to its end.  An
    exception that leaves [readBuffer] there leaves the thread function.
    The run of the worker is placed at the join, on the object as it is
    then.  The source runs it from the launch on; the two agree as long as
    no call changes [filetimeout_] between the launch and the join, and
    the moment at which an exception of the worker ends the process is not
    told apart from the join. *)
Definition thread_join : M unit :=
  fun s =>
    match readthread_ s with
    | joinable =>
        match readBuffer s with
        | Returns _ s' => Returns tt s'
        | Throws _ _ => Terminated
        | Terminated => Terminated
        | Undefined => Undefined
        | Unfinished => Unfinished
        end
    | _ => Undefined
    end.

(** [delete readthread_]. *)
Definition thread_delete : M unit := modify (set_readthread_ dangling).

(** [new std::thread(&trainDataGenerator<T>::readBuffer, this)]. *)
Definition thread_new : M unit := modify (set_readthread_ joinable).

Definition prepareNextEpoch (rd : Z) : M unit :=
  p <- get readthread_ ;;
  match p with
  | null => ret tt
  | _ => thread_join ;; thread_delete
  end ;;
  modify (fun s => set_buffer_store (clear (buffer_store s)) s) ;;
  modify (fun s => set_buffer_read (clear (buffer_read s)) s) ;;
  modify (set_filecount_ 0) ;;
  modify (set_nsamplesprocessed_ 0) ;;
  shuffleFilelist rd ;;
  files <- get shuffled_infiles_ ;;
  fc <- get filecount_ ;;
  f <- vector_at files fc ;;
  modify (set_nextread_ f) ;;
  thread_new.

Definition end_ : M unit :=
  p <- get readthread_ ;;
  match p with
  | null => ret tt
  | _ => thread_join ;; thread_delete ;; modify (set_readthread_ null)
  end.

(** [~trainDataGenerator()]. *)
Definition destructor : M unit :=
  p <- get readthread_ ;;
  match p with
  | null => ret tt
  | _ => thread_join ;; thread_delete
  end.

Definition getBatch_error : exception :=
  runtime_error
    "trainDataGenerator<T>::getBatch: more batches requested than data in the sample".

(** One turn of the [while(bufferelements < batchsize_)] loop of
    [prepareBatch]; it yields the new value of [bufferelements]. *)
Definition prepareBatch_turn : M Z :=
  p <- get readthread_ ;;
  match p with
  | null => ret tt
  | _ => thread_join ;; thread_delete ;; modify (set_readthread_ null)
  end ;;
  modify (fun s => set_buffer_store (append (buffer_store s) (buffer_read s)) s) ;;
  modify (fun s => set_buffer_read (clear (buffer_read s)) s) ;;
  bufferelements <- get (fun s => nElements (buffer_store s)) ;;
  processed <- get nsamplesprocessed_ ;;
  total <- get ntotal_ ;;
  (if wrap64 (processed + bufferelements) <? total then
     fc <- get filecount_ ;;
     files <- get shuffled_infiles_ ;;
     if Z.of_nat (length files) <=? fc then throw getBatch_error
     else
       f <- vector_at files fc ;;
       modify (set_nextread_ f) ;;
       modify (set_filecount_ (wrap64 (fc + 1))) ;;
       thread_new
   else ret tt) ;;
  ret bufferelements.

(** The loop itself.  It has no bound in the source; [fuel] is the number
    of turns the model may take. *)
Fixpoint prepareBatch_while (fuel : nat) (bufferelements : Z) : M Z :=
  fun s =>
    if bufferelements <? batchsize_ s then
      match fuel with
      | O => Unfinished
      | S fuel' =>
          (b <- prepareBatch_turn ;; prepareBatch_while fuel' b) s
      end
    else Returns bufferelements s.

Definition prepareBatch (fuel : nat) : M trainData :=
  bufferelements <- get (fun s => nElements (buffer_store s)) ;;
  prepareBatch_while fuel bufferelements ;;
  modify (fun s =>
            set_nsamplesprocessed_
              (wrap64 (nsamplesprocessed_ s + batchsize_ s)) s) ;;
  modify (fun s => set_lastbatchsize_ (batchsize_ s) s) ;;
  store <- get buffer_store ;;
  b <- get batchsize_ ;;
  let (batch, rest) := split store b in
  modify (set_buffer_store rest) ;;
  ret batch.

Definition getBatch (fuel : nat) : M trainData := prepareBatch fuel.

End Generator.

Arguments Returns {T A} a s.
Arguments Throws {T A} e s.
Arguments Terminated {T A}.
Arguments Undefined {T A}.
Arguments Unfinished {T A}.
Arguments Absent {T}.
Arguments Corrupt {T} what.
Arguments Readable {T} content.
Arguments readShapesFromFile {T} p _.
Arguments probe {T} p _ _.
Arguments std_shuffle {T} p _ _.
Arguments shuffle_permutes {T} env.
Arguments nElements {T} td.
Arguments append {T} td other.
Arguments split {T} td n.
Arguments clear {T} td.
Arguments trainDataGenerator_new {T}.
Arguments state_after {T A} o.
Arguments ret {T A} a s.
Arguments bind {T A B} m k s.
Arguments vector_at {T} l i s.
Arguments throw {T A} e s.
Arguments undefined {T A} s.
Arguments get {T A} f s.
Arguments modify {T} f s.
Arguments size_t_div {T} a b s.
Arguments thread_delete {T} s.
Arguments thread_new {T} s.
Arguments setBatchSize {T} nelements s.
Arguments getNTotal {T} s.
Arguments setFileTimeout {T} seconds s.
Arguments getNBatches {T} s.
Arguments lastBatch {T} s.
Arguments enableThreading {T} en s.
Arguments shuffleFilelist {T} env rd s.
Arguments readBuffer_while {T} env fuel ntries s.
Arguments readBuffer {T} env s.
Arguments readNTotal_for {T} env files s.
Arguments readNTotal {T} env s.
Arguments setFileList {T} env files s.
Arguments thread_join {T} env s.
Arguments prepareNextEpoch {T} env rd s.
Arguments end_ {T} env s.
Arguments destructor {T} env s.
Arguments prepareBatch_turn {T} env s.
Arguments prepareBatch_while {T} env fuel bufferelements s.
Arguments prepareBatch {T} env fuel s.
Arguments getBatch {T} env fuel s.

Arguments debug {T} t.
Arguments orig_infiles_ {T} t.
Arguments shuffled_infiles_ {T} t.
Arguments randomcount_ {T} t.
Arguments batchsize_ {T} t.
Arguments buffer_store {T} t.
Arguments buffer_read {T} t.
Arguments readthread_ {T} t.
Arguments nextread_ {T} t.
Arguments filecount_ {T} t.
Arguments nbatches_ {T} t.
Arguments ntotal_ {T} t.
Arguments nsamplesprocessed_ {T} t.
Arguments lastbatchsize_ {T} t.
Arguments filetimeout_ {T} t.
Arguments threading_ {T} t.
Arguments clock {T} t.
Arguments set_orig_infiles_ {T} v s.
Arguments set_shuffled_infiles_ {T} v s.
Arguments set_randomcount_ {T} v s.
Arguments set_batchsize_ {T} v s.
Arguments set_buffer_store {T} v s.
Arguments set_buffer_read {T} v s.
Arguments set_readthread_ {T} v s.
Arguments set_nextread_ {T} v s.
Arguments set_filecount_ {T} v s.
Arguments set_nbatches_ {T} v s.
Arguments set_ntotal_ {T} v s.
Arguments set_nsamplesprocessed_ {T} v s.
Arguments set_lastbatchsize_ {T} v s.
Arguments set_filetimeout_ {T} v s.
Arguments set_threading_ {T} v s.
Arguments set_clock {T} v s.

(** ** Callers, measures and invariants *)

Section Callers.

Context {T : Type}.
Variable env : platform T.

(** [n] successive [getBatch()] calls; the batches in request order. *)
Fixpoint getBatches (fuel n : nat) (s : trainDataGenerator T)
  : outcome T (list (trainData T)) :=
  match n with
  | O => Returns [] s
  | S n' =>
      bind (getBatch env fuel)
        (fun b s1 => bind (getBatches fuel n') (fun bs => ret (b :: bs)) s1) s
  end.

(** [n] successive [getBatch()] calls, each followed by [lastBatch()];
    the answers in request order. *)
Fixpoint lastBatch_trace (fuel n : nat) (s : trainDataGenerator T)
  : outcome T (list bool) :=
  match n with
  | O => Returns [] s
  | S n' =>
      bind (getBatch env fuel)
        (fun _ s1 =>
           bind (lastBatch_trace fuel n')
             (fun flags => ret (lastBatch s1 :: flags)) s1) s
  end.

(** Successive [shuffleFilelist()] calls, one per entropy value drawn; the
    file orders they leave in [shuffled_infiles_]. *)
Fixpoint shuffle_orders (rds : list Z) (s : trainDataGenerator T)
  : list (list string) :=
  match rds with
  | [] => []
  | rd :: rest =>
      match shuffleFilelist env rd s with
      | Returns _ s' => shuffled_infiles_ s' :: shuffle_orders rest s'
      | _ => []
      end
  end.

(** The calls of the public interface that can change the object. *)
Inductive call : Type :=
| call_setFileList (files : list string)
| call_setBatchSize (nelements : Z)
| call_setFileTimeout (seconds : Z)
| call_enableThreading (en : bool)
| call_prepareNextEpoch (rd : Z)
| call_getBatch (fuel : nat)
| call_end.

Definition run_call (c : call) (s : trainDataGenerator T)
  : option (trainDataGenerator T) :=
  match c with
  | call_setFileList files => state_after (setFileList env files s)
  | call_setBatchSize n => state_after (setBatchSize n s)
  | call_setFileTimeout n => state_after (setFileTimeout n s)
  | call_enableThreading en => state_after (enableThreading en s)
  | call_prepareNextEpoch rd => state_after (prepareNextEpoch env rd s)
  | call_getBatch fuel => state_after (getBatch env fuel s)
  | call_end => state_after (end_ env s)
  end.

(** The states a generator can be in: the constructed one, and any state
    a call leaves behind, by return or by exception. *)
Inductive reachable : trainDataGenerator T -> Prop :=
| reachable_new : reachable trainDataGenerator_new
| reachable_call s c s' :
    reachable s -> run_call c s = Some s' -> reachable s'.

(** Shape metadata of one file: the leading dimension of its first
    feature array, when it has one. *)
Definition leading_dim (f : string) : option Z :=
  match fst (fst (readShapesFromFile env f)) with
  | (n :: _) :: _ => Some n
  | _ => None
  end.

Fixpoint sum_leading_dims (files : list string) : Z :=
  match files with
  | [] => 0
  | f :: rest =>
      match leading_dim f with
      | Some n => n + sum_leading_dims rest
      | None => sum_leading_dims rest
      end
  end.

(** The first file of the list without a feature array, or whose first
    feature array has no dimension. *)
Fixpoint first_unfilled (files : list string) : option string :=
  match files with
  | [] => None
  | f :: rest =>
      match leading_dim f with
      | Some _ => first_unfilled rest
      | None => Some f
      end
  end.

(** The fields that only the configuration calls and the batch counters
    touch: everything but the buffers, the worker and its target, the file
    cursor and the clock. *)
Definition settings (s : trainDataGenerator T) :=
  (debug s, orig_infiles_ s, shuffled_infiles_ s, randomcount_ s,
   batchsize_ s, nbatches_ s, ntotal_ s, nsamplesprocessed_ s,
   lastbatchsize_ s, filetimeout_ s, threading_ s).

(** The number of samples the shape metadata of a file announces. *)
Definition file_size (f : string) : Z :=
  match leading_dim f with
  | Some n => n
  | None => 0
  end.

(** Every file is there and parses whenever it is looked at, and holds as
    many samples as its shape metadata announces. *)
Definition files_as_announced : Prop :=
  forall t f,
    exists content,
      probe env t f = Readable content /\
      leading_dim f = Some (nElements content).

(** The samples announced by the first [n] files of a list. *)
Definition announced_upto (n : Z) (files : list string) : Z :=
  sum_leading_dims (firstn (Z.to_nat n) files).

(** The state of a generator between two turns of the batch loop, in an
    epoch over files that are as announced.  Nothing is staged; there are
    files and the file cursor is inside the list; the total is the one
    announced by the files.  While a worker runs, the samples handed out,
    those in store and those the worker is loading add up to the first
    file (loaded at the epoch start) and the files before the cursor.
    When none runs, the total has been reached. *)
Definition in_epoch (s : trainDataGenerator T) : Prop :=
  0 < batchsize_ s /\ 0 < filetimeout_ s /\
  buffer_read s = [] /\ shuffled_infiles_ s <> [] /\
  0 <= filecount_ s <= Z.of_nat (length (shuffled_infiles_ s)) /\
  Z.of_nat (length (shuffled_infiles_ s)) < 2 ^ 64 /\
  ntotal_ s = sum_leading_dims (shuffled_infiles_ s) /\
  ntotal_ s < 2 ^ 63 /\
  0 <= nsamplesprocessed_ s /\
  match readthread_ s with
  | joinable =>
      nsamplesprocessed_ s + nElements (buffer_store s)
        + file_size (nextread_ s) =
      file_size (hd EmptyString (shuffled_infiles_ s))
        + announced_upto (filecount_ s) (shuffled_infiles_ s)
  | null => ntotal_ s <= nsamplesprocessed_ s + nElements (buffer_store s)
  | dangling => False
  end.

(** [prepareNextEpoch()] from the point where the old worker, if any, has
    been joined and deleted, written out on the state [s1] reached there. *)
Definition epoch_start (s1 : trainDataGenerator T) : outcome T unit :=
  let order :=
    std_shuffle env (mt19937_new (randomcount_ s1)) (shuffled_infiles_ s1) in
  let s2 :=
    set_shuffled_infiles_ order
      (set_randomcount_ (wrap_int (randomcount_ s1 + 1))
         (set_nsamplesprocessed_ 0
            (set_filecount_ 0
               (set_buffer_read [] (set_buffer_store [] s1))))) in
  match order with
  | f :: _ => Returns tt (set_readthread_ joinable (set_nextread_ f s2))
  | [] => Throws out_of_range s2
  end.

(** What the worker leaves alone: the settings, its own handle and
    target, the file cursor and the store buffer. *)
Definition worker_frame (s : trainDataGenerator T) :=
  (settings s, readthread_ s, nextread_ s, filecount_ s, buffer_store s).

End Callers.

(** ** Example files and platforms *)

Module Example.

Local Open Scope string_scope.

(** Samples are numbered; the numbers of different files are apart.
    File [A] holds 100 samples, [B] 150, [C] 100; any other file none. *)
Definition samples_of (f : string) : list nat :=
  if String.eqb f "A" then seq 0 100
  else if String.eqb f "B" then seq 1000 150
  else if String.eqb f "C" then seq 2000 100
  else [].

(** Every file stores one feature array of four columns; its shape
    metadata agrees with its content. *)
Definition shapes_of (f : string)
  : list (list Z) * list (list Z) * list (list Z) :=
  ([[Z.of_nat (length (samples_of f)); 4]], [], []).

(** Two behaviours [std::shuffle] can have; on a list of two files there
    is no other. *)
Definition keep_order (g : mt19937) (l : list string) : list string := l.

Definition reverse_order (g : mt19937) (l : list string) : list string :=
  rev l.

(** Every file is there and parses at the first look. *)
Definition steady (shuffle : mt19937 -> list string -> list string)
  : platform nat :=
  {| readShapesFromFile := shapes_of;
     probe := fun _ f => Readable (samples_of f);
     std_shuffle := shuffle |}.

(** No file is ever there. *)
Definition nothing_there : platform nat :=
  {| readShapesFromFile := shapes_of;
     probe := fun _ _ => Absent;
     std_shuffle := keep_order |}.

(** Every file is there and never parses. *)
Definition nothing_parses : platform nat :=
  {| readShapesFromFile := shapes_of;
     probe := fun _ _ => Corrupt "truncated";
     std_shuffle := keep_order |}.

(** Every file is missing before time [n] and is there and parses from
    then on. *)
Definition there_from (n : nat) : platform nat :=
  {| readShapesFromFile := shapes_of;
     probe := fun t f =>
                if Nat.ltb t n then Absent else Readable (samples_of f);
     std_shuffle := keep_order |}.

(** Every file is there; it fails to parse before time [n] and parses from
    then on. *)
Definition parses_from (n : nat) : platform nat :=
  {| readShapesFromFile := shapes_of;
     probe := fun t f =>
                if Nat.ltb t n then Corrupt "truncated"
                else Readable (samples_of f);
     std_shuffle := keep_order |}.

(** The files store no feature array. *)
Definition nothing_filled : platform nat :=
  {| readShapesFromFile := fun _ => ([], [], []);
     probe := fun _ _ => Absent;
     std_shuffle := keep_order |}.

(** The object a call leaves, or the object it started from when the
    process does not survive the call. *)
Definition left_by {A : Type} (s : trainDataGenerator nat)
  (o : outcome nat A) : trainDataGenerator nat :=
  match state_after o with
  | Some s' => s'
  | None => s
  end.

(** [setFileList(files); setBatchSize(b)] on a new generator. *)
Definition configured (env : platform nat) (files : list string) (b : Z)
  : trainDataGenerator nat :=
  let s1 := left_by trainDataGenerator_new
              (setFileList env files trainDataGenerator_new) in
  left_by s1 (setBatchSize b s1).

(** [setBatchSize(b); setFileList(files)] on a new generator. *)
Definition configured_batch_first (env : platform nat)
  (files : list string) (b : Z) : trainDataGenerator nat :=
  let s1 := left_by trainDataGenerator_new
              (setBatchSize b trainDataGenerator_new) in
  left_by s1 (setFileList env files s1).

(** The configured generator after [prepareNextEpoch()]. *)
Definition epoch (env : platform nat) (files : list string) (b : Z)
  : trainDataGenerator nat :=
  let s := configured env files b in
  left_by s (prepareNextEpoch env 0 s).

(** The generator after one epoch of a single [getBatch()] and the
    [prepareNextEpoch()] that starts the next epoch. *)
Definition second_epoch (env : platform nat) (files : list string) (b : Z)
  : trainDataGenerator nat :=
  let s1 := epoch env files b in
  let s2 := left_by s1 (getBatch env 10 s1) in
  left_by s2 (prepareNextEpoch env 0 s2).

(** A generator whose worker has been started on file [f]. *)
Definition reading (f : string) : trainDataGenerator nat :=
  set_readthread_ joinable (set_nextread_ f trainDataGenerator_new).

(** The samples of the files in the order given, one file after the
    other. *)
Definition stream (order : list string) : list nat :=
  concat (map samples_of order).

(** [lastBatch()] answers true after exactly one of the calls. *)
Definition true_once (flags : list bool) : Prop :=
  count_occ bool_dec flags true = 1%nat.

(** The number of calls at which the answer of [lastBatch()] turns from
    false to true; [before] is the answer before the first call. *)
Fixpoint rises (before : bool) (flags : list bool) : nat :=
  match flags with
  | [] => O
  | flag :: rest =>
      ((if negb before && flag then 1 else 0) + rises flag rest)%nat
  end.

(** [setFileList] rejects the list: [readNTotal] throws for one of the
    files. *)
Definition rejected (o : outcome nat unit) : Prop :=
  exists f s', o = Throws (readNTotal_error f) s'.

End Example.

(** ** Budgets, streams and whole runs *)

Section Streams.

Context {T : Type}.
Variable env : platform T.

(** What one look at a file takes from the budget of [readBuffer]. *)
Definition look_cost (r : probe_result T) : Z :=
  match r with
  | Absent => 1
  | Corrupt _ => 2
  | Readable _ => 0
  end.

(** What the [k] looks at [f] from time [t] on take from the budget. *)
Fixpoint looks_cost (f : string) (t k : nat) : Z :=
  match k with
  | O => 0
  | S k' => look_cost (probe env t f) + looks_cost f (S t) k'
  end.

Definition unreadable (r : probe_result T) : Prop :=
  match r with
  | Readable _ => False
  | _ => True
  end.

(** The files do not change: [f] is there, parses, and holds the samples
    [content f], as many as its shape metadata announces. *)
Definition files_hold (content : string -> list T) : Prop :=
  forall t f,
    probe env t f = Readable (content f) /\
    leading_dim env f = Some (nElements (content f)).

(** The samples of the files of a list, one file after the other. *)
Definition stream_of (content : string -> list T) (order : list string)
  : list T :=
  flat_map content order.

(** The state of a generator between two turns of the batch loop, over
    files that hold [content]: [handed] are the samples handed out so far
    and [lead] the samples that came before those of the file list.  The
    samples handed out, those in store and those the worker is loading are
    [lead] followed by the files before the cursor. *)
Definition streaming (content : string -> list T) (lead handed : list T)
  (s : trainDataGenerator T) : Prop :=
  0 < batchsize_ s /\ 0 < filetimeout_ s /\
  buffer_read s = [] /\
  0 <= filecount_ s <= Z.of_nat (length (shuffled_infiles_ s)) /\
  Z.of_nat (length (shuffled_infiles_ s)) < 2 ^ 64 /\
  ntotal_ s = sum_leading_dims env (shuffled_infiles_ s) /\
  ntotal_ s < 2 ^ 63 /\ nElements lead < 2 ^ 63 /\
  nsamplesprocessed_ s = nElements handed /\
  match readthread_ s with
  | joinable =>
      handed ++ buffer_store s ++ content (nextread_ s) =
      lead ++ stream_of content
                (firstn (Z.to_nat (filecount_ s)) (shuffled_infiles_ s))
  | null =>
      handed ++ buffer_store s =
      lead ++ stream_of content
                (firstn (Z.to_nat (filecount_ s)) (shuffled_infiles_ s))
  | dangling => False
  end.

(** A generator that can start an epoch: batch size and timeout are
    positive, the worker handle is null or points to a running worker, and
    the total is the one the files of its list announce. *)
Definition ready (s : trainDataGenerator T) : Prop :=
  0 < batchsize_ s /\ 0 < filetimeout_ s /\ readthread_ s <> dangling /\
  Z.of_nat (length (shuffled_infiles_ s)) < 2 ^ 64 /\
  ntotal_ s = sum_leading_dims env (shuffled_infiles_ s) /\
  ntotal_ s < 2 ^ 63.

(** The two halves of [prepareBatch_turn]: the join of the worker, and
    what follows it. *)
Definition turn_join : M T unit :=
  bind (get readthread_)
    (fun p =>
       match p with
       | null => ret tt
       | _ =>
           bind (thread_join env)
             (fun _ =>
                bind thread_delete (fun _ => modify (set_readthread_ null)))
       end).

Definition turn_top_up : M T Z :=
  bind (modify
          (fun s => set_buffer_store (append (buffer_store s) (buffer_read s)) s))
    (fun _ =>
  bind (modify (fun s => set_buffer_read (clear (buffer_read s)) s))
    (fun _ =>
  bind (get (fun s => nElements (buffer_store s)))
    (fun bufferelements =>
  bind (get nsamplesprocessed_)
    (fun processed =>
  bind (get ntotal_)
    (fun total =>
  bind
    (if wrap64 (processed + bufferelements) <? total then
       bind (get filecount_)
         (fun fc =>
       bind (get shuffled_infiles_)
         (fun files =>
            if Z.of_nat (length files) <=? fc then throw getBatch_error
            else
              bind (vector_at files fc)
                (fun f =>
              bind (modify (set_nextread_ f))
                (fun _ =>
              bind (modify (set_filecount_ (wrap64 (fc + 1))))
                (fun _ => thread_new)))))
     else ret tt)
    (fun _ => ret bufferelements)))))).

(** [setFileList(files); setBatchSize(b)] as one computation. *)
Definition configure (files : list string) (b : Z) : M T unit :=
  bind (setFileList env files) (fun _ => setBatchSize b).

(** [setBatchSize(b); setFileList(files)] as one computation. *)
Definition configure_batch_first (files : list string) (b : Z) : M T unit :=
  bind (setBatchSize b) (fun _ => setFileList env files).

(** Successive epochs: for each entropy value [prepareNextEpoch()] and
    then [n] [getBatch()] calls; the batches of each epoch. *)
Fixpoint run_epochs (fuel n : nat) (rds : list Z) (s : trainDataGenerator T)
  : outcome T (list (list (trainData T))) :=
  match rds with
  | [] => Returns [] s
  | rd :: rest =>
      bind (prepareNextEpoch env rd)
        (fun _ =>
           bind (getBatches env fuel n)
             (fun bs =>
                bind (run_epochs fuel n rest) (fun more => ret (bs :: more))))
        s
  end.

(** The call returned or is still in its loop: it did not throw, end the
    process or leave defined behaviour. *)
Definition returns_or_spins {A : Type} (o : outcome T A) : Prop :=
  match o with
  | Returns _ _ => True
  | Unfinished => True
  | _ => False
  end.

(** An outcome with the object changed by [f] where there is one. *)
Definition outcome_map {A : Type}
  (f : trainDataGenerator T -> trainDataGenerator T) (o : outcome T A)
  : outcome T A :=
  match o with
  | Returns a s => Returns a (f s)
  | Throws e s => Throws e (f s)
  | Terminated => Terminated
  | Undefined => Undefined
  | Unfinished => Unfinished
  end.

(** [debug] is a public data member: the caller's assignment
    [g.debug = v]. *)
Definition set_debug (v : bool) (s : trainDataGenerator T)
  : trainDataGenerator T :=
  {| debug := v; orig_infiles_ := orig_infiles_ s;
     shuffled_infiles_ := shuffled_infiles_ s; randomcount_ := randomcount_ s;
     batchsize_ := batchsize_ s; buffer_store := buffer_store s;
     buffer_read := buffer_read s; readthread_ := readthread_ s;
     nextread_ := nextread_ s; filecount_ := filecount_ s;
     nbatches_ := nbatches_ s; ntotal_ := ntotal_ s;
     nsamplesprocessed_ := nsamplesprocessed_ s;
     lastbatchsize_ := lastbatchsize_ s; filetimeout_ := filetimeout_ s;
     threading_ := threading_ s; clock := clock s |}.

(** [g.debug = d; g.enableThreading(en)]: the two flags of the object. *)
Definition set_flags (d en : bool) (s : trainDataGenerator T)
  : trainDataGenerator T :=
  set_debug d (set_threading_ en s).

(** The computation [m] neither reads nor writes the two flags: run on an
    object whose flags were set it ends as on the object itself, the
    flags apart. *)
Definition blind_to (d en : bool) {A : Type} (m : M T A) : Prop :=
  forall s, m (set_flags d en s) = outcome_map (set_flags d en) (m s).

End Streams.

(** ** More files and readers *)

Module Cases.

Import Example.

Local Open Scope string_scope.

(** A file that is missing at the first look, fails to parse at the
    second, is missing again at the third and is read at the fourth. *)
Definition flaky : platform nat :=
  {| readShapesFromFile := shapes_of;
     probe := fun t f =>
                match t with
                | 0%nat => Absent
                | 1%nat => Corrupt "truncated"
                | 2%nat => Absent
                | _ => Readable (samples_of f)
                end;
     std_shuffle := keep_order |}.

(** File [B] stores no feature array; the other files are as in
    [steady]. *)
Definition half_filled : platform nat :=
  {| readShapesFromFile :=
       fun f => if String.eqb f "B" then ([], [], []) else shapes_of f;
     probe := fun _ f => Readable (samples_of f);
     std_shuffle := keep_order |}.



End Cases.

(** * Properties *)

(** ** Machine integers and the engine *)

Lemma wrap64_small x : size_t_range x -> wrap64 x = x.
Proof. unfold size_t_range, wrap64. intros H. apply Z.mod_small. exact H. Qed.

Lemma wrap64_range x : size_t_range (wrap64 x).
Proof. unfold size_t_range, wrap64. apply Z.mod_pos_bound. lia. Qed.

Lemma wrap64_add_l a b : wrap64 (wrap64 a + b) = wrap64 (a + b).
Proof. unfold wrap64. apply Zplus_mod_idemp_l. Qed.

Lemma wrap_int_small x : - 2 ^ 31 <= x < 2 ^ 31 -> wrap_int x = x.
Proof. unfold wrap_int. intros H. rewrite Z.mod_small; lia. Qed.

Lemma mt19937_seed_new g value : mt19937_seed g value = mt19937_new value.
Proof. reflexivity. Qed.

(** ** What the worker and the batch loop leave alone *)

Ltac run_monad :=
  unfold bind, ret, get, modify, throw, undefined, thread_delete, thread_new,
    vector_at, size_t_div in *; simpl in *.

(** The part of [prepareNextEpoch] after the join, run on a given state:
    only the monad and the setters are unfolded. *)
Ltac run_epoch_start :=
  cbv beta iota zeta delta
    [bind modify get shuffleFilelist vector_at thread_new thread_delete ret
     throw clear];
  cbn [shuffled_infiles_ filecount_ randomcount_ set_shuffled_infiles_
       set_randomcount_ set_nsamplesprocessed_ set_filecount_ set_buffer_read
       set_buffer_store set_nextread_ set_readthread_ Z.to_nat nth_error].

Section Properties.

Context {T : Type}.
Variable env : platform T.


Lemma readBuffer_while_frame fuel :
  forall ntries s s',
    state_after (readBuffer_while env fuel ntries s) = Some s' ->
    worker_frame s' = worker_frame s.
Proof.
  induction fuel as [|fuel IH]; intros ntries s s'; simpl.
  - destruct (ntries <? filetimeout_ s); simpl; [discriminate|].
    intros H; injection H as <-. reflexivity.
  - destruct (ntries <? filetimeout_ s); simpl.
    + destruct (probe env (clock s) (nextread_ s)).
      * intros H. apply IH in H. rewrite H. reflexivity.
      * intros H. apply IH in H. rewrite H. reflexivity.
      * simpl. intros H; injection H as <-. reflexivity.
    + intros H; injection H as <-. reflexivity.
Qed.

Lemma readBuffer_frame s s' :
  state_after (readBuffer env s) = Some s' -> worker_frame s' = worker_frame s.
Proof.
  unfold readBuffer, bind, get. apply readBuffer_while_frame.
Qed.

Lemma thread_join_returns s o :
  thread_join env s = o ->
  match o with
  | Returns _ s' =>
      readthread_ s = joinable /\ readBuffer env s = Returns tt s'
  | Throws _ _ => False
  | _ => True
  end.
Proof.
  intros <-. unfold thread_join.
  destruct (readthread_ s); simpl; auto.
  destruct (readBuffer env s) as [[] s1| | | |]; auto.
Qed.

Lemma thread_join_frame s s' :
  state_after (thread_join env s) = Some s' -> worker_frame s' = worker_frame s.
Proof.
  intros H. pose proof (thread_join_returns s _ eq_refl) as J.
  destruct (thread_join env s); simpl in H; try discriminate; try contradiction.
  injection H as <-. destruct J as [_ J].
  apply readBuffer_frame. rewrite J. reflexivity.
Qed.



Lemma prepareBatch_turn_frame s s' :
  state_after (prepareBatch_turn env s) = Some s' -> settings s' = settings s.
Proof.
  unfold prepareBatch_turn. run_monad.
  assert (J : forall s1, state_after (thread_join env s) = Some s1 ->
                         settings s1 = settings s).
  { intros s1 H. apply thread_join_frame in H. unfold worker_frame in H. congruence. }
  destruct (readthread_ s) eqn:P.
  - clear J.
    destruct (wrap64 _ <? ntotal_ s); simpl.
    + destruct (Z.of_nat _ <=? filecount_ s); simpl.
      * intros H; injection H as <-. reflexivity.
      * destruct (nth_error _ _); simpl;
          [destruct (filecount_ s <? _); simpl|];
          intros H; injection H as <-; reflexivity.
    + intros H; injection H as <-. reflexivity.
  - destruct (thread_join env s) as [[] s1|e s1| | |]; simpl; try discriminate;
      [|intros H; injection H as <-; exact (J _ eq_refl)].
    specialize (J s1 eq_refl). revert J. unfold settings. intros J.
    injection J as J1 J2 J3 J4 J5 J6 J7 J8 J9 J10 J11.
    destruct (wrap64 _ <? ntotal_ s1); simpl.
    + destruct (Z.of_nat _ <=? filecount_ s1); simpl.
      * intros H; injection H as <-. simpl. congruence.
      * destruct (nth_error _ _); simpl;
          [destruct (filecount_ s1 <? _); simpl|];
          intros H; injection H as <-; simpl; congruence.
    + intros H; injection H as <-. simpl. congruence.
  - unfold thread_join. rewrite P. simpl. discriminate.
Qed.


Lemma prepareBatch_turn_count s b s' :
  prepareBatch_turn env s = Returns b s' -> b = nElements (buffer_store s').
Proof.
  unfold prepareBatch_turn. run_monad.
  destruct (readthread_ s) eqn:P.
  - destruct (wrap64 _ <? ntotal_ s); simpl.
    + destruct (Z.of_nat _ <=? filecount_ s); simpl; [discriminate|].
      destruct (nth_error _ _); simpl;
        [destruct (filecount_ s <? _); simpl|]; try discriminate.
      intros H; injection H as <- <-. reflexivity.
    + intros H; injection H as <- <-. reflexivity.
  - destruct (thread_join env s) as [[] s1|e s1| | |]; simpl; try discriminate.
    destruct (wrap64 _ <? ntotal_ s1); simpl.
    + destruct (Z.of_nat _ <=? filecount_ s1); simpl; [discriminate|].
      destruct (nth_error _ _); simpl;
        [destruct (filecount_ s1 <? _); simpl|]; try discriminate.
      intros H; injection H as <- <-. reflexivity.
    + intros H; injection H as <- <-. reflexivity.
  - unfold thread_join. rewrite P. simpl. discriminate.
Qed.

Lemma prepareBatch_while_frame fuel :
  forall b s s',
    state_after (prepareBatch_while env fuel b s) = Some s' ->
    settings s' = settings s.
Proof.
  induction fuel as [|fuel IH]; intros b s s'; simpl.
  - destruct (b <? batchsize_ s); simpl; [discriminate|].
    intros H; injection H as <-. reflexivity.
  - destruct (b <? batchsize_ s); simpl.
    + unfold bind.
      pose proof (prepareBatch_turn_frame s) as F.
      destruct (prepareBatch_turn env s) as [b1 s1|e s1| | |]; simpl;
        try discriminate.
      * intros H. apply IH in H. rewrite H. apply F. reflexivity.
      * intros H. apply F. exact H.
    + intros H; injection H as <-. reflexivity.
Qed.

Lemma prepareBatch_while_count fuel :
  forall b s b' s',
    b = nElements (buffer_store s) ->
    prepareBatch_while env fuel b s = Returns b' s' ->
    b' = nElements (buffer_store s') /\ batchsize_ s' <= b'.
Proof.
  induction fuel as [|fuel IH]; intros b s b' s' Hb; simpl.
  - destruct (b <? batchsize_ s) eqn:C; [discriminate|].
    intros H; injection H as <- <-. split; [exact Hb|]. lia.
  - destruct (b <? batchsize_ s) eqn:C.
    + unfold bind.
      destruct (prepareBatch_turn env s) as [b1 s1|e s1| | |] eqn:E;
        try discriminate.
      apply IH. eapply prepareBatch_turn_count; eassumption.
    + intros H; injection H as <- <-. split; [exact Hb|]. lia.
Qed.

(** What a returning [getBatch()] does, in terms of the loop's result. *)
Lemma getBatch_inv fuel s batch s' :
  getBatch env fuel s = Returns batch s' ->
  exists b1 s1,
    prepareBatch_while env fuel (nElements (buffer_store s)) s = Returns b1 s1 /\
    batch = firstn (Z.to_nat (batchsize_ s1)) (buffer_store s1) /\
    s' = set_buffer_store (skipn (Z.to_nat (batchsize_ s1)) (buffer_store s1))
           (set_lastbatchsize_ (batchsize_ s1)
              (set_nsamplesprocessed_
                 (wrap64 (nsamplesprocessed_ s1 + batchsize_ s1)) s1)).
Proof.
  unfold getBatch, prepareBatch. run_monad.
  destruct (prepareBatch_while env fuel _ s) as [b1 s1|e s1| | |];
    try discriminate.
  intros H; injection H as <- <-. exists b1, s1. auto.
Qed.

Lemma getBatch_throws fuel s e s' :
  getBatch env fuel s = Throws e s' -> settings s' = settings s.
Proof.
  unfold getBatch, prepareBatch. run_monad.
  pose proof (prepareBatch_while_frame fuel (nElements (buffer_store s)) s) as F.
  destruct (prepareBatch_while env fuel _ s) as [b1 s1|e1 s1| | |];
    try discriminate.
  intros H; injection H as <- <-. apply F. reflexivity.
Qed.

(** A returning [getBatch()] hands out exactly [batchsize_] samples, adds
    [batchsize_] to [nsamplesprocessed_] and records it in
    [lastbatchsize_]; the rest of the settings is untouched. *)
Lemma getBatch_returns fuel s batch s' :
  getBatch env fuel s = Returns batch s' ->
  0 <= batchsize_ s ->
  nElements batch = batchsize_ s /\
  nsamplesprocessed_ s' = wrap64 (nsamplesprocessed_ s + batchsize_ s) /\
  lastbatchsize_ s' = batchsize_ s /\
  batchsize_ s' = batchsize_ s /\ ntotal_ s' = ntotal_ s /\
  nbatches_ s' = nbatches_ s /\ filetimeout_ s' = filetimeout_ s /\
  orig_infiles_ s' = orig_infiles_ s /\
  shuffled_infiles_ s' = shuffled_infiles_ s /\
  randomcount_ s' = randomcount_ s.
Proof.
  intros H Hb. apply getBatch_inv in H.
  destruct H as (b1 & s1 & W & -> & ->).
  pose proof (prepareBatch_while_frame fuel (nElements (buffer_store s)) s s1) as F.
  rewrite W in F. specialize (F eq_refl). unfold settings in F.
  injection F as F1 F2 F3 F4 F5 F6 F7 F8 F9 F10 F11.
  apply prepareBatch_while_count in W; [|reflexivity].
  destruct W as [W1 W2]. simpl.
  repeat split; try congruence.
  unfold nElements in *. rewrite length_firstn.
  rewrite F5 in *. lia.
Qed.

(** ** Configuration *)


(** *** setFileList *)

Lemma readNTotal_for_ok files :
  forall s,
    first_unfilled env files = None ->
    size_t_range (ntotal_ s) ->
    readNTotal_for env files s =
      Returns tt (set_ntotal_ (wrap64 (ntotal_ s + sum_leading_dims env files)) s).
Proof.
  induction files as [|f rest IH]; intros s U R; simpl in *.
  - rewrite Z.add_0_r, wrap64_small by exact R. destruct s; reflexivity.
  - unfold leading_dim in *.
    destruct (readShapesFromFile env f) as [[fs ts] ws]; simpl in *.
    destruct fs as [|[|n dims] more]; try discriminate.
    unfold bind, modify. rewrite IH; [|exact U|apply wrap64_range].
    simpl. rewrite wrap64_add_l, Z.add_assoc. reflexivity.
Qed.

Lemma readNTotal_for_unfilled files f :
  forall s,
    first_unfilled env files = Some f ->
    exists s',
      readNTotal_for env files s = Throws (readNTotal_error f) s' /\
      orig_infiles_ s' = orig_infiles_ s /\
      shuffled_infiles_ s' = shuffled_infiles_ s.
Proof.
  induction files as [|g rest IH]; intros s U; simpl in *; [discriminate|].
  unfold leading_dim in *.
  destruct (readShapesFromFile env g) as [[fs ts] ws]; simpl in *.
  destruct fs as [|[|n dims] more].
  - injection U as <-. exists s. auto.
  - injection U as <-. exists s. auto.
  - unfold bind, modify.
    destruct (IH (set_ntotal_ (wrap64 (ntotal_ s + n)) s) U) as (s' & E & O & S).
    exists s'. rewrite E. auto.
Qed.

Lemma readNTotal_for_same_shapes (env' : platform T) files :
  (forall f, readShapesFromFile env' f = readShapesFromFile env f) ->
  forall s, readNTotal_for env' files s = readNTotal_for env files s.
Proof.
  intros Same. induction files as [|f rest IH]; intros s; simpl; [reflexivity|].
  rewrite Same. destruct (readShapesFromFile env f) as [[fs ts] ws].
  destruct fs as [|[|n dims] more]; try reflexivity.
  unfold bind, modify. apply IH.
Qed.

(** Claim C8, as amended.  [setFileList] reads the shape metadata only:
    platforms that agree on [readShapesFromFile] give the same outcome.
    It throws for the first file that has no feature array or whose first
    feature array has no dimension.  When there is no such file (a leading
    dimension of 0 is accepted) it returns with [ntotal_] the sum of the
    leading dimensions of the first feature arrays, taken in [size_t];
    that is the plain sum when the sum fits. *)
Theorem setFileList_sums_leading_dims files s :
  (forall env' : platform T,
      (forall f, readShapesFromFile env' f = readShapesFromFile env f) ->
      setFileList env' files s = setFileList env files s) /\
  match first_unfilled env files with
  | Some f =>
      exists s',
        setFileList env files s = Throws (readNTotal_error f) s' /\
        orig_infiles_ s' = files /\ shuffled_infiles_ s' = files
  | None =>
      batchsize_ s <> 0 ->
      exists s',
        setFileList env files s = Returns tt s' /\
        ntotal_ s' = wrap64 (sum_leading_dims env files) /\
        (size_t_range (sum_leading_dims env files) ->
         ntotal_ s' = sum_leading_dims env files) /\
        nbatches_ s' = ntotal_ s' / batchsize_ s /\
        orig_infiles_ s' = files /\ shuffled_infiles_ s' = files
  end.
Proof.
  split.
  - intros env' Same. unfold setFileList, readNTotal. run_monad.
    rewrite (readNTotal_for_same_shapes env' files Same). reflexivity.
  - destruct (first_unfilled env files) as [f|] eqn:U.
    + unfold setFileList, readNTotal. run_monad.
      destruct (readNTotal_for_unfilled files f
                  (set_ntotal_ 0 (set_shuffled_infiles_ files
                                    (set_orig_infiles_ files s))) U)
        as (s' & E & O & S).
      exists s'. rewrite E. auto.
    + intros B. unfold setFileList, readNTotal. run_monad.
      rewrite readNTotal_for_ok; [|exact U|simpl; unfold size_t_range; lia].
      simpl. apply Z.eqb_neq in B. rewrite B. simpl.
      eexists. split; [reflexivity|]. simpl.
      repeat split; auto. intros R. apply wrap64_small. exact R.
Qed.

(** ** Epochs *)


(** *** shuffleFilelist *)

Lemma shuffleFilelist_eq rd s :
  shuffleFilelist env rd s =
    Returns tt
      (set_shuffled_infiles_
         (std_shuffle env (mt19937_new (randomcount_ s)) (shuffled_infiles_ s))
         (set_randomcount_ (wrap_int (randomcount_ s + 1)) s)).
Proof. reflexivity. Qed.

Lemma shuffle_orders_length rds :
  forall s, length (shuffle_orders env rds s) = length rds.
Proof.
  induction rds as [|rd rest IH]; intros s; simpl; [reflexivity|].
  rewrite IH. reflexivity.
Qed.

Lemma shuffle_orders_entropy_free rds1 :
  forall rds2 s1 s2,
    length rds1 = length rds2 ->
    randomcount_ s1 = randomcount_ s2 ->
    shuffled_infiles_ s1 = shuffled_infiles_ s2 ->
    shuffle_orders env rds1 s1 = shuffle_orders env rds2 s2.
Proof.
  induction rds1 as [|rd1 rest1 IH]; intros [|rd2 rest2] s1 s2 L C S;
    simpl in L; try discriminate; [reflexivity|].
  cbn [shuffle_orders]. rewrite !shuffleFilelist_eq, C, S.
  apply f_equal.
  apply IH; cbn [randomcount_ shuffled_infiles_ set_shuffled_infiles_
                 set_randomcount_]; congruence || (now injection L).
Qed.

(** Claim C6.  The counter starts at 1; every [shuffleFilelist] call
    shuffles with an engine seeded by the counter and adds one to it; two
    runs that start from the same counter and the same file list produce
    the same sequence of file orders, whatever [std::random_device]
    yields in either. *)
Theorem shuffle_sequence_deterministic :
  randomcount_ (@trainDataGenerator_new T) = 1 /\
  (forall rd s,
      exists s',
        shuffleFilelist env rd s = Returns tt s' /\
        shuffled_infiles_ s' =
          std_shuffle env (mt19937_new (randomcount_ s)) (shuffled_infiles_ s) /\
        (- 2 ^ 31 <= randomcount_ s < 2 ^ 31 - 1 ->
         randomcount_ s' = randomcount_ s + 1)) /\
  (forall rds1 rds2 s1 s2,
      length rds1 = length rds2 ->
      randomcount_ s1 = randomcount_ s2 ->
      shuffled_infiles_ s1 = shuffled_infiles_ s2 ->
      length (shuffle_orders env rds1 s1) = length rds1 /\
      shuffle_orders env rds1 s1 = shuffle_orders env rds2 s2).
Proof.
  split; [reflexivity|]. split.
  - intros rd s. eexists. split; [apply shuffleFilelist_eq|].
    simpl. split; [reflexivity|].
    intros R. apply wrap_int_small. lia.
  - intros rds1 rds2 s1 s2 L C S. split.
    + apply shuffle_orders_length.
    + apply shuffle_orders_entropy_free; assumption.
Qed.

(** *** prepareNextEpoch *)

Lemma prepareNextEpoch_null rd s :
  readthread_ s = null -> prepareNextEpoch env rd s = epoch_start env s.
Proof.
  intros P. unfold prepareNextEpoch. unfold bind at 1. unfold get at 1.
  rewrite P. unfold bind at 1. unfold ret at 1. unfold epoch_start.
  rewrite <- (mt19937_seed_new (mt19937_new rd)).
  run_epoch_start.
  destruct (std_shuffle env _ _) as [|f rest]; reflexivity.
Qed.

Lemma prepareNextEpoch_joinable rd s :
  readthread_ s = joinable ->
  prepareNextEpoch env rd s =
    match readBuffer env s with
    | Returns _ s1 => epoch_start env (set_readthread_ dangling s1)
    | Throws _ _ => Terminated
    | Terminated => Terminated
    | Undefined => Undefined
    | Unfinished => Unfinished
    end.
Proof.
  intros P. unfold prepareNextEpoch. unfold bind at 1. unfold get at 1.
  rewrite P. unfold bind at 1. unfold bind at 1. unfold thread_join.
  rewrite P.
  destruct (readBuffer env s) as [[] s1|e s1| | |]; try reflexivity.
  unfold epoch_start.
  rewrite <- (mt19937_seed_new (mt19937_new rd)).
  run_epoch_start.
  destruct (std_shuffle env _ _) as [|f rest]; reflexivity.
Qed.

Lemma prepareNextEpoch_dangling rd s :
  readthread_ s = dangling -> prepareNextEpoch env rd s = Undefined.
Proof.
  intros P. unfold prepareNextEpoch. unfold bind at 1. unfold get at 1.
  rewrite P. unfold bind at 1. unfold bind at 1. unfold thread_join.
  rewrite P. reflexivity.
Qed.

Lemma epoch_start_after s1 s' :
  state_after (epoch_start env s1) = Some s' ->
  orig_infiles_ s' = orig_infiles_ s1 /\
  shuffled_infiles_ s' =
    std_shuffle env (mt19937_new (randomcount_ s1)) (shuffled_infiles_ s1) /\
  nsamplesprocessed_ s' = 0 /\ filecount_ s' = 0 /\
  buffer_store s' = [] /\ buffer_read s' = [].
Proof.
  unfold epoch_start.
  destruct (std_shuffle env _ _) as [|f rest] eqn:E; simpl;
    intros H; injection H as <-; simpl; rewrite ?E; auto 10.
Qed.

Lemma prepareNextEpoch_after rd s s' :
  state_after (prepareNextEpoch env rd s) = Some s' ->
  orig_infiles_ s' = orig_infiles_ s /\
  shuffled_infiles_ s' =
    std_shuffle env (mt19937_new (randomcount_ s)) (shuffled_infiles_ s) /\
  nsamplesprocessed_ s' = 0 /\ filecount_ s' = 0 /\
  buffer_store s' = [] /\ buffer_read s' = [].
Proof.
  destruct (readthread_ s) eqn:P.
  - rewrite prepareNextEpoch_null by exact P. apply epoch_start_after.
  - rewrite prepareNextEpoch_joinable by exact P.
    pose proof (readBuffer_frame s) as F.
    destruct (readBuffer env s) as [[] s1|e s1| | |]; simpl; try discriminate.
    specialize (F s1 eq_refl). unfold worker_frame, settings in F.
    intros H. apply epoch_start_after in H. simpl in H.
    injection F as F1 F2 F3 F4 F5 F6 F7 F8 F9 F10 F11 F12 F13 F14 F15.
    rewrite <- F2, <- F3, <- F4. exact H.
  - rewrite prepareNextEpoch_dangling by exact P. discriminate.
Qed.


(** ** The file lists *)


Lemma readNTotal_for_lists files :
  forall s s',
    state_after (readNTotal_for env files s) = Some s' ->
    orig_infiles_ s' = orig_infiles_ s /\
    shuffled_infiles_ s' = shuffled_infiles_ s.
Proof.
  induction files as [|f rest IH]; intros s s'; simpl.
  - intros H; injection H as <-. auto.
  - destruct (readShapesFromFile env f) as [[fs ts] ws].
    destruct fs as [|[|n dims] more]; simpl;
      try (intros H; injection H as <-; auto).
    unfold bind, modify. intros H. apply IH in H. exact H.
Qed.

Lemma setFileList_lists files s s' :
  state_after (setFileList env files s) = Some s' ->
  orig_infiles_ s' = files /\ shuffled_infiles_ s' = files.
Proof.
  unfold setFileList, readNTotal. run_monad.
  pose proof (readNTotal_for_lists files
                (set_ntotal_ 0 (set_shuffled_infiles_ files
                                  (set_orig_infiles_ files s)))) as F.
  destruct (readNTotal_for env files _) as [[] s1|e s1| | |]; simpl;
    try discriminate.
  - specialize (F s1 eq_refl). simpl in F.
    destruct (batchsize_ s1 =? 0); simpl; [discriminate|].
    intros H; injection H as <-. exact F.
  - intros H; injection H as <-. apply (F s1 eq_refl).
Qed.

Lemma setBatchSize_lists n (s s' : trainDataGenerator T) :
  state_after (setBatchSize n s) = Some s' ->
  orig_infiles_ s' = orig_infiles_ s /\
  shuffled_infiles_ s' = shuffled_infiles_ s.
Proof.
  unfold setBatchSize. run_monad.
  destruct (n =? 0); simpl; [discriminate|].
  intros H; injection H as <-. auto.
Qed.

Lemma end_lists s s' :
  state_after (end_ env s) = Some s' ->
  orig_infiles_ s' = orig_infiles_ s /\
  shuffled_infiles_ s' = shuffled_infiles_ s.
Proof.
  unfold end_. run_monad.
  destruct (readthread_ s) eqn:P; simpl.
  - intros H; injection H as <-. auto.
  - pose proof (thread_join_frame s) as F.
    destruct (thread_join env s) as [[] s1|e s1| | |]; simpl;
      try discriminate.
    + specialize (F s1 eq_refl). unfold worker_frame, settings in F.
      intros H; injection H as <-. simpl. split; congruence.
    + specialize (F s1 eq_refl). unfold worker_frame, settings in F.
      intros H; injection H as <-. split; congruence.
  - unfold thread_join. rewrite P. discriminate.
Qed.

Lemma getBatch_lists fuel s s' :
  state_after (getBatch env fuel s) = Some s' ->
  orig_infiles_ s' = orig_infiles_ s /\
  shuffled_infiles_ s' = shuffled_infiles_ s.
Proof.
  destruct (getBatch env fuel s) as [b s1|e s1| | |] eqn:E; simpl;
    try discriminate; intros H; injection H as <-.
  - apply getBatch_inv in E. destruct E as (b1 & s2 & W & _ & ->).
    pose proof (prepareBatch_while_frame fuel (nElements (buffer_store s)) s s2) as F.
    rewrite W in F. specialize (F eq_refl). unfold settings in F.
    simpl. split; congruence.
  - apply getBatch_throws in E. unfold settings in E. split; congruence.
Qed.

(** Claim C7.  In every state a generator can reach,
    [shuffled_infiles_] is a permutation of [orig_infiles_]; of the calls,
    [setFileList] sets both lists to its argument, [prepareNextEpoch]
    permutes [shuffled_infiles_] and leaves [orig_infiles_], and
    [setBatchSize], [setFileTimeout], [enableThreading], [getBatch] and
    [end] leave both lists as they are, whether they return or throw. *)
Theorem shuffled_is_permutation_of_original s :
  shuffle_permutes env ->
  reachable env s ->
  Permutation (orig_infiles_ s) (shuffled_infiles_ s) /\
  forall c s',
    run_call env c s = Some s' ->
    orig_infiles_ s' =
      match c with
      | call_setFileList files => files
      | _ => orig_infiles_ s
      end /\
    match c with
    | call_setFileList files => shuffled_infiles_ s' = files
    | call_prepareNextEpoch _ =>
        Permutation (shuffled_infiles_ s) (shuffled_infiles_ s')
    | _ => shuffled_infiles_ s' = shuffled_infiles_ s
    end.
Proof.
  intros Perm.
  assert (Step : forall s0 c s',
             run_call env c s0 = Some s' ->
             orig_infiles_ s' =
               match c with
               | call_setFileList files => files
               | _ => orig_infiles_ s0
               end /\
             match c with
             | call_setFileList files => shuffled_infiles_ s' = files
             | call_prepareNextEpoch _ =>
                 Permutation (shuffled_infiles_ s0) (shuffled_infiles_ s')
             | _ => shuffled_infiles_ s' = shuffled_infiles_ s0
             end).
  { intros s0 c s' H. destruct c; simpl in H.
    - apply setFileList_lists in H. exact H.
    - apply setBatchSize_lists in H. exact H.
    - injection H as <-. auto.
    - injection H as <-. auto.
    - apply prepareNextEpoch_after in H. destruct H as (O & S & _).
      split; [exact O|]. rewrite S. apply Perm.
    - apply getBatch_lists in H. exact H.
    - apply end_lists in H. exact H. }
  intros R. split; [|apply Step].
  induction R as [|s0 c s' R IH H].
  - apply Permutation_refl.
  - apply Step in H. destruct H as [O S]. rewrite O.
    destruct c; try (rewrite S; exact IH).
    + rewrite S. apply Permutation_refl.
    + eapply Permutation_trans; [exact IH|exact S].
Qed.

(** ** Batch accounting *)


(** Claim C10.  On a newly constructed generator [lastBatch()] answers
    true: [nsamplesprocessed_], [ntotal_] and [lastbatchsize_] are all 0. *)
Theorem lastBatch_on_fresh_generator :
  lastBatch (@trainDataGenerator_new T) = true /\
  nsamplesprocessed_ (@trainDataGenerator_new T) = 0 /\
  ntotal_ (@trainDataGenerator_new T) = 0 /\
  lastbatchsize_ (@trainDataGenerator_new T) = 0.
Proof. repeat split. Qed.

Lemma lastBatch_iff (s : trainDataGenerator T) :
  lastBatch s = true <->
  nsamplesprocessed_ s >= wrap64 (ntotal_ s - lastbatchsize_ s).
Proof. unfold lastBatch. rewrite Z.leb_le. lia. Qed.

Lemma lastBatch_trace_flags fuel n :
  forall j s flags s',
    0 < batchsize_ s -> ntotal_ s < 2 ^ 64 ->
    0 <= j ->
    nsamplesprocessed_ s = j * batchsize_ s ->
    (j + Z.of_nat n) * batchsize_ s <= ntotal_ s ->
    lastBatch_trace env fuel n s = Returns flags s' ->
    length flags = n /\
    forall k, (k < n)%nat ->
      nth k flags false =
        (ntotal_ s - batchsize_ s <=? (j + Z.of_nat k + 1) * batchsize_ s).
Proof.
  induction n as [|n IH]; intros j s flags s' B R J P Fit; simpl.
  - intros H; injection H as <- <-. split; [reflexivity|]. intros k K. lia.
  - unfold bind.
    destruct (getBatch env fuel s) as [b s1|e s1| | |] eqn:G; try discriminate.
    destruct (lastBatch_trace env fuel n s1) as [fl s2|e s2| | |] eqn:Tr;
      try discriminate.
    unfold ret. intros H; injection H as <- <-.
    apply getBatch_returns in G; [|lia].
    destruct G as (_ & G1 & G2 & G3 & G4 & _).
    assert (P1 : nsamplesprocessed_ s1 = (j + 1) * batchsize_ s1).
    { rewrite G1, G3, P. rewrite wrap64_small; [lia|].
      unfold size_t_range. nia. }
    assert (Fit1 : (j + 1 + Z.of_nat n) * batchsize_ s1 <= ntotal_ s1).
    { rewrite G3, G4. lia. }
    destruct (IH (j + 1) s1 fl s2) as [L F]; try assumption; try lia.
    split; [simpl; congruence|]. rewrite G3, G4 in F.
    intros [|k] K.
    + simpl. unfold lastBatch. rewrite G4, G2, P1, G3.
      rewrite wrap64_small; [|unfold size_t_range; nia].
      f_equal. lia.
    + simpl. rewrite F by lia. f_equal. lia.
Qed.

(** ** The loops *)


(** *** readBuffer *)

Lemma readBuffer_while_readable fuel ntries s content :
  ntries < filetimeout_ s ->
  probe env (clock s) (nextread_ s) = Readable content ->
  readBuffer_while env (S fuel) ntries s =
    Returns tt (set_buffer_read content s).
Proof.
  intros L P. simpl. apply Z.ltb_lt in L. rewrite L, P. reflexivity.
Qed.

Lemma readBuffer_readable s content :
  0 < filetimeout_ s ->
  probe env (clock s) (nextread_ s) = Readable content ->
  readBuffer env s = Returns tt (set_buffer_read content s).
Proof.
  intros L P. unfold readBuffer, bind, get.
  destruct (Z.to_nat (filetimeout_ s)) as [|fuel] eqn:E; [lia|].
  apply readBuffer_while_readable; assumption.
Qed.

(** A file that stays absent is looked at once per unit of the budget. *)
Lemma readBuffer_while_absent fuel :
  forall ntries s,
    0 <= ntries -> filetimeout_ s < 2 ^ 64 ->
    (Z.to_nat (filetimeout_ s - ntries) <= fuel)%nat ->
    (forall t, (clock s <= t)%nat -> probe env t (nextread_ s) = Absent) ->
    exists s',
      readBuffer_while env fuel ntries s =
        Throws (readBuffer_error (nextread_ s)) s' /\
      buffer_read s' = [] /\
      clock s' = (clock s + Z.to_nat (filetimeout_ s - ntries))%nat.
Proof.
  induction fuel as [|fuel IH]; intros ntries s N R F A; simpl.
  - destruct (ntries <? filetimeout_ s) eqn:C.
    + apply Z.ltb_lt in C. lia.
    + apply Z.ltb_ge in C. eexists. split; [reflexivity|]. simpl.
      split; [reflexivity|].
      replace (Z.to_nat (filetimeout_ s - ntries)) with O by lia. lia.
  - destruct (ntries <? filetimeout_ s) eqn:C.
    + apply Z.ltb_lt in C. rewrite A by lia.
      rewrite wrap64_small by (unfold size_t_range; lia).
      destruct (IH (ntries + 1) (set_clock (S (clock s)) s))
        as (s' & E & B & K); simpl; try lia.
      * intros t Ht. apply A. lia.
      * exists s'. simpl in *. split; [exact E|]. split; [exact B|].
        rewrite K. lia.
    + apply Z.ltb_ge in C. eexists. split; [reflexivity|]. simpl.
      split; [reflexivity|].
      replace (Z.to_nat (filetimeout_ s - ntries)) with O by lia. lia.
Qed.

(** A file that exists and keeps failing to parse is looked at once per
    two units of the budget. *)
Lemma readBuffer_while_corrupt fuel :
  forall ntries s,
    0 <= ntries -> filetimeout_ s < 2 ^ 64 - 1 ->
    (Z.to_nat (filetimeout_ s - ntries) <= fuel)%nat ->
    (forall t, (clock s <= t)%nat ->
               exists what, probe env t (nextread_ s) = Corrupt what) ->
    exists s',
      readBuffer_while env fuel ntries s =
        Throws (readBuffer_error (nextread_ s)) s' /\
      buffer_read s' = [] /\
      clock s' = (clock s + Z.to_nat ((filetimeout_ s - ntries + 1) / 2))%nat.
Proof.
  induction fuel as [|fuel IH]; intros ntries s N R F A; simpl.
  - destruct (ntries <? filetimeout_ s) eqn:C.
    + apply Z.ltb_lt in C. lia.
    + apply Z.ltb_ge in C. eexists. split; [reflexivity|]. simpl.
      split; [reflexivity|].
      assert ((filetimeout_ s - ntries + 1) / 2 < 1).
      { apply Z.div_lt_upper_bound; lia. }
      lia.
  - destruct (ntries <? filetimeout_ s) eqn:C.
    + apply Z.ltb_lt in C.
      destruct (A (clock s)) as [what P]; [lia|]. rewrite P.
      rewrite (wrap64_small (ntries + 1)) by (unfold size_t_range; lia).
      rewrite wrap64_small by (unfold size_t_range; lia).
      destruct (IH (ntries + 1 + 1) (set_clock (S (clock s)) s))
        as (s' & E & B & K); simpl; try lia.
      * intros t Ht. apply A. lia.
      * exists s'. simpl in *. split; [exact E|]. split; [exact B|].
        rewrite K.
        replace (filetimeout_ s - ntries + 1)
          with ((filetimeout_ s - (ntries + 1 + 1) + 1) + 1 * 2) by lia.
        rewrite Z.div_add by lia.
        assert (0 <= (filetimeout_ s - (ntries + 1 + 1) + 1) / 2).
        { apply Z.div_pos; lia. }
        lia.
    + apply Z.ltb_ge in C. eexists. split; [reflexivity|]. simpl.
      split; [reflexivity|].
      assert ((filetimeout_ s - ntries + 1) / 2 < 1).
      { apply Z.div_lt_upper_bound; lia. }
      lia.
Qed.

(** [readBuffer] on a file that stays absent: as many looks as the budget
    has units. *)
Lemma readBuffer_absent s :
  0 <= filetimeout_ s < 2 ^ 64 ->
  (forall t, (clock s <= t)%nat -> probe env t (nextread_ s) = Absent) ->
  exists s',
    readBuffer env s = Throws (readBuffer_error (nextread_ s)) s' /\
    buffer_read s' = [] /\
    clock s' = (clock s + Z.to_nat (filetimeout_ s))%nat.
Proof.
  intros R A. unfold readBuffer, bind, get.
  destruct (readBuffer_while_absent (Z.to_nat (filetimeout_ s)) 0 s)
    as (s' & E & B & K); try lia; try assumption.
  exists s'. rewrite Z.sub_0_r in K. auto.
Qed.

(** [readBuffer] on a file that keeps failing to parse: half as many
    looks, rounded up. *)
Lemma readBuffer_corrupt s :
  0 <= filetimeout_ s < 2 ^ 64 - 1 ->
  (forall t, (clock s <= t)%nat ->
             exists what, probe env t (nextread_ s) = Corrupt what) ->
  exists s',
    readBuffer env s = Throws (readBuffer_error (nextread_ s)) s' /\
    buffer_read s' = [] /\
    clock s' = (clock s + Z.to_nat ((filetimeout_ s + 1) / 2))%nat.
Proof.
  intros R A. unfold readBuffer, bind, get.
  destruct (readBuffer_while_corrupt (Z.to_nat (filetimeout_ s)) 0 s)
    as (s' & E & B & K); try lia; try assumption.
  exists s'. rewrite Z.sub_0_r in K. auto.
Qed.

(** Unless the budget is the largest [size_t], the turns budgeted for
    the retry loop are enough. *)
Lemma readBuffer_while_finishes fuel :
  forall ntries s,
    0 <= ntries -> filetimeout_ s < 2 ^ 64 - 1 ->
    (Z.to_nat (filetimeout_ s - ntries) <= fuel)%nat ->
    readBuffer_while env fuel ntries s <> Unfinished.
Proof.
  induction fuel as [|fuel IH]; intros ntries s N R F; simpl.
  - destruct (ntries <? filetimeout_ s) eqn:C; [|discriminate].
    apply Z.ltb_lt in C. lia.
  - destruct (ntries <? filetimeout_ s) eqn:C; [|discriminate].
    apply Z.ltb_lt in C.
    destruct (probe env (clock s) (nextread_ s)); [| |discriminate].
    + rewrite wrap64_small by (unfold size_t_range; lia).
      apply IH; simpl; lia.
    + rewrite (wrap64_small (ntries + 1)) by (unfold size_t_range; lia).
      rewrite wrap64_small by (unfold size_t_range; lia).
      apply IH; simpl; lia.
Qed.

Lemma readBuffer_finishes s :
  filetimeout_ s < 2 ^ 64 - 1 -> readBuffer env s <> Unfinished.
Proof.
  intros R. unfold readBuffer, bind, get.
  apply readBuffer_while_finishes; lia.
Qed.

(** *** prepareBatch *)

(** With no worker, nothing staged, fewer than [batchsize_] samples in
    store and the recorded total already reached, a turn of the loop
    changes nothing: the loop does not end. *)
Lemma prepareBatch_turn_idle s :
  readthread_ s = null -> buffer_read s = [] ->
  ntotal_ s <= wrap64 (nsamplesprocessed_ s + nElements (buffer_store s)) ->
  prepareBatch_turn env s = Returns (nElements (buffer_store s)) s.
Proof.
  intros P R Full. unfold prepareBatch_turn. run_monad.
  repeat (rewrite P; simpl). unfold append, clear. rewrite R.
  rewrite (app_nil_r (buffer_store s)).
  apply Z.ltb_ge in Full. rewrite Full.
  destruct s; simpl in *. subst. reflexivity.
Qed.

Lemma prepareBatch_while_idle fuel s :
  readthread_ s = null -> buffer_read s = [] ->
  nElements (buffer_store s) < batchsize_ s ->
  ntotal_ s <= wrap64 (nsamplesprocessed_ s + nElements (buffer_store s)) ->
  prepareBatch_while env fuel (nElements (buffer_store s)) s = Unfinished.
Proof.
  intros P R Short Full. apply Z.ltb_lt in Short.
  induction fuel as [|fuel IH]; simpl; rewrite Short; [reflexivity|].
  unfold bind. rewrite prepareBatch_turn_idle by assumption. exact IH.
Qed.

Lemma getBatch_never_returns fuel s :
  readthread_ s = null -> buffer_read s = [] ->
  nElements (buffer_store s) < batchsize_ s ->
  ntotal_ s <= wrap64 (nsamplesprocessed_ s + nElements (buffer_store s)) ->
  getBatch env fuel s = Unfinished.
Proof.
  intros P R Short Full. unfold getBatch, prepareBatch. run_monad.
  rewrite prepareBatch_while_idle by assumption. reflexivity.
Qed.

(** ** Progress of an epoch *)

Section Progress.

Lemma sum_leading_dims_cons f files :
  sum_leading_dims env (f :: files) =
    file_size env f + sum_leading_dims env files.
Proof.
  simpl. unfold file_size. destruct (leading_dim env f); lia.
Qed.

Lemma sum_leading_dims_permutation l l' :
  Permutation l l' -> sum_leading_dims env l = sum_leading_dims env l'.
Proof.
  induction 1 as [|f l l' P IH|f g l|l l' l'' P1 IH1 P2 IH2].
  - reflexivity.
  - rewrite !sum_leading_dims_cons, IH. reflexivity.
  - rewrite !sum_leading_dims_cons. lia.
  - congruence.
Qed.

Hypothesis announced : files_as_announced env.

Lemma file_size_nonneg f : 0 <= file_size env f.
Proof.
  destruct (announced O f) as (content & _ & L).
  unfold file_size. rewrite L. unfold nElements. lia.
Qed.

Lemma sum_leading_dims_nonneg files : 0 <= sum_leading_dims env files.
Proof.
  induction files as [|f rest IH]; [simpl; lia|].
  rewrite sum_leading_dims_cons. pose proof (file_size_nonneg f). lia.
Qed.

Lemma sum_firstn_le files :
  forall n, sum_leading_dims env (firstn n files) <= sum_leading_dims env files.
Proof.
  induction files as [|f rest IH]; intros [|n]; simpl firstn;
    rewrite ?sum_leading_dims_cons; simpl; try lia.
  - pose proof (sum_leading_dims_nonneg (f :: rest)) as H.
    rewrite sum_leading_dims_cons in H. exact H.
  - specialize (IH n). lia.
Qed.

Lemma sum_firstn_next files :
  forall n f,
    nth_error files n = Some f ->
    sum_leading_dims env (firstn (S n) files) =
      sum_leading_dims env (firstn n files) + file_size env f.
Proof.
  induction files as [|g rest IH]; intros [|n] f H; simpl in H;
    try discriminate.
  - injection H as <-. simpl firstn. rewrite sum_leading_dims_cons.
    simpl. lia.
  - change (firstn (S (S n)) (g :: rest)) with (g :: firstn (S n) rest).
    change (firstn (S n) (g :: rest)) with (g :: firstn n rest).
    rewrite !sum_leading_dims_cons, (IH n f H). lia.
Qed.

Lemma first_file_le files :
  files <> [] ->
  file_size env (hd EmptyString files) <= sum_leading_dims env files.
Proof.
  destruct files as [|f rest]; [contradiction|]. intros _.
  simpl hd. rewrite sum_leading_dims_cons.
  pose proof (sum_leading_dims_nonneg rest). lia.
Qed.


Lemma thread_join_readable s content :
  readthread_ s = joinable -> 0 < filetimeout_ s ->
  probe env (clock s) (nextread_ s) = Readable content ->
  thread_join env s = Returns tt (set_buffer_read content s).
Proof.
  intros P L R. unfold thread_join. rewrite P.
  rewrite (readBuffer_readable s content L R). reflexivity.
Qed.

(** A turn of the batch loop that finds a worker running. *)
Lemma prepareBatch_turn_progress s :
  in_epoch env s -> readthread_ s = joinable ->
  exists b s',
    prepareBatch_turn env s = Returns b s' /\
    b = nElements (buffer_store s') /\
    in_epoch env s' /\ settings s' = settings s /\
    (readthread_ s' = joinable -> filecount_ s' = filecount_ s + 1).
Proof.
  intros (B & Ft & Rd & NE & Fc & Fits & Tot & Room & Pr & Acc) P.
  rewrite P in Acc.
  destruct (announced (clock s) (nextread_ s)) as (content & R & L).
  assert (Sz : file_size env (nextread_ s) = nElements content).
  { unfold file_size. rewrite L. reflexivity. }
  pose proof (thread_join_readable s content P Ft R) as J.
  unfold prepareBatch_turn, bind, ret, get, modify, throw, thread_delete,
    thread_new, vector_at.
  simpl. repeat (rewrite P; simpl).
  rewrite J. simpl. unfold append, clear.
  assert (Len : nElements (buffer_store s ++ content) =
                nElements (buffer_store s) + nElements content).
  { unfold nElements. rewrite length_app. lia. }
  pose proof (file_size_nonneg (hd EmptyString (shuffled_infiles_ s))) as F0.
  pose proof (first_file_le (shuffled_infiles_ s) NE) as F1.
  pose proof (sum_firstn_le (shuffled_infiles_ s) (Z.to_nat (filecount_ s)))
    as S1.
  pose proof (sum_leading_dims_nonneg
                (firstn (Z.to_nat (filecount_ s)) (shuffled_infiles_ s))) as S0.
  unfold announced_upto in Acc.
  rewrite wrap64_small by (unfold size_t_range; lia).
  destruct (_ <? ntotal_ s) eqn:More.
  - apply Z.ltb_lt in More.
    assert (In : filecount_ s < Z.of_nat (length (shuffled_infiles_ s))).
    { destruct (Z.eq_dec (filecount_ s)
                  (Z.of_nat (length (shuffled_infiles_ s)))) as [E|E]; [|lia].
      rewrite E, Nat2Z.id, firstn_all in Acc. lia. }
    destruct (nth_error (shuffled_infiles_ s) (Z.to_nat (filecount_ s)))
      as [f|] eqn:Nth;
      [|apply nth_error_None in Nth; lia].
    pose proof (sum_firstn_next _ _ _ Nth) as Next.
    apply Z.ltb_lt in In as In'. apply Z.leb_gt in In as In''.
    simpl. rewrite In''. simpl. rewrite Nth, In'. simpl.
    do 2 eexists. split; [reflexivity|]. simpl.
    rewrite wrap64_small by (unfold size_t_range; lia).
    split; [reflexivity|]. split; [|split; [reflexivity|reflexivity]].
    unfold in_epoch, announced_upto. simpl.
    replace (Z.to_nat (filecount_ s + 1)) with (S (Z.to_nat (filecount_ s)))
      by lia.
    repeat split; try assumption; try reflexivity; lia.
  - apply Z.ltb_ge in More.
    do 2 eexists. split; [reflexivity|]. simpl.
    split; [reflexivity|]. split; [|split; [reflexivity|discriminate]].
    unfold in_epoch. simpl.
    repeat split; try assumption; try reflexivity; lia.
Qed.


(** While another batch fits into the total, the batch loop ends and the
    store then holds a batch. *)
Lemma prepareBatch_while_progress fuel :
  forall s,
    in_epoch env s ->
    nsamplesprocessed_ s + batchsize_ s <= ntotal_ s ->
    (readthread_ s = joinable ->
     Z.of_nat (length (shuffled_infiles_ s)) - filecount_ s + 1
       <= Z.of_nat fuel) ->
    exists b s',
      prepareBatch_while env fuel (nElements (buffer_store s)) s =
        Returns b s' /\
      b = nElements (buffer_store s') /\ batchsize_ s <= b /\
      in_epoch env s' /\ settings s' = settings s.
Proof.
  induction fuel as [|fuel IH]; intros s I Fit Fuel.
  - simpl. destruct (nElements (buffer_store s) <? batchsize_ s) eqn:C.
    + apply Z.ltb_lt in C. exfalso.
      destruct I as (_ & _ & _ & _ & Fc & _ & _ & _ & _ & Acc).
      destruct (readthread_ s); [lia| |exact Acc].
      specialize (Fuel eq_refl). simpl in Fuel. lia.
    + apply Z.ltb_ge in C. exists (nElements (buffer_store s)), s. auto.
  - simpl. destruct (nElements (buffer_store s) <? batchsize_ s) eqn:C.
    + apply Z.ltb_lt in C.
      destruct (readthread_ s) eqn:P.
      * exfalso. destruct I as (_ & _ & _ & _ & _ & _ & _ & _ & _ & Acc).
        rewrite P in Acc. lia.
      * destruct (prepareBatch_turn_progress s I P)
          as (b1 & s1 & Turn & -> & I1 & Same & Cursor).
        unfold bind. rewrite Turn.
        pose proof Same as Same'. unfold settings in Same'.
        injection Same' as E1 E2 E3 E4 E5 E6 E7 E8 E9 E10 E11.
        destruct (IH s1 I1) as (b & s' & W & Hb & Hle & I' & Same2).
        { rewrite E8, E5, E7. exact Fit. }
        { intros P1. rewrite (Cursor P1), E3. specialize (Fuel eq_refl). lia. }
        exists b, s'. rewrite E5 in Hle.
        split; [exact W|]. split; [exact Hb|]. split; [exact Hle|].
        split; [exact I'|]. rewrite Same2. exact Same.
      * exfalso. destruct I as (_ & _ & _ & _ & _ & _ & _ & _ & _ & Acc).
        rewrite P in Acc. exact Acc.
    + apply Z.ltb_ge in C. exists (nElements (buffer_store s)), s. auto.
Qed.

(** While another batch fits into the total, [getBatch()] returns. *)
Lemma getBatch_progress fuel s :
  in_epoch env s ->
  nsamplesprocessed_ s + batchsize_ s <= ntotal_ s ->
  (length (shuffled_infiles_ s) < fuel)%nat ->
  exists batch s', getBatch env fuel s = Returns batch s' /\ in_epoch env s'.
Proof.
  intros I Fit Fuel.
  destruct (prepareBatch_while_progress fuel s I Fit)
    as (b & s1 & W & Hb & Hle & I1 & Same).
  { intros _. destruct I as (_ & _ & _ & _ & Fc & _). lia. }
  unfold getBatch, prepareBatch, bind, get, modify, ret, split.
  rewrite W. simpl. do 2 eexists. split; [reflexivity|].
  unfold settings in Same.
  injection Same as E1 E2 E3 E4 E5 E6 E7 E8 E9 E10 E11.
  destruct I1 as (B & Ft & Rd & NE & Fc & Fits & Tot & Room & Pr & Acc).
  assert (Rest : nElements (skipn (Z.to_nat (batchsize_ s1)) (buffer_store s1))
                 = nElements (buffer_store s1) - batchsize_ s1).
  { unfold nElements in *. rewrite length_skipn. lia. }
  assert (Sum : wrap64 (nsamplesprocessed_ s1 + batchsize_ s1)
                = nsamplesprocessed_ s1 + batchsize_ s1).
  { apply wrap64_small. unfold size_t_range. lia. }
  unfold in_epoch. simpl. rewrite Rest, Sum.
  repeat split; try assumption; try lia.
  destruct (readthread_ s1); [lia|lia|exact Acc].
Qed.


(** As many calls as fit into what is left of the total all return. *)
Lemma getBatches_progress fuel n :
  forall s,
    in_epoch env s ->
    nsamplesprocessed_ s + Z.of_nat n * batchsize_ s <= ntotal_ s ->
    (length (shuffled_infiles_ s) < fuel)%nat ->
    exists bs s',
      getBatches env fuel n s = Returns bs s' /\
      length bs = n /\
      Forall (fun b => nElements b = batchsize_ s) bs /\
      nsamplesprocessed_ s' = nsamplesprocessed_ s + Z.of_nat n * batchsize_ s.
Proof.
  induction n as [|n IH]; intros s I Fit Fuel.
  - exists [], s. simpl. repeat split; [constructor|lia].
  - pose proof I as (B & _ & _ & _ & _ & _ & _ & Room & Pr & _).
    rewrite Nat2Z.inj_succ in Fit.
    assert (0 <= Z.of_nat n * batchsize_ s) by nia.
    destruct (getBatch_progress fuel s I) as (b & s1 & G & I1);
      [lia|exact Fuel|].
    pose proof (getBatch_returns fuel s b s1 G) as R.
    destruct R as (Rb & Rp & _ & RB & RT & _ & _ & _ & RS & _); [lia|].
    rewrite wrap64_small in Rp by (unfold size_t_range; lia).
    destruct (IH s1 I1) as (bs & s' & Gs & L & F & P).
    { rewrite Rp, RB, RT. lia. }
    { rewrite RS. exact Fuel. }
    exists (b :: bs), s'. cbn [getBatches]. unfold bind, ret. rewrite G, Gs.
    split; [reflexivity|]. split; [simpl; congruence|].
    split; [constructor; [exact Rb|rewrite <- RB; exact F]|].
    rewrite P, Rp, RB, Nat2Z.inj_succ. lia.
Qed.

Lemma lastBatch_trace_progress fuel n :
  forall s,
    in_epoch env s ->
    nsamplesprocessed_ s + Z.of_nat n * batchsize_ s <= ntotal_ s ->
    (length (shuffled_infiles_ s) < fuel)%nat ->
    exists flags s', lastBatch_trace env fuel n s = Returns flags s'.
Proof.
  induction n as [|n IH]; intros s I Fit Fuel.
  - exists [], s. reflexivity.
  - pose proof I as (B & _ & _ & _ & _ & _ & _ & Room & Pr & _).
    rewrite Nat2Z.inj_succ in Fit.
    assert (0 <= Z.of_nat n * batchsize_ s) by nia.
    destruct (getBatch_progress fuel s I) as (b & s1 & G & I1);
      [lia|exact Fuel|].
    pose proof (getBatch_returns fuel s b s1 G) as R.
    destruct R as (Rb & Rp & _ & RB & RT & _ & _ & _ & RS & _); [lia|].
    rewrite wrap64_small in Rp by (unfold size_t_range; lia).
    destruct (IH s1 I1) as (flags & s' & Gs).
    { rewrite Rp, RB, RT. lia. }
    { rewrite RS. exact Fuel. }
    exists (lastBatch s1 :: flags), s'. simpl. unfold bind, ret.
    rewrite G, Gs. reflexivity.
Qed.

Lemma announced_all_filled files : first_unfilled env files = None.
Proof.
  induction files as [|f rest IH]; [reflexivity|]. simpl.
  destruct (announced O f) as (content & _ & L). rewrite L. exact IH.
Qed.

(** The state [prepareNextEpoch()] leaves is one the batch loop can
    start from. *)
Lemma epoch_start_in_epoch s :
  shuffle_permutes env ->
  0 < batchsize_ s -> 0 < filetimeout_ s ->
  shuffled_infiles_ s <> [] ->
  Z.of_nat (length (shuffled_infiles_ s)) < 2 ^ 64 ->
  ntotal_ s = sum_leading_dims env (shuffled_infiles_ s) ->
  ntotal_ s < 2 ^ 63 ->
  exists s',
    epoch_start env s = Returns tt s' /\ in_epoch env s' /\
    nsamplesprocessed_ s' = 0 /\ batchsize_ s' = batchsize_ s /\
    ntotal_ s' = ntotal_ s /\
    length (shuffled_infiles_ s') = length (shuffled_infiles_ s).
Proof.
  intros Perm B Ft NE Fits Tot Room. unfold epoch_start.
  pose proof (Perm (mt19937_new (randomcount_ s)) (shuffled_infiles_ s)) as P.
  destruct (std_shuffle env _ _) as [|f rest] eqn:E.
  - apply Permutation_sym, Permutation_nil in P. contradiction.
  - eexists. split; [reflexivity|].
    pose proof (Permutation_length P) as PL.
    pose proof (sum_leading_dims_permutation _ _ P) as PS.
    unfold in_epoch, announced_upto.
    cbn -[Z.of_nat sum_leading_dims Z.pow Z.to_nat firstn].
    change (S (length rest)) with (length (f :: rest)).
    rewrite <- PL, <- PS.
    change (firstn (Z.to_nat 0) (f :: rest)) with (@nil string).
    repeat split; try assumption; try reflexivity; try lia; try discriminate.
    unfold nElements. simpl. lia.
Qed.


Lemma setFileList_ok files s :
  batchsize_ s <> 0 ->
  setFileList env files s =
    Returns tt
      (set_nbatches_ (wrap64 (sum_leading_dims env files) / batchsize_ s)
         (set_ntotal_ (wrap64 (sum_leading_dims env files))
            (set_shuffled_infiles_ files (set_orig_infiles_ files s)))).
Proof.
  intros B. unfold setFileList, readNTotal, bind, get, modify, size_t_div.
  rewrite readNTotal_for_ok;
    [|apply announced_all_filled|simpl; unfold size_t_range; lia].
  simpl. apply Z.eqb_neq in B. rewrite B. reflexivity.
Qed.

Lemma setBatchSize_ok b (s : trainDataGenerator T) :
  b <> 0 ->
  setBatchSize b s =
    Returns tt (set_nbatches_ (ntotal_ s / b) (set_batchsize_ b s)).
Proof.
  intros B. unfold setBatchSize, bind, get, modify, size_t_div. simpl.
  apply Z.eqb_neq in B. rewrite B. reflexivity.
Qed.

(** Extra X18: on files that are as announced, a new generator that is
    given the files and a batch size and starts an epoch serves
    [floor (total / batch size)] batches of exactly the batch size. *)
Theorem announced_batches_are_served files b rd fuel :
  shuffle_permutes env ->
  files <> [] -> 0 < b ->
  sum_leading_dims env files < 2 ^ 63 ->
  Z.of_nat (length files) < 2 ^ 64 ->
  (length files < fuel)%nat ->
  exists s1 s2 s3 bs s4,
    setFileList env files trainDataGenerator_new = Returns tt s1 /\
    setBatchSize b s1 = Returns tt s2 /\
    getNTotal s2 = sum_leading_dims env files /\
    getNBatches s2 = sum_leading_dims env files / b /\
    prepareNextEpoch env rd s2 = Returns tt s3 /\
    getBatches env fuel (Z.to_nat (getNBatches s2)) s3 = Returns bs s4 /\
    length bs = Z.to_nat (sum_leading_dims env files / b) /\
    Forall (fun batch => nElements batch = b) bs /\
    nsamplesprocessed_ s4 = sum_leading_dims env files / b * b.
Proof.
  intros Perm NE B Room Fits Fuel.
  pose proof (sum_leading_dims_nonneg files) as Pos.
  assert (W : wrap64 (sum_leading_dims env files) = sum_leading_dims env files).
  { apply wrap64_small. unfold size_t_range. lia. }
  set (s1 := set_nbatches_
               (wrap64 (sum_leading_dims env files)
                  / batchsize_ (@trainDataGenerator_new T))
               (set_ntotal_ (wrap64 (sum_leading_dims env files))
                  (set_shuffled_infiles_ files
                     (set_orig_infiles_ files (@trainDataGenerator_new T))))).
  set (s2 := set_nbatches_ (ntotal_ s1 / b) (set_batchsize_ b s1)).
  exists s1, s2.
  rewrite setFileList_ok by (simpl; discriminate).
  rewrite setBatchSize_ok by lia.
  assert (N2 : ntotal_ s2 = sum_leading_dims env files) by exact W.
  assert (Q2 : nbatches_ s2 = sum_leading_dims env files / b).
  { unfold s2. simpl. rewrite W. reflexivity. }
  destruct (epoch_start_in_epoch s2 Perm) as (s3 & E & I & P3 & B3 & T3 & L3).
  { exact B. }
  { simpl. lia. }
  { exact NE. }
  { exact Fits. }
  { exact W. }
  { rewrite N2. exact Room. }
  assert (Q : 0 <= sum_leading_dims env files / b) by (apply Z.div_pos; lia).
  destruct (getBatches_progress fuel
              (Z.to_nat (sum_leading_dims env files / b)) s3 I)
    as (bs & s4 & G & L & F & P4).
  { rewrite P3, B3, T3, N2, Z2Nat.id by exact Q. simpl.
    pose proof (Z.mul_div_le (sum_leading_dims env files) b B). lia. }
  { rewrite L3. exact Fuel. }
  exists s3, bs, s4.
  split; [reflexivity|]. split; [reflexivity|].
  split; [exact N2|]. split; [exact Q2|].
  split; [rewrite prepareNextEpoch_null by reflexivity; exact E|].
  unfold getNBatches. rewrite Q2.
  split; [exact G|]. split; [exact L|].
  split; [rewrite B3 in F; exact F|].
  rewrite P4, P3, B3, Z2Nat.id by exact Q. simpl. reflexivity.
Qed.

End Progress.

(** ** lastBatch over an epoch *)


(** Claim C5, as amended.  [lastBatch()] is true exactly when
    [nsamplesprocessed_ >= ntotal_ - lastbatchsize_], the difference taken
    in [size_t]; when [lastbatchsize_ <= ntotal_] that is the plain
    difference.  In an epoch of [n = ntotal_ / batchsize_] returning
    [getBatch()] calls it is true after the last call, true after the call
    before the last exactly when [batchsize_] divides [ntotal_], and false
    after every earlier call.  On files that are as announced the [n]
    calls of an epoch do return.  Before the first call of an epoch it is
    true exactly when [lastbatchsize_] equals [ntotal_]. *)
Theorem lastBatch_in_epoch :
  (forall s : trainDataGenerator T,
      lastBatch s = true <->
      nsamplesprocessed_ s >= wrap64 (ntotal_ s - lastbatchsize_ s)) /\
  (forall s : trainDataGenerator T,
      0 <= lastbatchsize_ s <= ntotal_ s -> ntotal_ s < 2 ^ 64 ->
      (lastBatch s = true <->
       nsamplesprocessed_ s >= ntotal_ s - lastbatchsize_ s)) /\
  (forall fuel s n flags s',
      0 < batchsize_ s <= ntotal_ s -> ntotal_ s < 2 ^ 64 ->
      nsamplesprocessed_ s = 0 ->
      n = Z.to_nat (ntotal_ s / batchsize_ s) ->
      lastBatch_trace env fuel n s = Returns flags s' ->
      length flags = n /\
      forall k, (k < n)%nat ->
        (nth k flags false = true <->
         S k = n \/ (S (S k) = n /\ ntotal_ s mod batchsize_ s = 0))) /\
  (forall fuel s,
      files_as_announced env -> in_epoch env s ->
      nsamplesprocessed_ s = 0 ->
      (length (shuffled_infiles_ s) < fuel)%nat ->
      exists flags s',
        lastBatch_trace env fuel (Z.to_nat (ntotal_ s / batchsize_ s)) s =
          Returns flags s') /\
  (forall s : trainDataGenerator T,
      size_t_range (ntotal_ s) -> size_t_range (lastbatchsize_ s) ->
      nsamplesprocessed_ s = 0 ->
      (lastBatch s = true <-> lastbatchsize_ s = ntotal_ s)).
Proof.
  split; [apply lastBatch_iff|]. split; [|split; [|split]]; cycle 3.
  { intros s Rt Rl P. rewrite lastBatch_iff, P.
    unfold size_t_range in *.
    pose proof (wrap64_range (ntotal_ s - lastbatchsize_ s)) as W.
    unfold size_t_range in W. split.
    - intros H. assert (Z0 : wrap64 (ntotal_ s - lastbatchsize_ s) = 0) by lia.
      unfold wrap64 in Z0. apply Z.mod_divide in Z0; [|lia].
      destruct Z0 as [q Hq]. nia.
    - intros ->. rewrite Z.sub_diag. unfold wrap64. rewrite Z.mod_0_l; lia. }
  - intros s L R. rewrite lastBatch_iff.
    rewrite wrap64_small; [reflexivity|]. unfold size_t_range. lia.
  - intros fuel s n flags s' B R P N Tr.
    set (b := batchsize_ s) in *. set (t := ntotal_ s) in *.
    assert (Q : 0 <= t / b) by (apply Z.div_pos; lia).
    assert (D : t = b * (t / b) + t mod b) by (apply Z.div_mod; lia).
    assert (M : 0 <= t mod b < b) by (apply Z.mod_pos_bound; lia).
    apply (lastBatch_trace_flags fuel n 0) in Tr; fold b; fold t; try lia.
    destruct Tr as [L F]. split; [exact L|].
    intros k K. rewrite F by exact K. fold b. fold t.
    rewrite Z.leb_le.
    assert (Nz : Z.of_nat n = t / b) by (rewrite N; apply Z2Nat.id; exact Q).
    split.
    + intros H.
      assert (Z.of_nat k + 2 >= Z.of_nat n) by nia.
      assert (C : S k = n \/ S (S k) = n) by lia.
      destruct C as [C|C]; [left; exact C|right].
      split; [exact C|]. nia.
    + intros [C|[C Z0]]; nia.
  - intros fuel s A I P Fuel.
    pose proof I as (B & _ & _ & _ & _ & _ & Tot & _).
    pose proof (sum_leading_dims_nonneg A (shuffled_infiles_ s)) as Pos.
    apply lastBatch_trace_progress; try assumption.
    rewrite P, Z2Nat.id by (apply Z.div_pos; lia).
    pose proof (Z.mul_div_le (ntotal_ s) (batchsize_ s) B). lia.
Qed.

End Properties.


(** ** The example of two files *)

Import Example.

Local Open Scope string_scope.
Local Open Scope list_scope.

Lemma keep_order_permutes : shuffle_permutes (steady keep_order).
Proof. intros g l. apply Permutation_refl. Qed.

Lemma reverse_order_permutes : shuffle_permutes (steady reverse_order).
Proof. intros g l. apply Permutation_rev. Qed.

Lemma steady_as_announced shuffle : files_as_announced (steady shuffle).
Proof.
  intros t f. exists (samples_of f). split; reflexivity.
Qed.

Lemma two_files_in_epoch :
  in_epoch (steady keep_order) (epoch (steady keep_order) ["A"; "B"] 100).
Proof.
  unfold in_epoch. vm_compute.
  repeat split; try reflexivity; discriminate.
Qed.

(** [announced_batches_are_served] at files [A], [B] and batch size 100:
    the two batches of the epoch are served. *)
Lemma announced_batches_are_served_example :
  exists bs s4,
    getBatches (steady reverse_order) 3 2
      (epoch (steady reverse_order) ["A"; "B"] 100) = Returns bs s4 /\
    Forall (fun batch => nElements batch = 100) bs /\
    nsamplesprocessed_ s4 = 200.
Proof.
  destruct (announced_batches_are_served (steady reverse_order)
              (steady_as_announced reverse_order) ["A"; "B"] 100 0 3%nat)
    as (s1 & s2 & s3 & bs & s4 & E1 & E2 & _ & Q & E3 & G & _ & F & P);
    try exact reverse_order_permutes; try discriminate; try reflexivity;
    try (simpl; lia).
  exists bs, s4.
  assert (S1 : s1 = left_by trainDataGenerator_new
                      (setFileList (steady reverse_order) ["A"; "B"]
                         trainDataGenerator_new)).
  { rewrite E1. reflexivity. }
  assert (S2 : s2 = configured (steady reverse_order) ["A"; "B"] 100).
  { unfold configured. cbv zeta. rewrite <- S1, E2. reflexivity. }
  assert (S3 : s3 = epoch (steady reverse_order) ["A"; "B"] 100).
  { unfold epoch. cbv zeta. rewrite <- S2, E3. reflexivity. }
  rewrite <- S3. rewrite Q in G.
  split; [exact G|]. split; [exact F|]. exact P.
Defined.

(** A shuffle of two files keeps their order or reverses it. *)
Lemma two_file_orders (a b : string) l :
  Permutation [a; b] l -> l = [a; b] \/ l = [b; a].
Proof.
  intros P. pose proof (Permutation_length P) as L.
  destruct l as [|x [|y [|z l]]]; try discriminate.
  apply Permutation_length_2_inv in P. destruct P as [<-|<-]; auto.
Qed.

Lemma NoDup_seq_apart a n b m :
  (a + n <= b \/ b + m <= a)%nat -> NoDup (seq a n ++ seq b m).
Proof.
  intros Apart. apply NoDup_app; try apply seq_NoDup.
  intros x Hx Hy. apply in_seq in Hx. apply in_seq in Hy. lia.
Qed.

(** Claim C1, evaluated on files [A] (100 samples) and [B] (150 samples)
    with batch size 100, for both orders the shuffle can give.  The two
    batches of the epoch hold 200 samples, as many as
    [batchsize_ * nbatches_]; they are not the first 200 samples of the
    files in shuffled order: the first file of the order is delivered a
    second time, although no sample occurs twice in the files. *)
Theorem first_file_is_delivered_twice :
  (let env := steady keep_order in
   let s := epoch env ["A"; "B"] 100 in
   shuffled_infiles_ s = ["A"; "B"] /\ getNBatches s = 2 /\
   NoDup (stream ["A"; "B"]) /\
   exists bs s',
     getBatches env 10 2 s = Returns bs s' /\
     length (concat bs) = 200%nat /\
     concat bs = samples_of "A" ++ samples_of "A" /\
     concat bs <> firstn 200 (stream ["A"; "B"])) /\
  (let env := steady reverse_order in
   let s := epoch env ["A"; "B"] 100 in
   shuffled_infiles_ s = ["B"; "A"] /\ getNBatches s = 2 /\
   NoDup (stream ["B"; "A"]) /\
   exists bs s',
     getBatches env 10 2 s = Returns bs s' /\
     length (concat bs) = 200%nat /\
     concat bs = samples_of "B" ++ firstn 50 (samples_of "B") /\
     concat bs <> firstn 200 (stream ["B"; "A"])).
Proof.
  split; cbv zeta.
  - split; [reflexivity|]. split; [reflexivity|]. split.
    { change (stream ["A"; "B"]) with (seq 0 100 ++ seq 1000 150).
      apply NoDup_seq_apart. lia. }
    eexists. eexists. split; [vm_compute; reflexivity|].
    split; [reflexivity|]. split; [reflexivity|].
    intros H. apply (f_equal (fun l => nth 100 l O)) in H.
    vm_compute in H. discriminate.
  - split; [reflexivity|]. split; [reflexivity|]. split.
    { change (stream ["B"; "A"]) with (seq 1000 150 ++ seq 0 100).
      apply NoDup_seq_apart. lia. }
    eexists. eexists. split; [vm_compute; reflexivity|].
    split; [reflexivity|]. split; [reflexivity|].
    intros H. apply (f_equal (fun l => nth 150 l O)) in H.
    vm_compute in H. discriminate.
Qed.

(** Claim C2, evaluated on files [A] (100 samples) and [B] (150 samples)
    with batch size 100, for both orders the shuffle can give.  The third
    [getBatch()] of the epoch returns 100 samples, bringing
    [nsamplesprocessed_] to 300 of a total of 250; the fourth one does not
    return and does not throw, however many turns its loop is given. *)
Theorem third_getBatch_returns_and_fourth_never_does :
  (let env := steady keep_order in
   let s := epoch env ["A"; "B"] 100 in
   getNTotal s = 250 /\ batchsize_ s = 100 /\
   exists b1 b2 b3 s3,
     getBatches env 10 3 s = Returns [b1; b2; b3] s3 /\
     nElements b3 = 100 /\ nsamplesprocessed_ s3 = 300 /\
     forall fuel, getBatch env fuel s3 = Unfinished) /\
  (let env := steady reverse_order in
   let s := epoch env ["A"; "B"] 100 in
   getNTotal s = 250 /\ batchsize_ s = 100 /\
   exists b1 b2 b3 s3,
     getBatches env 10 3 s = Returns [b1; b2; b3] s3 /\
     nElements b3 = 100 /\ nsamplesprocessed_ s3 = 300 /\
     forall fuel, getBatch env fuel s3 = Unfinished).
Proof.
  split; cbv zeta.
  - split; [reflexivity|]. split; [reflexivity|].
    do 4 eexists. split; [vm_compute; reflexivity|].
    split; [reflexivity|]. split; [reflexivity|].
    intros fuel. apply getBatch_never_returns; try reflexivity.
    apply Z.leb_le. vm_compute. reflexivity.
  - split; [reflexivity|]. split; [reflexivity|].
    do 4 eexists. split; [vm_compute; reflexivity|].
    split; [reflexivity|]. split; [reflexivity|].
    intros fuel. apply getBatch_never_returns; try reflexivity.
    apply Z.leb_le. vm_compute. reflexivity.
Qed.

(** Claim C3, evaluated with the default [filetimeout_] of 10.  For a
    file that is never there [readBuffer] looks ten times, one second
    apart, before it clears [buffer_read] and throws; for a file that is
    there and never parses it looks five times only.  A file that appears
    in time for the tenth look is read; a file that would parse at the
    sixth look is given up after the fifth. *)
Theorem parse_failure_costs_two_tries :
  filetimeout_ (reading "A") = 10 /\
  (exists s',
      readBuffer nothing_there (reading "A") =
        Throws (readBuffer_error "A") s' /\
      buffer_read s' = [] /\ clock s' = 10%nat) /\
  (exists s',
      readBuffer nothing_parses (reading "A") =
        Throws (readBuffer_error "A") s' /\
      buffer_read s' = [] /\ clock s' = 5%nat) /\
  (exists s',
      readBuffer (there_from 9) (reading "A") = Returns tt s' /\
      buffer_read s' = samples_of "A" /\ clock s' = 9%nat) /\
  (exists s',
      readBuffer (parses_from 5) (reading "A") =
        Throws (readBuffer_error "A") s' /\
      buffer_read s' = [] /\ clock s' = 5%nat /\
      probe (parses_from 5) (clock s') "A" = Readable (samples_of "A")).
Proof.
  split; [reflexivity|].
  repeat split; eexists; (split; [vm_compute; reflexivity|]);
    repeat split; reflexivity.
Qed.

(** Claim C4, evaluated on files [A] (100 samples) and [B] (150 samples)
    with batch size 100, for both orders the shuffle can give.
    [getNBatches()] is [250 / 100 = 2] whichever of [setFileList] and
    [setBatchSize] is called first, and three successive [getBatch()]
    calls of one epoch return 100 samples each. *)
Theorem more_batches_than_getNBatches :
  (let env := steady keep_order in
   getNTotal (configured env ["A"; "B"] 100) = 250 /\
   getNBatches (configured env ["A"; "B"] 100) = 250 / 100 /\
   getNBatches (configured_batch_first env ["A"; "B"] 100) = 250 / 100 /\
   250 / 100 = 2 /\
   exists bs s',
     getBatches env 10 3 (epoch env ["A"; "B"] 100) = Returns bs s' /\
     length bs = 3%nat /\ Forall (fun b => nElements b = 100) bs) /\
  (let env := steady reverse_order in
   getNTotal (configured env ["A"; "B"] 100) = 250 /\
   getNBatches (configured env ["A"; "B"] 100) = 250 / 100 /\
   getNBatches (configured_batch_first env ["A"; "B"] 100) = 250 / 100 /\
   250 / 100 = 2 /\
   exists bs s',
     getBatches env 10 3 (epoch env ["A"; "B"] 100) = Returns bs s' /\
     length bs = 3%nat /\ Forall (fun b => nElements b = 100) bs).
Proof.
  split; cbv zeta; (do 4 (split; [reflexivity|]));
    do 2 eexists; (split; [vm_compute; reflexivity|]);
    (split; [reflexivity|]); repeat constructor.
Qed.

(** Claim C5, counterexample.  With files [A] and [C] of 100 samples each
    and batch size 100, the epoch has [200 / 100 = 2] calls and
    [lastBatch()] is true after the first and after the second.  With
    file [A] alone and batch size 100, [lastBatch()] is true when the
    second epoch starts and stays true: at no call of that epoch does it
    turn true. *)
Lemma lastBatch_true_after_each_of_two_calls :
  (let env := steady keep_order in
   let s := epoch env ["A"; "C"] 100 in
   getNTotal s = 200 /\ batchsize_ s = 100 /\
   exists flags s',
     lastBatch_trace env 10 (Z.to_nat (200 / 100)) s = Returns flags s' /\
     flags = [true; true] /\ ~ true_once flags) /\
  (let env := steady keep_order in
   let s := second_epoch env ["A"] 100 in
   getNTotal s = 100 /\ batchsize_ s = 100 /\ nsamplesprocessed_ s = 0 /\
   lastBatch s = true /\
   exists flags s',
     lastBatch_trace env 10 (Z.to_nat (100 / 100)) s = Returns flags s' /\
     flags = [true] /\ rises (lastBatch s) flags <> 1%nat).
Proof.
  split; cbv zeta.
  - split; [reflexivity|]. split; [reflexivity|].
    do 2 eexists. split; [vm_compute; reflexivity|].
    split; [reflexivity|]. unfold true_once. simpl. discriminate.
  - do 4 (split; [reflexivity|]).
    do 2 eexists. split; [vm_compute; reflexivity|].
    split; [reflexivity|]. vm_compute. discriminate.
Qed.

(** Claim C5, witness: [lastBatch_in_epoch] at files [A], [B] and batch
    size 100; the two calls of the epoch return, the answer is false after
    the first and true after the second. *)
Lemma lastBatch_in_epoch_witness :
  let env := steady keep_order in
  let s := epoch env ["A"; "B"] 100 in
  (files_as_announced env /\ in_epoch env s /\
   0 < batchsize_ s <= ntotal_ s /\ nsamplesprocessed_ s = 0) /\
  exists flags s',
    lastBatch_trace env 10 2 s = Returns flags s' /\
    length flags = 2%nat /\
    forall k, (k < 2)%nat ->
      (nth k flags false = true <->
       S k = 2%nat \/ (S (S k) = 2%nat /\ ntotal_ s mod batchsize_ s = 0)).
Proof.
  cbv zeta.
  set (s := epoch (steady keep_order) ["A"; "B"] 100).
  assert (I : in_epoch (steady keep_order) s) by exact two_files_in_epoch.
  assert (B : 0 < batchsize_ s <= ntotal_ s) by (vm_compute; split; [reflexivity|discriminate]).
  split; [split; [exact (steady_as_announced keep_order)|]; split; [exact I|];
          split; [exact B|reflexivity]|].
  destruct (lastBatch_in_epoch (steady keep_order))
    as (_ & _ & Flags & Served & _).
  destruct (Served 10%nat s (steady_as_announced keep_order) I eq_refl)
    as (flags & s' & Tr); [vm_compute; lia|].
  assert (N : Z.to_nat (ntotal_ s / batchsize_ s) = 2%nat)
    by (vm_compute; reflexivity).
  rewrite N in Tr.
  exists flags, s'. split; [exact Tr|].
  apply (Flags 10%nat s 2%nat flags s' B); try reflexivity; exact Tr.
Defined.

(** Claim C6, witness: [shuffle_sequence_deterministic] at two generators
    with the same counter and files, fed different entropy. *)
Lemma shuffle_sequence_deterministic_witness :
  let env := steady reverse_order in
  let s1 := configured env ["A"; "B"; "C"] 100 in
  let s2 := configured env ["A"; "B"; "C"] 50 in
  (length [3; 5; 8] = length [13; 21; 34] /\
   randomcount_ s1 = randomcount_ s2 /\
   shuffled_infiles_ s1 = shuffled_infiles_ s2) /\
  length (shuffle_orders env [3; 5; 8] s1) = 3%nat /\
  shuffle_orders env [3; 5; 8] s1 = shuffle_orders env [13; 21; 34] s2.
Proof.
  cbv zeta. split; [repeat split|].
  apply (proj2 (proj2 (shuffle_sequence_deterministic (steady reverse_order)))
           [3; 5; 8] [13; 21; 34]); reflexivity.
Defined.

(** Claim C7, witness: [shuffled_is_permutation_of_original] at the state
    an epoch start leaves, with a shuffle that reverses the list. *)
Lemma shuffled_is_permutation_of_original_witness :
  let env := steady reverse_order in
  let s := epoch env ["A"; "B"; "C"] 100 in
  shuffle_permutes env /\ reachable env s /\
  orig_infiles_ s = ["A"; "B"; "C"] /\ shuffled_infiles_ s = ["C"; "B"; "A"] /\
  Permutation (orig_infiles_ s) (shuffled_infiles_ s).
Proof.
  cbv zeta.
  assert (R : reachable (steady reverse_order)
                (epoch (steady reverse_order) ["A"; "B"; "C"] 100)).
  { apply reachable_call
      with (s := configured (steady reverse_order) ["A"; "B"; "C"] 100)
           (c := call_prepareNextEpoch 0); [|vm_compute; reflexivity].
    apply reachable_call
      with (s := left_by trainDataGenerator_new
                   (setFileList (steady reverse_order) ["A"; "B"; "C"]
                      trainDataGenerator_new))
           (c := call_setBatchSize 100); [|vm_compute; reflexivity].
    apply reachable_call
      with (s := trainDataGenerator_new)
           (c := call_setFileList ["A"; "B"; "C"]); [|vm_compute; reflexivity].
    apply reachable_new. }
  split; [exact reverse_order_permutes|]. split; [exact R|].
  split; [reflexivity|]. split; [reflexivity|].
  exact (proj1 (shuffled_is_permutation_of_original (steady reverse_order) _
                  reverse_order_permutes R)).
Defined.

(** Claim C8, counterexample: file [E] reports zero samples (its first
    feature shape is [0; 4]) and [setFileList] accepts the list. *)
Lemma setFileList_accepts_file_without_samples :
  let env := steady keep_order in
  leading_dim env "E" = Some 0 /\
  ~ rejected (setFileList env ["A"; "E"] trainDataGenerator_new) /\
  exists s',
    setFileList env ["A"; "E"] trainDataGenerator_new = Returns tt s' /\
    getNTotal s' = 100.
Proof.
  cbv zeta. split; [reflexivity|]. split.
  - intros (f & s' & H). vm_compute in H. discriminate.
  - eexists. split; [vm_compute; reflexivity|]. reflexivity.
Qed.

(** Claim C8, witness: [setFileList_sums_leading_dims] at a list it
    accepts and at a list it rejects. *)
Lemma setFileList_sums_leading_dims_witness :
  (batchsize_ (@trainDataGenerator_new nat) <> 0 /\
   exists s',
     setFileList (steady keep_order) ["A"; "B"] trainDataGenerator_new =
       Returns tt s' /\
     ntotal_ s' = 250 /\ nbatches_ s' = 125) /\
  (exists s',
     setFileList nothing_filled ["A"; "B"] trainDataGenerator_new =
       Throws (readNTotal_error "A") s').
Proof.
  split.
  - assert (B : batchsize_ (@trainDataGenerator_new nat) <> 0)
      by (simpl; discriminate).
    split; [exact B|].
    pose proof (proj2 (setFileList_sums_leading_dims (steady keep_order)
                         ["A"; "B"] trainDataGenerator_new)) as H.
    destruct (H B) as (s' & E & N & _ & Q & _).
    exists s'. split; [exact E|]. split.
    + rewrite N. reflexivity.
    + rewrite Q, N. reflexivity.
  - pose proof (proj2 (setFileList_sums_leading_dims nothing_filled
                         ["A"; "B"] trainDataGenerator_new)) as H.
    destruct H as (s' & E & _).
    exists s'. exact E.
Defined.



(** * Further properties *)

Local Open Scope Z_scope.

(** ** The retry budget of the reader *)

Section Budget.
Context {T : Type}.
Variable env : platform T.

Lemma look_cost_unreadable (r : probe_result T) :
  unreadable r -> 1 <= look_cost r <= 2.
Proof. destruct r; simpl; intros H; lia || contradiction. Qed.

Lemma looks_cost_nonneg f k :
  forall t, 0 <= looks_cost env f t k.
Proof.
  induction k as [|k IH]; intros t; cbn [looks_cost]; [lia|].
  specialize (IH (S t)). destruct (probe env t f); cbn [look_cost]; lia.
Qed.

Lemma readBuffer_while_recovers k :
  forall fuel ntries s content,
    0 <= ntries -> filetimeout_ s < 2 ^ 64 - 1 ->
    (Z.to_nat (filetimeout_ s - ntries) <= fuel)%nat ->
    (forall i, (i < k)%nat ->
               unreadable (probe env (clock s + i) (nextread_ s))) ->
    probe env (clock s + k) (nextread_ s) = Readable content ->
    ntries + looks_cost env (nextread_ s) (clock s) k < filetimeout_ s ->
    exists s',
      readBuffer_while env fuel ntries s = Returns tt s' /\
      buffer_read s' = content /\ clock s' = (clock s + k)%nat.
Proof.
  induction k as [|k IH]; intros fuel ntries s content N R F U P C.
  - simpl in C. destruct fuel as [|fuel]; [lia|].
    rewrite Nat.add_0_r in P.
    exists (set_buffer_read content s).
    rewrite (readBuffer_while_readable env fuel ntries s content); [|lia|exact P].
    simpl. repeat split. lia.
  - pose proof (looks_cost_nonneg (nextread_ s) k (S (clock s))) as Pos.
    assert (U0 : unreadable (probe env (clock s) (nextread_ s))).
    { rewrite <- (Nat.add_0_r (clock s)). apply U. lia. }
    pose proof (look_cost_unreadable _ U0) as L0.
    cbn [looks_cost] in C.
    destruct fuel as [|fuel]; [lia|].
    simpl. assert (Lt : (ntries <? filetimeout_ s) = true) by (apply Z.ltb_lt; lia).
    rewrite Lt.
    destruct (probe env (clock s) (nextread_ s)) as [|what|c0] eqn:E;
      [| |contradiction]; cbn [look_cost] in *.
    + rewrite wrap64_small by (unfold size_t_range; lia).
      destruct (IH fuel (ntries + 1) (set_clock (S (clock s)) s) content)
        as (s' & E' & B & K);
        cbn [clock nextread_ filetimeout_ set_clock] in *; try lia.
      * intros i Hi. replace (S (clock s) + i)%nat with (clock s + S i)%nat by lia.
        apply U. lia.
      * replace (S (clock s) + k)%nat with (clock s + S k)%nat by lia. exact P.
      * exists s'. split; [exact E'|]. split; [exact B|]. lia.
    + rewrite (wrap64_small (ntries + 1)) by (unfold size_t_range; lia).
      rewrite wrap64_small by (unfold size_t_range; lia).
      destruct (IH fuel (ntries + 1 + 1) (set_clock (S (clock s)) s) content)
        as (s' & E' & B & K);
        cbn [clock nextread_ filetimeout_ set_clock] in *; try lia.
      * intros i Hi. replace (S (clock s) + i)%nat with (clock s + S i)%nat by lia.
        apply U. lia.
      * replace (S (clock s) + k)%nat with (clock s + S k)%nat by lia. exact P.
      * exists s'. split; [exact E'|]. split; [exact B|]. lia.
Qed.

Lemma readBuffer_while_gives_up k :
  forall fuel ntries s,
    0 <= ntries -> filetimeout_ s < 2 ^ 64 - 1 ->
    (Z.to_nat (filetimeout_ s - ntries) <= fuel)%nat ->
    (forall i, (i < k)%nat ->
               unreadable (probe env (clock s + i) (nextread_ s))) ->
    (forall j, (j < k)%nat ->
               ntries + looks_cost env (nextread_ s) (clock s) j
                 < filetimeout_ s) ->
    filetimeout_ s <= ntries + looks_cost env (nextread_ s) (clock s) k ->
    exists s',
      readBuffer_while env fuel ntries s =
        Throws (readBuffer_error (nextread_ s)) s' /\
      buffer_read s' = [] /\ clock s' = (clock s + k)%nat.
Proof.
  induction k as [|k IH]; intros fuel ntries s N R F U Below Reach.
  - simpl in Reach. rewrite Z.add_0_r in Reach.
    assert (Ge : (ntries <? filetimeout_ s) = false) by (apply Z.ltb_ge; lia).
    exists (set_buffer_read [] s).
    destruct fuel; simpl; rewrite Ge; simpl; repeat split; lia.
  - assert (B0 : ntries + 0 < filetimeout_ s) by (apply (Below O); lia).
    assert (U0 : unreadable (probe env (clock s) (nextread_ s))).
    { rewrite <- (Nat.add_0_r (clock s)). apply U. lia. }
    pose proof (look_cost_unreadable _ U0) as L0.
    cbn [looks_cost] in Reach.
    destruct fuel as [|fuel]; [lia|].
    simpl. assert (Lt : (ntries <? filetimeout_ s) = true) by (apply Z.ltb_lt; lia).
    rewrite Lt.
    assert (Step : forall j, (j < k)%nat ->
               ntries + look_cost (probe env (clock s) (nextread_ s))
                 + looks_cost env (nextread_ s) (S (clock s)) j
                 < filetimeout_ s).
    { intros j Hj. assert (Sj : (S j < S k)%nat) by lia.
      specialize (Below (S j) Sj).
      cbn [looks_cost] in Below. lia. }
    destruct (probe env (clock s) (nextread_ s)) as [|what|c0] eqn:E;
      [| |contradiction]; cbn [look_cost] in *.
    + rewrite wrap64_small by (unfold size_t_range; lia).
      destruct (IH fuel (ntries + 1) (set_clock (S (clock s)) s))
        as (s' & E' & B & K);
        cbn [clock nextread_ filetimeout_ set_clock] in *; try lia.
      * intros i Hi. replace (S (clock s) + i)%nat with (clock s + S i)%nat by lia.
        apply U. lia.
      * intros j Hj. specialize (Step j Hj). lia.
      * exists s'. split; [exact E'|]. split; [exact B|]. lia.
    + rewrite (wrap64_small (ntries + 1)) by (unfold size_t_range; lia).
      rewrite wrap64_small by (unfold size_t_range; lia).
      destruct (IH fuel (ntries + 1 + 1) (set_clock (S (clock s)) s))
        as (s' & E' & B & K);
        cbn [clock nextread_ filetimeout_ set_clock] in *; try lia.
      * intros i Hi. replace (S (clock s) + i)%nat with (clock s + S i)%nat by lia.
        apply U. lia.
      * intros j Hj. specialize (Step j Hj). lia.
      * exists s'. split; [exact E'|]. split; [exact B|]. lia.
Qed.


(** The retry loop ends within its budget: at most [filetimeout_] looks,
    by storing the file as the last look found it or by clearing
    [buffer_read] and throwing; every look before the last fails. *)
Lemma readBuffer_while_bounded fuel :
  forall ntries s,
    0 <= ntries -> filetimeout_ s < 2 ^ 64 - 1 ->
    (Z.to_nat (filetimeout_ s - ntries) <= fuel)%nat ->
    exists s',
      (readBuffer_while env fuel ntries s = Returns tt s' /\
       probe env (clock s') (nextread_ s) = Readable (buffer_read s') \/
       readBuffer_while env fuel ntries s =
         Throws (readBuffer_error (nextread_ s)) s' /\
       buffer_read s' = []) /\
      (forall t, (clock s <= t < clock s')%nat ->
                 unreadable (probe env t (nextread_ s))) /\
      (clock s <= clock s')%nat /\
      Z.of_nat (clock s') - Z.of_nat (clock s)
        <= Z.max 0 (filetimeout_ s - ntries).
Proof.
  induction fuel as [|fuel IH]; intros ntries s N R F;
    cbn [readBuffer_while].
  - destruct (ntries <? filetimeout_ s) eqn:C.
    + apply Z.ltb_lt in C. lia.
    + exists (set_buffer_read [] s). cbn [clock set_buffer_read buffer_read].
      split; [right; auto|]. split; [intros t Ht; lia|]. lia.
  - destruct (ntries <? filetimeout_ s) eqn:C.
    + apply Z.ltb_lt in C.
      destruct (probe env (clock s) (nextread_ s)) as [|what|content] eqn:Look.
      * rewrite wrap64_small by (unfold size_t_range; lia).
        destruct (IH (ntries + 1) (set_clock (S (clock s)) s))
          as (s' & O & Before & K1 & K2);
          cbn [clock nextread_ filetimeout_ set_clock] in *; try lia.
        exists s'. split; [exact O|]. split; [|lia].
        intros t Ht. destruct (Nat.eq_dec t (clock s)) as [->|Ne].
        -- rewrite Look. exact I.
        -- apply Before. lia.
      * rewrite (wrap64_small (ntries + 1)) by (unfold size_t_range; lia).
        rewrite wrap64_small by (unfold size_t_range; lia).
        destruct (IH (ntries + 1 + 1) (set_clock (S (clock s)) s))
          as (s' & O & Before & K1 & K2);
          cbn [clock nextread_ filetimeout_ set_clock] in *; try lia.
        exists s'. split; [exact O|]. split; [|lia].
        intros t Ht. destruct (Nat.eq_dec t (clock s)) as [->|Ne].
        -- rewrite Look. exact I.
        -- apply Before. lia.
      * exists (set_buffer_read content s).
        cbn [clock set_buffer_read buffer_read].
        split; [left; auto|]. split; [intros t Ht; lia|]. lia.
    + exists (set_buffer_read [] s). cbn [clock set_buffer_read buffer_read].
      split; [right; auto|]. split; [intros t Ht; lia|]. lia.
Qed.

(** Extra X1: [readBuffer()] ends within its budget, after at most
    [filetimeout_] one-second sleeps: either it returns and [buffer_read]
    holds the file as the last look found it, or it clears [buffer_read]
    and throws its error; every look before the last found the file
    missing or unparsable.  The call leaves the settings, the worker
    handle, the file name, the file cursor and the store alone. *)
Theorem readBuffer_ends_within_budget s :
  filetimeout_ s < 2 ^ 64 - 1 ->
  exists s',
    (readBuffer env s = Returns tt s' /\
     probe env (clock s') (nextread_ s) = Readable (buffer_read s') \/
     readBuffer env s = Throws (readBuffer_error (nextread_ s)) s' /\
     buffer_read s' = []) /\
    (forall t, (clock s <= t < clock s')%nat ->
               unreadable (probe env t (nextread_ s))) /\
    worker_frame s' = worker_frame s /\
    (clock s <= clock s')%nat /\
    Z.of_nat (clock s') - Z.of_nat (clock s) <= Z.max 0 (filetimeout_ s).
Proof.
  intros R.
  destruct (readBuffer_while_bounded (Z.to_nat (filetimeout_ s)) 0 s)
    as (s' & O & Before & K1 & K2); try lia.
  rewrite Z.sub_0_r in K2.
  exists s'. unfold readBuffer, bind, get.
  split; [exact O|]. split; [exact Before|]. split; [|split; assumption].
  apply (readBuffer_frame env). unfold readBuffer, bind, get.
  destruct O as [[O _]|[O _]]; rewrite O; reflexivity.
Qed.

(** Extra X2: in [readBuffer()] a look that finds the file missing
    costs one try and a look that finds it unparsable costs two.  After
    [k] failed looks the file is read at the next look if the tries spent
    are below [filetimeout_]; and the call throws after exactly [k] looks
    if the tries reach [filetimeout_] at the [k]-th look and not before. *)
Theorem readBuffer_spends_budget_by_kind s k :
  filetimeout_ s < 2 ^ 64 - 1 ->
  (forall i, (i < k)%nat ->
             unreadable (probe env (clock s + i) (nextread_ s))) ->
  (forall content,
      probe env (clock s + k) (nextread_ s) = Readable content ->
      looks_cost env (nextread_ s) (clock s) k < filetimeout_ s ->
      exists s',
        readBuffer env s = Returns tt s' /\
        buffer_read s' = content /\ clock s' = (clock s + k)%nat /\
        worker_frame s' = worker_frame s) /\
  (filetimeout_ s <= looks_cost env (nextread_ s) (clock s) k ->
   (forall j, (j < k)%nat ->
              looks_cost env (nextread_ s) (clock s) j < filetimeout_ s) ->
   exists s',
     readBuffer env s = Throws (readBuffer_error (nextread_ s)) s' /\
     buffer_read s' = [] /\ clock s' = (clock s + k)%nat /\
     worker_frame s' = worker_frame s).
Proof.
  intros R U. split.
  - intros content P C.
    destruct (readBuffer_while_recovers k (Z.to_nat (filetimeout_ s)) 0 s content)
      as (s' & E & B & K); try assumption; try lia.
    exists s'. unfold readBuffer, bind, get.
    split; [exact E|]. split; [exact B|]. split; [exact K|].
    apply (readBuffer_frame env). unfold readBuffer, bind, get.
    rewrite E. reflexivity.
  - intros Reach Below.
    destruct (readBuffer_while_gives_up k (Z.to_nat (filetimeout_ s)) 0 s)
      as (s' & E & B & K); try assumption; try lia.
    exists s'. unfold readBuffer, bind, get.
    split; [exact E|]. split; [exact B|]. split; [exact K|].
    apply (readBuffer_frame env). unfold readBuffer, bind, get.
    rewrite E. reflexivity.
Qed.

(** Extra X3: on a file that stays missing [readBuffer()] throws
    after [filetimeout_] sleeps; on a file that exists and never parses it
    throws after half as many, rounded up. *)
Theorem readBuffer_gives_up_on_a_file_that_stays_bad s :
  0 <= filetimeout_ s < 2 ^ 64 - 1 ->
  ((forall t, (clock s <= t)%nat -> probe env t (nextread_ s) = Absent) ->
   exists s',
     readBuffer env s = Throws (readBuffer_error (nextread_ s)) s' /\
     buffer_read s' = [] /\
     clock s' = (clock s + Z.to_nat (filetimeout_ s))%nat) /\
  ((forall t, (clock s <= t)%nat ->
              exists what, probe env t (nextread_ s) = Corrupt what) ->
   exists s',
     readBuffer env s = Throws (readBuffer_error (nextread_ s)) s' /\
     buffer_read s' = [] /\
     clock s' = (clock s + Z.to_nat ((filetimeout_ s + 1) / 2))%nat).
Proof.
  intros R. split; intros A.
  - apply readBuffer_absent; [lia|exact A].
  - apply readBuffer_corrupt; [lia|exact A].
Qed.

End Budget.

(** ** Endings, empty lists and configuration *)

Section Edges.
Context {T : Type}.
Variable env : platform T.

(** Extra X4: an [end()] that returns leaves no worker: the handle
    is null, a second [end()] and the destructor do nothing, and the
    settings, the store, the file cursor and the file name are as before.
    Without a worker [end()] changes nothing. *)
Theorem end_joins_and_is_idempotent s s' :
  end_ env s = Returns tt s' ->
  readthread_ s' = null /\
  end_ env s' = Returns tt s' /\
  destructor env s' = Returns tt s' /\
  settings s' = settings s /\
  buffer_store s' = buffer_store s /\
  filecount_ s' = filecount_ s /\ nextread_ s' = nextread_ s /\
  (readthread_ s = null -> s' = s).
Proof.
  unfold end_. unfold bind at 1. unfold get at 1.
  destruct (readthread_ s) eqn:P.
  - unfold ret. intros H; injection H as <-.
    unfold end_, destructor, bind, get, ret. rewrite P. auto 10.
  - unfold bind, thread_delete, modify.
    pose proof (thread_join_frame env s) as F.
    destruct (thread_join env s) as [[] s1|e s1| | |]; try discriminate.
    specialize (F s1 eq_refl). unfold worker_frame in F.
    assert (F1 : settings s1 = settings s) by congruence.
    assert (F2 : buffer_store s1 = buffer_store s) by congruence.
    assert (F3 : filecount_ s1 = filecount_ s) by congruence.
    assert (F4 : nextread_ s1 = nextread_ s) by congruence.
    intros Ret; injection Ret as <-.
    unfold end_, destructor, bind, get, ret. simpl.
    repeat split; try assumption. discriminate.
  - unfold bind, thread_join. rewrite P. discriminate.
Qed.

(** *** prepareNextEpoch without files *)

Lemma epoch_start_without_files s :
  shuffle_permutes env -> shuffled_infiles_ s = [] ->
  epoch_start env s =
    Throws out_of_range
      (set_shuffled_infiles_ []
         (set_randomcount_ (wrap_int (randomcount_ s + 1))
            (set_nsamplesprocessed_ 0
               (set_filecount_ 0
                  (set_buffer_read [] (set_buffer_store [] s)))))).
Proof.
  intros Perm E. unfold epoch_start.
  pose proof (Perm (mt19937_new (randomcount_ s)) (shuffled_infiles_ s)) as P.
  rewrite E in P at 1. apply Permutation_nil in P. rewrite P. reflexivity.
Qed.

(** Extra X5: [prepareNextEpoch()] on an empty file list throws the
    [out_of_range] of [at(0)] after it has reset the counters and advanced
    the shuffle counter.  If a worker was running it has been deleted and
    the handle still points to it: [end()], the destructor, a further
    [prepareNextEpoch()] and [getBatch()] then have no defined
    behaviour. *)
Theorem prepareNextEpoch_without_files rd s :
  shuffle_permutes env -> shuffled_infiles_ s = [] ->
  (readthread_ s = null ->
   exists s',
     prepareNextEpoch env rd s = Throws out_of_range s' /\
     readthread_ s' = null /\
     randomcount_ s' = wrap_int (randomcount_ s + 1) /\
     nsamplesprocessed_ s' = 0 /\ filecount_ s' = 0 /\
     buffer_store s' = [] /\ buffer_read s' = [] /\
     end_ env s' = Returns tt s') /\
  (readthread_ s = joinable ->
   forall s1, readBuffer env s = Returns tt s1 ->
   exists s',
     prepareNextEpoch env rd s = Throws out_of_range s' /\
     readthread_ s' = dangling /\
     end_ env s' = Undefined /\
     destructor env s' = Undefined /\
     (forall rd', prepareNextEpoch env rd' s' = Undefined) /\
     (forall fuel, 0 < batchsize_ s -> getBatch env (S fuel) s' = Undefined)).
Proof.
  intros Perm E. split.
  - intros P. rewrite (prepareNextEpoch_null env rd s P).
    rewrite (epoch_start_without_files s Perm E).
    eexists. split; [reflexivity|]. simpl.
    repeat split; try assumption.
    unfold end_, bind, get, ret. simpl. rewrite P. reflexivity.
  - intros P s1 R. rewrite (prepareNextEpoch_joinable env rd s P), R.
    pose proof (readBuffer_frame env s s1) as F. rewrite R in F.
    specialize (F eq_refl). unfold worker_frame, settings in F.
    injection F as F1 F2 F3 F4 F5 F6 F7 F8 F9 F10 F11 F12 F13 F14 F15.
    rewrite (epoch_start_without_files (set_readthread_ dangling s1) Perm)
      by (simpl; congruence).
    eexists. split; [reflexivity|]. simpl. split; [reflexivity|].
    split; [reflexivity|]. split; [reflexivity|].
    split.
    + intros rd'. apply prepareNextEpoch_dangling. reflexivity.
    + intros fuel B. unfold getBatch, prepareBatch, bind, get. simpl.
      unfold nElements. simpl.
      assert (Lt : (0 <? batchsize_ s1) = true) by (apply Z.ltb_lt; lia).
      rewrite Lt. reflexivity.
Qed.

(** Extra X6: [setFileList] then [setBatchSize] and [setBatchSize]
    then [setFileList] leave the same object, with the number of batches
    the total divided by the batch size; with batch size 0 either order
    divides by zero. *)
Theorem configuration_order_does_not_matter files b s :
  batchsize_ s <> 0 -> first_unfilled env files = None ->
  (b <> 0 ->
   exists s',
     configure env files b s = Returns tt s' /\
     configure_batch_first env files b s = Returns tt s' /\
     getNTotal s' = wrap64 (sum_leading_dims env files) /\
     getNBatches s' = getNTotal s' / b /\
     batchsize_ s' = b /\
     orig_infiles_ s' = files /\ shuffled_infiles_ s' = files) /\
  configure env files 0 s = Undefined /\
  configure_batch_first env files 0 s = Undefined.
Proof.
  intros B U.
  assert (SF : forall s0, batchsize_ s0 <> 0 ->
            setFileList env files s0 =
              Returns tt
                (set_nbatches_
                   (wrap64 (sum_leading_dims env files) / batchsize_ s0)
                   (set_ntotal_ (wrap64 (sum_leading_dims env files))
                      (set_shuffled_infiles_ files
                         (set_orig_infiles_ files s0))))).
  { intros s0 B0.
    unfold setFileList, readNTotal, bind, get, modify, size_t_div.
    rewrite (readNTotal_for_ok env);
      [|exact U|simpl; unfold size_t_range; lia].
    simpl. apply Z.eqb_neq in B0. rewrite B0. reflexivity. }
  split; [|split].
  - intros Nz. eexists. unfold configure, configure_batch_first.
    unfold bind at 1. rewrite (SF s B).
    rewrite (setBatchSize_ok b _ Nz).
    unfold bind at 1. rewrite (setBatchSize_ok b s Nz).
    rewrite SF by (simpl; exact Nz).
    split; [reflexivity|]. split; [reflexivity|]. simpl. auto.
  - unfold configure. unfold bind at 1. rewrite (SF s B). reflexivity.
  - reflexivity.
Qed.


(** *** setFileList on a file without features *)

Lemma readNTotal_for_stops pre f post :
  forall s,
    first_unfilled env pre = None -> leading_dim env f = None ->
    size_t_range (ntotal_ s) ->
    readNTotal_for env (pre ++ f :: post) s =
      Throws (readNTotal_error f)
        (set_ntotal_ (wrap64 (ntotal_ s + sum_leading_dims env pre)) s).
Proof.
  induction pre as [|g pre IH]; intros s U L R.
  - simpl. unfold leading_dim in L.
    destruct (readShapesFromFile env f) as [[fs ts] ws]; simpl in L.
    rewrite Z.add_0_r, wrap64_small by exact R.
    destruct fs as [|[|n dims] more]; try discriminate;
      destruct s; reflexivity.
  - cbn [app readNTotal_for first_unfilled sum_leading_dims] in *.
    destruct (leading_dim env g) as [n|] eqn:G; [|discriminate].
    unfold leading_dim in G.
    destruct (readShapesFromFile env g) as [[fs ts] ws]; simpl in G.
    destruct fs as [|[|n0 dims] more]; try discriminate.
    injection G as ->.
    unfold bind, modify. rewrite IH; [|exact U|exact L|apply wrap64_range].
    simpl. rewrite wrap64_add_l, Z.add_assoc. reflexivity.
Qed.

(** Extra X7: when [setFileList] throws for a file without a
    feature shape, both file lists are already replaced, the total is the
    sum over the files before that one, and the number of batches and the
    batch size are the old ones. *)
Theorem setFileList_failure_leaves_partial_total pre f post s :
  first_unfilled env pre = None -> leading_dim env f = None ->
  exists s',
    setFileList env (pre ++ f :: post) s = Throws (readNTotal_error f) s' /\
    orig_infiles_ s' = pre ++ f :: post /\
    shuffled_infiles_ s' = pre ++ f :: post /\
    getNTotal s' = wrap64 (sum_leading_dims env pre) /\
    getNBatches s' = getNBatches s /\
    batchsize_ s' = batchsize_ s.
Proof.
  intros U L. unfold setFileList, readNTotal, bind, get, modify. simpl.
  rewrite readNTotal_for_stops;
    [|exact U|exact L|simpl; unfold size_t_range; lia].
  eexists. split; [reflexivity|]. simpl. auto.
Qed.

(** *** What getBatch can throw *)

Lemma prepareBatch_turn_throws s e s' :
  0 <= filecount_ s ->
  prepareBatch_turn env s = Throws e s' -> e = getBatch_error.
Proof.
  intros Fc. unfold prepareBatch_turn, bind, get, modify, ret, throw,
    thread_delete, thread_new, vector_at.
  destruct (readthread_ s) eqn:P; simpl.
  - destruct (_ <? ntotal_ s); simpl; [|discriminate].
    destruct (_ <=? filecount_ s) eqn:Le; simpl.
    + intros H; injection H as <- _. reflexivity.
    + apply Z.leb_gt in Le.
      destruct (nth_error _ _) eqn:Nth; simpl.
      * apply Z.ltb_lt in Le. rewrite Le. simpl. discriminate.
      * apply nth_error_None in Nth. lia.
  - pose proof (thread_join_frame env s) as F.
    pose proof (thread_join_returns env s _ eq_refl) as J.
    destruct (thread_join env s) as [[] s1|e1 s1| | |]; simpl;
      try discriminate; [|contradiction].
    specialize (F s1 eq_refl). unfold worker_frame in F.
    assert (F3 : filecount_ s1 = filecount_ s) by congruence.
    assert (F4 : shuffled_infiles_ s1 = shuffled_infiles_ s)
      by (unfold settings in F; congruence).
    destruct (_ <? ntotal_ s1); simpl; [|discriminate].
    destruct (_ <=? filecount_ s1) eqn:Le; simpl.
    + intros H; injection H as <- _. reflexivity.
    + apply Z.leb_gt in Le.
      destruct (nth_error _ _) eqn:Nth; simpl.
      * apply Z.ltb_lt in Le. rewrite Le. simpl. discriminate.
      * apply nth_error_None in Nth. lia.
  - unfold thread_join. rewrite P. simpl. discriminate.
Qed.


Lemma prepareBatch_turn_cursor s b s1 :
  prepareBatch_turn env s = Returns b s1 ->
  filecount_ s1 = filecount_ s \/ filecount_ s1 = wrap64 (filecount_ s + 1).
Proof.
  unfold prepareBatch_turn, bind, get, modify, ret, throw,
    thread_delete, thread_new, vector_at.
  destruct (readthread_ s) eqn:P; simpl.
  - destruct (_ <? ntotal_ s); simpl.
    + destruct (_ <=? filecount_ s); simpl; [discriminate|].
      destruct (nth_error _ _); simpl;
        [destruct (filecount_ s <? _); simpl|]; try discriminate.
      intros H; injection H as _ <-. simpl. auto.
    + intros H; injection H as _ <-. simpl. auto.
  - pose proof (thread_join_frame env s) as F.
    destruct (thread_join env s) as [[] s1'|e1 s1'| | |]; simpl;
      try discriminate.
    specialize (F s1' eq_refl). unfold worker_frame in F.
    assert (F3 : filecount_ s1' = filecount_ s) by congruence.
    destruct (_ <? ntotal_ s1'); simpl.
    + destruct (_ <=? filecount_ s1'); simpl; [discriminate|].
      destruct (nth_error _ _); simpl;
        [destruct (filecount_ s1' <? _); simpl|]; try discriminate.
      intros H; injection H as _ <-. simpl. rewrite F3. auto.
    + intros H; injection H as _ <-. simpl. auto.
  - unfold thread_join. rewrite P. simpl. discriminate.
Qed.

Lemma prepareBatch_while_throws fuel :
  forall b s e s',
    0 <= filecount_ s ->
    prepareBatch_while env fuel b s = Throws e s' -> e = getBatch_error.
Proof.
  induction fuel as [|fuel IH]; intros b s e s' Fc; simpl.
  - destruct (b <? batchsize_ s); discriminate.
  - destruct (b <? batchsize_ s); [|discriminate].
    unfold bind.
    destruct (prepareBatch_turn env s) as [b1 s1|e1 s1| | |] eqn:Turn;
      try discriminate.
    + apply IH.
      destruct (prepareBatch_turn_cursor s b1 s1 Turn) as [->| ->];
        [exact Fc|].
      pose proof (wrap64_range (filecount_ s + 1)) as R.
      unfold size_t_range in R. lia.
    + intros H; injection H as <- <-.
      eapply prepareBatch_turn_throws; eassumption.
Qed.

(** Extra X8: an exception of [readBuffer()] is raised in the worker
    thread and never reaches a caller: the only exception a caller of
    [getBatch()] sees is the one for running out of files (the file
    cursor, a [size_t], being non-negative), the only one a caller of
    [prepareNextEpoch()] sees is the [out_of_range] of [at], and [end()]
    and the destructor throw nothing. *)
Theorem load_failure_never_reaches_the_caller s :
  (forall fuel e s',
      0 <= filecount_ s ->
      getBatch env fuel s = Throws e s' -> e = getBatch_error) /\
  (forall rd e s',
      prepareNextEpoch env rd s = Throws e s' -> e = out_of_range) /\
  (forall e s', end_ env s <> Throws e s') /\
  (forall e s', destructor env s <> Throws e s').
Proof.
  split; [|split; [|split]].
  - intros fuel e s' Fc. unfold getBatch, prepareBatch, bind, get, modify, ret.
    pose proof (prepareBatch_while_throws fuel (nElements (buffer_store s)) s)
      as W.
    destruct (prepareBatch_while env fuel _ s) as [b1 s1|e1 s1| | |];
      simpl; try discriminate.
    intros H; injection H as <- _. eapply W; [exact Fc|reflexivity].
  - intros rd e s'.
    destruct (readthread_ s) eqn:P.
    + rewrite (prepareNextEpoch_null env rd s P). unfold epoch_start.
      destruct (std_shuffle env _ _); [|discriminate].
      intros H; injection H as <- _. reflexivity.
    + rewrite (prepareNextEpoch_joinable env rd s P).
      destruct (readBuffer env s) as [[] s1|e1 s1| | |]; try discriminate.
      unfold epoch_start.
      destruct (std_shuffle env _ _); [|discriminate].
      intros H; injection H as <- _. reflexivity.
    + rewrite (prepareNextEpoch_dangling env rd s P). discriminate.
  - intros e s'. unfold end_, bind, get, ret, thread_delete, modify.
    destruct (readthread_ s) eqn:P; [discriminate| |].
    + pose proof (thread_join_returns env s _ eq_refl) as J.
      destruct (thread_join env s) as [[] s1|e1 s1| | |]; simpl;
        try discriminate. contradiction.
    + unfold thread_join. rewrite P. discriminate.
  - intros e s'. unfold destructor, bind, get, ret, thread_delete, modify.
    destruct (readthread_ s) eqn:P; [discriminate| |].
    + pose proof (thread_join_returns env s _ eq_refl) as J.
      destruct (thread_join env s) as [[] s1|e1 s1| | |]; simpl;
        try discriminate. contradiction.
    + unfold thread_join. rewrite P. discriminate.
Qed.


End Edges.

(** ** What the batches hold *)

Section Streaming.
Context {T : Type}.
Variable env : platform T.
Variable content : string -> list T.
Hypothesis hold : files_hold env content.

Lemma hold_as_announced : files_as_announced env.
Proof.
  intros t f. exists (content f). apply hold.
Qed.

Lemma file_size_content f : file_size env f = nElements (content f).
Proof.
  unfold file_size. destruct (hold O f) as [_ L]. rewrite L. reflexivity.
Qed.

Lemma nElements_app (a b : list T) :
  nElements (a ++ b) = nElements a + nElements b.
Proof. unfold nElements. rewrite length_app. lia. Qed.

Lemma nElements_nonneg (a : list T) : 0 <= nElements a.
Proof. unfold nElements. lia. Qed.

Lemma sum_leading_dims_stream files :
  sum_leading_dims env files = nElements (stream_of content files).
Proof.
  induction files as [|f rest IH]; [reflexivity|].
  rewrite (sum_leading_dims_cons env), file_size_content, IH.
  unfold stream_of. simpl. rewrite nElements_app. reflexivity.
Qed.

Lemma stream_of_app l1 l2 :
  stream_of content (l1 ++ l2) = stream_of content l1 ++ stream_of content l2.
Proof. unfold stream_of. apply flat_map_app. Qed.

Lemma stream_firstn_next files :
  forall n f,
    nth_error files n = Some f ->
    stream_of content (firstn (S n) files) =
      stream_of content (firstn n files) ++ content f.
Proof.
  induction files as [|g rest IH]; intros [|n] f H; simpl in H;
    try discriminate.
  - injection H as <-. unfold stream_of. simpl. rewrite app_nil_r. reflexivity.
  - change (firstn (S (S n)) (g :: rest)) with (g :: firstn (S n) rest).
    change (firstn (S n) (g :: rest)) with (g :: firstn n rest).
    unfold stream_of in *. cbn [flat_map]. rewrite (IH n f H), app_assoc.
    reflexivity.
Qed.

Lemma stream_firstn_skipn files n :
  stream_of content (firstn n files) ++ stream_of content (skipn n files) =
    stream_of content files.
Proof. rewrite <- stream_of_app, firstn_skipn. reflexivity. Qed.

Lemma stream_firstn_le files n :
  nElements (stream_of content (firstn n files)) <=
    nElements (stream_of content files).
Proof.
  pose proof (f_equal nElements (stream_firstn_skipn files n)) as E.
  rewrite nElements_app in E.
  pose proof (nElements_nonneg (stream_of content (skipn n files))). lia.
Qed.

Lemma prepareBatch_turn_split s :
  prepareBatch_turn env s = bind (turn_join env) (fun _ => turn_top_up) s.
Proof. reflexivity. Qed.

(** The second half of a turn, on a state whose worker has been joined. *)
Lemma turn_top_up_streaming lead handed s :
  0 < batchsize_ s -> 0 < filetimeout_ s ->
  0 <= filecount_ s <= Z.of_nat (length (shuffled_infiles_ s)) ->
  Z.of_nat (length (shuffled_infiles_ s)) < 2 ^ 64 ->
  ntotal_ s = sum_leading_dims env (shuffled_infiles_ s) ->
  ntotal_ s < 2 ^ 63 -> nElements lead < 2 ^ 63 ->
  nsamplesprocessed_ s = nElements handed ->
  readthread_ s = null ->
  handed ++ buffer_store s ++ buffer_read s =
    lead ++ stream_of content
              (firstn (Z.to_nat (filecount_ s)) (shuffled_infiles_ s)) ->
  exists b s',
    turn_top_up s = Returns b s' /\
    b = nElements (buffer_store s') /\
    streaming env content lead handed s' /\
    settings s' = settings s /\
    (readthread_ s' = joinable /\ filecount_ s' = filecount_ s + 1 \/
     readthread_ s' = null /\ filecount_ s' = filecount_ s /\
     ntotal_ s <= nsamplesprocessed_ s + nElements (buffer_store s')).
Proof.
  intros B Ft Fc Fits Tot Room Lead Pr Th Acc.
  set (files := shuffled_infiles_ s) in *.
  set (fc := filecount_ s) in *.
  pose proof (stream_firstn_le files (Z.to_nat fc)) as Sle.
  rewrite <- (sum_leading_dims_stream files), <- Tot in Sle.
  pose proof (nElements_nonneg lead) as L0.
  pose proof (nElements_nonneg handed) as H0.
  pose proof (nElements_nonneg
                (stream_of content (firstn (Z.to_nat fc) files))) as X0.
  assert (Count : nElements handed
                  + nElements (buffer_store s ++ buffer_read s) =
                  nElements lead
                  + nElements (stream_of content (firstn (Z.to_nat fc) files))).
  { rewrite <- !nElements_app, Acc. reflexivity. }
  unfold turn_top_up, bind, get, modify, ret, throw, thread_new, vector_at.
  cbn -[Z.of_nat Z.pow Z.to_nat firstn stream_of wrap64 nElements].
  unfold append, clear.
  set (s1 := set_buffer_read []
               (set_buffer_store (buffer_store s ++ buffer_read s) s)).
  cbv beta.
  change (shuffled_infiles_ s1) with files.
  change (filecount_ s1) with fc.
  change (ntotal_ s1) with (ntotal_ s).
  change (nsamplesprocessed_ s1) with (nsamplesprocessed_ s).
  change (buffer_store s1) with (buffer_store s ++ buffer_read s).
  rewrite Pr.
  rewrite wrap64_small by (unfold size_t_range; lia).
  destruct (_ <? ntotal_ s) eqn:More.
  - apply Z.ltb_lt in More.
    assert (In : fc < Z.of_nat (length files)).
    { destruct (Z.eq_dec fc (Z.of_nat (length files))) as [E|E]; [|lia].
      rewrite E, Nat2Z.id, firstn_all in Count.
      rewrite <- (sum_leading_dims_stream files), <- Tot in Count. lia. }
    destruct (nth_error files (Z.to_nat fc)) as [f|] eqn:Nth;
      [|apply nth_error_None in Nth; lia].
    apply Z.ltb_lt in In as In'. apply Z.leb_gt in In as In''.
    change (shuffled_infiles_ s1) with files.
    change (filecount_ s1) with fc.
    rewrite In'', Nth, In'. unfold ret, modify.
    do 2 eexists. split; [reflexivity|].
    cbn -[Z.of_nat Z.pow Z.to_nat firstn stream_of wrap64 nElements].
    rewrite wrap64_small by (unfold size_t_range; lia).
    split; [reflexivity|]. split; [|split; [reflexivity|left; auto]].
    unfold streaming.
    cbn -[Z.of_nat Z.pow Z.to_nat firstn stream_of wrap64 nElements].
    fold files.
    replace (Z.to_nat (fc + 1)) with (S (Z.to_nat fc)) by lia.
    rewrite (stream_firstn_next files _ f Nth).
    repeat split; try assumption; try lia.
    rewrite (app_assoc handed (buffer_store s ++ buffer_read s) (content f)),
      Acc, <- app_assoc.
    reflexivity.
  - apply Z.ltb_ge in More.
    do 2 eexists. split; [reflexivity|].
    cbn -[Z.of_nat Z.pow Z.to_nat firstn stream_of wrap64 nElements].
    split; [reflexivity|]. split; [|split; [reflexivity|right]].
    + unfold streaming.
      cbn -[Z.of_nat Z.pow Z.to_nat firstn stream_of wrap64 nElements].
      rewrite Th. fold files. fold fc.
      repeat split; try assumption; try lia.
    + split; [exact Th|]. split; [reflexivity|]. lia.
Qed.

(** A turn of the batch loop on files that hold [content]. *)
Lemma prepareBatch_turn_streaming lead handed s :
  streaming env content lead handed s ->
  exists b s',
    prepareBatch_turn env s = Returns b s' /\
    b = nElements (buffer_store s') /\
    streaming env content lead handed s' /\
    settings s' = settings s /\
    (readthread_ s' = joinable /\ filecount_ s' = filecount_ s + 1 \/
     readthread_ s' = null /\ filecount_ s' = filecount_ s /\
     ntotal_ s <= nsamplesprocessed_ s + nElements (buffer_store s')).
Proof.
  intros (B & Ft & Rd & Fc & Fits & Tot & Room & Lead & Pr & Acc).
  rewrite prepareBatch_turn_split. unfold bind at 1.
  destruct (readthread_ s) eqn:P; [| |contradiction].
  - (* no worker: nothing is staged *)
    assert (J : turn_join env s = Returns tt s).
    { unfold turn_join, bind, get, ret. rewrite P. reflexivity. }
    rewrite J.
    apply turn_top_up_streaming; try assumption.
    rewrite Rd, app_nil_r. exact Acc.
  - (* the worker is joined and what it loaded is appended *)
    destruct (hold (clock s) (nextread_ s)) as [R _].
    pose proof (thread_join_readable env s
                  (content (nextread_ s)) P Ft R) as J.
    set (s1 := set_readthread_ null
                 (set_readthread_ dangling
                    (set_buffer_read (content (nextread_ s)) s))).
    assert (J' : turn_join env s = Returns tt s1).
    { unfold turn_join, bind, get, ret, modify, thread_delete.
      rewrite P, J. reflexivity. }
    rewrite J'.
    destruct (turn_top_up_streaming lead handed s1)
      as (b & s' & E & Cnt & Inv & Same & Where); try assumption;
      try reflexivity.
    exists b, s'. split; [exact E|]. split; [exact Cnt|].
    split; [exact Inv|]. split; [exact Same|exact Where].
Qed.


Lemma streaming_loaded lead handed s :
  streaming env content lead handed s ->
  nElements handed + nElements (buffer_store s) <=
    nElements lead + ntotal_ s.
Proof.
  intros (B & Ft & Rd & Fc & Fits & Tot & Room & Lead & Pr & Acc).
  pose proof (stream_firstn_le (shuffled_infiles_ s)
                (Z.to_nat (filecount_ s))) as Sle.
  rewrite <- (sum_leading_dims_stream (shuffled_infiles_ s)), <- Tot in Sle.
  destruct (readthread_ s); [| |contradiction];
    apply (f_equal nElements) in Acc; rewrite !nElements_app in Acc;
    pose proof (nElements_nonneg (content (nextread_ s))); lia.
Qed.

Lemma prepareBatch_while_unfinished fuel b s :
  prepareBatch_while env fuel b s = Unfinished -> b < batchsize_ s.
Proof.
  destruct fuel; cbn [prepareBatch_while];
    destruct (b <? batchsize_ s) eqn:C; try discriminate;
    intros _; apply Z.ltb_lt; exact C.
Qed.

(** The batch loop on files that hold [content]: it never throws; when it
    ends the store holds a batch; it can only fail to end for want of
    turns or because the batch does not fit into the total. *)
Lemma prepareBatch_while_streaming lead handed fuel :
  forall s,
    streaming env content lead handed s ->
    match prepareBatch_while env fuel (nElements (buffer_store s)) s with
    | Returns b s' =>
        b = nElements (buffer_store s') /\ batchsize_ s <= b /\
        streaming env content lead handed s' /\ settings s' = settings s
    | Unfinished =>
        Z.of_nat fuel
          < Z.of_nat (length (shuffled_infiles_ s)) - filecount_ s + 1 \/
        ntotal_ s < nsamplesprocessed_ s + batchsize_ s
    | _ => False
    end.
Proof.
  induction fuel as [|fuel IH]; intros s I.
  - cbn [prepareBatch_while].
    destruct (nElements (buffer_store s) <? batchsize_ s) eqn:C.
    + left. destruct I as (_ & _ & _ & Fc & _). lia.
    + apply Z.ltb_ge in C. auto.
  - cbn [prepareBatch_while].
    destruct (nElements (buffer_store s) <? batchsize_ s) eqn:C.
    + apply Z.ltb_lt in C.
      destruct (prepareBatch_turn_streaming lead handed s I)
        as (b1 & s1 & Turn & -> & I1 & Same & Where).
      unfold bind. rewrite Turn.
      pose proof Same as Same'. unfold settings in Same'.
      injection Same' as E1 E2 E3 E4 E5 E6 E7 E8 E9 E10 E11.
      specialize (IH s1 I1).
      destruct (prepareBatch_while env fuel (nElements (buffer_store s1)) s1)
        as [b s'|e s'| | |] eqn:W; try exact IH.
      * destruct IH as (Hb & Hle & I' & Same2).
        rewrite E5 in Hle. rewrite Same2. auto.
      * rewrite E3, E5, E7, E8 in IH.
        destruct IH as [Few|Over]; [|right; exact Over].
        destruct Where as [[_ Fc1]|(P1 & Fc1 & Full)].
        -- left. lia.
        -- right.
           (* no worker and no launch: the loop idles on a short store *)
           apply prepareBatch_while_unfinished in W. rewrite E5 in W. lia.
    + apply Z.ltb_ge in C. auto.
Qed.


(** [getBatch()] on files that hold [content]: the batch it returns is the
    next [batchsize_] samples of the stream. *)
Lemma getBatch_streaming lead handed fuel s :
  streaming env content lead handed s ->
  match getBatch env fuel s with
  | Returns batch s' =>
      nElements batch = batchsize_ s /\
      streaming env content lead (handed ++ batch) s' /\
      settings s' =
        settings
          (set_lastbatchsize_ (batchsize_ s)
             (set_nsamplesprocessed_ (nsamplesprocessed_ s + batchsize_ s) s))
  | Unfinished =>
      Z.of_nat fuel
        < Z.of_nat (length (shuffled_infiles_ s)) - filecount_ s + 1 \/
      ntotal_ s < nsamplesprocessed_ s + batchsize_ s
  | _ => False
  end.
Proof.
  intros I.
  pose proof (prepareBatch_while_streaming lead handed fuel s I) as W.
  unfold getBatch, prepareBatch, bind, get, modify, ret, split.
  destruct (prepareBatch_while env fuel (nElements (buffer_store s)) s)
    as [b s1|e s1| | |]; try exact W.
  destruct W as (-> & Hle & I1 & Same).
  pose proof (streaming_loaded lead handed s1 I1) as Loaded.
  pose proof Same as Same'. unfold settings in Same'.
  injection Same' as E1 E2 E3 E4 E5 E6 E7 E8 E9 E10 E11.
  destruct I1 as (B & Ft & Rd & Fc & Fits & Tot & Room & Lead & Pr & Acc).
  pose proof (nElements_nonneg handed) as H0.
  set (batch := firstn (Z.to_nat (batchsize_ s1)) (buffer_store s1)).
  set (rest := skipn (Z.to_nat (batchsize_ s1)) (buffer_store s1)).
  assert (Cut : buffer_store s1 = batch ++ rest)
    by (symmetry; apply firstn_skipn).
  assert (Size : nElements batch = batchsize_ s1).
  { unfold batch, nElements in *. rewrite length_firstn. lia. }
  assert (Sum : wrap64 (nsamplesprocessed_ s1 + batchsize_ s1)
                = nsamplesprocessed_ s1 + batchsize_ s1).
  { apply wrap64_small. unfold size_t_range. lia. }
  cbn -[Z.of_nat Z.pow Z.to_nat firstn skipn stream_of wrap64 nElements].
  fold batch. fold rest. rewrite Sum.
  split; [congruence|]. split.
  - unfold streaming.
    cbn -[Z.of_nat Z.pow Z.to_nat firstn skipn stream_of wrap64 nElements].
    rewrite nElements_app, Size, Pr.
    repeat split; try assumption; try lia.
    destruct (readthread_ s1); [| |exact Acc];
      rewrite <- Acc, Cut, <- !app_assoc; reflexivity.
  - unfold settings.
    cbn -[Z.of_nat Z.pow Z.to_nat firstn skipn stream_of wrap64 nElements].
    congruence.
Qed.

(** Successive [getBatch()] calls on files that hold [content]. *)
Lemma getBatches_streaming lead fuel n :
  forall handed s,
    streaming env content lead handed s ->
    match getBatches env fuel n s with
    | Returns bs s' =>
        length bs = n /\
        Forall (fun b => nElements b = batchsize_ s) bs /\
        streaming env content lead (handed ++ concat bs) s' /\
        batchsize_ s' = batchsize_ s /\ ntotal_ s' = ntotal_ s /\
        shuffled_infiles_ s' = shuffled_infiles_ s /\
        randomcount_ s' = randomcount_ s
    | Unfinished =>
        Z.of_nat fuel <= Z.of_nat (length (shuffled_infiles_ s)) \/
        ntotal_ s < nsamplesprocessed_ s + Z.of_nat n * batchsize_ s
    | _ => False
    end.
Proof.
  induction n as [|n IH]; intros handed s I.
  - cbn [getBatches concat]. rewrite app_nil_r.
    split; [reflexivity|]. split; [constructor|]. split; [exact I|]. auto.
  - cbn [getBatches]. unfold bind.
    pose proof (getBatch_streaming lead handed fuel s I) as G.
    pose proof I as (B & _ & _ & Fc & _ & _ & _ & _ & Pr & _).
    assert (0 <= Z.of_nat n * batchsize_ s) by nia.
    destruct (getBatch env fuel s) as [b s1|e s1| | |]; try exact G.
    + destruct G as (Size & I1 & Same).
      unfold settings in Same.
      injection Same as E1 E2 E3 E4 E5 E6 E7 E8 E9 E10 E11.
      cbn in E3, E4, E5, E7, E8.
      specialize (IH (handed ++ b) s1 I1).
      destruct (getBatches env fuel n s1) as [bs s'|e s'| | |];
        try exact IH.
      * unfold ret. destruct IH as (L & F & I' & Eb & Et & Ef & Ec).
        cbn [concat length]. rewrite app_assoc.
        split; [congruence|]. split; [|split; [exact I'|]].
        -- constructor; [exact Size|]. rewrite <- E5. exact F.
        -- repeat split; congruence.
      * rewrite E3, E5, E7, E8 in IH.
        destruct IH as [Few|Over]; [left; exact Few|right]. lia.
    + destruct G as [Few|Over]; [left; lia|right; lia].
Qed.


Lemma streaming_ready lead handed s :
  streaming env content lead handed s -> ready env s.
Proof.
  intros (B & Ft & Rd & Fc & Fits & Tot & Room & Lead & Pr & Acc).
  repeat split; try assumption.
  intros D. rewrite D in Acc. exact Acc.
Qed.

(** [prepareNextEpoch()] on files that hold [content]: the worker loads
    the first file of the new order, and nothing has been handed out. *)
Lemma epoch_start_streaming s :
  shuffle_permutes env ->
  0 < batchsize_ s -> 0 < filetimeout_ s ->
  shuffled_infiles_ s <> [] ->
  Z.of_nat (length (shuffled_infiles_ s)) < 2 ^ 64 ->
  ntotal_ s = sum_leading_dims env (shuffled_infiles_ s) ->
  ntotal_ s < 2 ^ 63 ->
  exists s',
    epoch_start env s = Returns tt s' /\
    streaming env content (content (hd EmptyString (shuffled_infiles_ s'))) []
      s' /\
    shuffled_infiles_ s' =
      std_shuffle env (mt19937_new (randomcount_ s)) (shuffled_infiles_ s) /\
    randomcount_ s' = wrap_int (randomcount_ s + 1) /\
    batchsize_ s' = batchsize_ s /\ filetimeout_ s' = filetimeout_ s /\
    ntotal_ s' = ntotal_ s /\ nsamplesprocessed_ s' = 0.
Proof.
  intros Perm B Ft NE Fits Tot Room.
  unfold epoch_start.
  set (order := std_shuffle env (mt19937_new (randomcount_ s))
                  (shuffled_infiles_ s)).
  pose proof (Perm (mt19937_new (randomcount_ s)) (shuffled_infiles_ s))
    as P. fold order in P.
  pose proof (Permutation_length P) as Len.
  pose proof (sum_leading_dims_permutation env _ _ P)
    as Sum.
  destruct order as [|f rest] eqn:O.
  - apply Permutation_sym, Permutation_nil in P. contradiction.
  - eexists. split; [reflexivity|].
    pose proof (first_file_le env hold_as_announced (f :: rest)) as First.
    cbn [hd] in First. rewrite file_size_content in First.
    pose proof (nElements_nonneg (content f)).
    unfold streaming.
    cbn -[Z.of_nat Z.pow Z.to_nat firstn stream_of wrap64 nElements
          sum_leading_dims length].
    rewrite <- Len, <- Sum, <- Tot.
    assert (F : f :: rest <> []) by discriminate.
    specialize (First F).
    repeat split; try assumption; try reflexivity; try lia.
    cbn [firstn stream_of flat_map app]. rewrite app_nil_r. reflexivity.
Qed.

Lemma prepareNextEpoch_streaming rd s :
  shuffle_permutes env -> ready env s -> shuffled_infiles_ s <> [] ->
  exists s',
    prepareNextEpoch env rd s = Returns tt s' /\
    streaming env content (content (hd EmptyString (shuffled_infiles_ s'))) []
      s' /\
    shuffled_infiles_ s' =
      std_shuffle env (mt19937_new (randomcount_ s)) (shuffled_infiles_ s) /\
    randomcount_ s' = wrap_int (randomcount_ s + 1) /\
    batchsize_ s' = batchsize_ s /\ filetimeout_ s' = filetimeout_ s /\
    ntotal_ s' = ntotal_ s /\ nsamplesprocessed_ s' = 0.
Proof.
  intros Perm (B & Ft & Th & Fits & Tot & Room) NE.
  destruct (readthread_ s) eqn:P; [| |contradiction Th; reflexivity].
  - rewrite (prepareNextEpoch_null env rd s P).
    apply epoch_start_streaming; assumption.
  - rewrite (prepareNextEpoch_joinable env rd s P).
    destruct (hold (clock s) (nextread_ s)) as [R _].
    rewrite (readBuffer_readable env s _ Ft R).
    apply (epoch_start_streaming
             (set_readthread_ dangling
                (set_buffer_read (content (nextread_ s)) s)));
      assumption.
Qed.

Lemma nElements_concat b (bs : list (trainData T)) :
  Forall (fun x => nElements x = b) bs ->
  nElements (concat bs) = Z.of_nat (length bs) * b.
Proof.
  induction 1 as [|x l Hx _ IH]; [reflexivity|].
  cbn [concat length]. rewrite nElements_app, Hx, IH. lia.
Qed.

Lemma firstn_prefix (a r : list T) : firstn (length a) (a ++ r) = a.
Proof. induction a as [|x a IH]; [reflexivity|]. simpl. rewrite IH. reflexivity. Qed.

(** What has been handed out is the front of the stream. *)
Lemma streaming_front lead handed s :
  streaming env content lead handed s ->
  handed =
    firstn (Z.to_nat (nElements handed))
      (lead ++ stream_of content (shuffled_infiles_ s)).
Proof.
  intros (B & Ft & Rd & Fc & Fits & Tot & Room & Lead & Pr & Acc).
  unfold nElements. rewrite Nat2Z.id.
  rewrite <- (stream_firstn_skipn (shuffled_infiles_ s)
                (Z.to_nat (filecount_ s))), app_assoc.
  destruct (readthread_ s); [| |contradiction]; rewrite <- Acc,
    <- !app_assoc, firstn_prefix; reflexivity.
Qed.

(** An epoch started on a generator that is [ready] hands out the first
    file of the shuffled order followed by all files of that order. *)
Lemma ready_epoch_stream rd fuel n s :
  shuffle_permutes env -> ready env s -> shuffled_infiles_ s <> [] ->
  Z.of_nat n * batchsize_ s <= ntotal_ s ->
  (length (shuffled_infiles_ s) < fuel)%nat ->
  exists s0 bs s',
    prepareNextEpoch env rd s = Returns tt s0 /\
    Permutation (shuffled_infiles_ s) (shuffled_infiles_ s0) /\
    getBatches env fuel n s0 = Returns bs s' /\
    length bs = n /\
    Forall (fun batch => nElements batch = batchsize_ s) bs /\
    concat bs =
      firstn (Z.to_nat (Z.of_nat n * batchsize_ s))
        (content (hd EmptyString (shuffled_infiles_ s0))
           ++ stream_of content (shuffled_infiles_ s0)).
Proof.
  intros Perm Rdy NE Fit Fuel.
  destruct (prepareNextEpoch_streaming rd s Perm Rdy NE)
    as (s0 & E & I & Ord & Cnt & Eb & Eft & Et & Ep).
  exists s0.
  assert (P : Permutation (shuffled_infiles_ s) (shuffled_infiles_ s0))
    by (rewrite Ord; apply Perm).
  pose proof (Permutation_length P) as Len.
  pose proof (getBatches_streaming
                (content (hd EmptyString (shuffled_infiles_ s0))) fuel n [] s0 I)
    as G.
  destruct (getBatches env fuel n s0) as [bs s'|e s'| | |];
    try contradiction.
  - destruct G as (L & F & I' & Eb' & Et' & Ef' & Ec').
    exists bs, s'. rewrite <- Eb.
    split; [exact E|]. split; [exact P|]. split; [reflexivity|].
    split; [exact L|]. split; [exact F|].
    pose proof (streaming_front _ _ _ I') as Front.
    cbn [app] in Front.
    rewrite (nElements_concat _ _ F), L, Ef' in Front. exact Front.
  - exfalso. rewrite Eb, Et, Ep in G. lia.
Qed.

(** A new generator that is given files and a batch size is [ready]. *)
Lemma configure_new_ready files b :
  0 < b ->
  sum_leading_dims env files < 2 ^ 63 ->
  Z.of_nat (length files) < 2 ^ 64 ->
  exists s,
    configure env files b trainDataGenerator_new = Returns tt s /\
    ready env s /\ shuffled_infiles_ s = files /\ batchsize_ s = b /\
    ntotal_ s = sum_leading_dims env files.
Proof.
  intros B Room Fits.
  pose proof (sum_leading_dims_nonneg env hold_as_announced files) as Pos.
  assert (W : wrap64 (sum_leading_dims env files) = sum_leading_dims env files).
  { apply wrap64_small. unfold size_t_range. lia. }
  unfold configure, bind.
  rewrite (setFileList_ok env hold_as_announced) by (cbn; discriminate).
  rewrite setBatchSize_ok by lia.
  eexists. split; [reflexivity|].
  unfold ready.
  cbn -[Z.of_nat Z.pow Z.to_nat wrap64 sum_leading_dims length].
  rewrite W. repeat split; try assumption; try reflexivity; try lia.
  discriminate.
Qed.

(** Extra X10: on files that are present, parse and hold as many
    samples as their shapes announce, with a [std::shuffle] that permutes,
    take a new generator that is given a non-empty file list (total below
    2^63) and a positive batch size [b].  After [prepareNextEpoch()] any
    [n] calls of [getBatch()] with [n * b <= total] return batches of [b]
    samples, and the batches one after the other are the first [n * b]
    samples of: the first file of the shuffled order, followed by all
    files of that order, the first one included again. *)
Theorem epoch_hands_out_first_file_then_all_files files b rd fuel n :
  shuffle_permutes env ->
  files <> [] -> 0 < b ->
  sum_leading_dims env files < 2 ^ 63 ->
  Z.of_nat (length files) < 2 ^ 64 ->
  Z.of_nat n * b <= sum_leading_dims env files ->
  (length files < fuel)%nat ->
  exists s s0 bs s',
    configure env files b trainDataGenerator_new = Returns tt s /\
    prepareNextEpoch env rd s = Returns tt s0 /\
    Permutation files (shuffled_infiles_ s0) /\
    getBatches env fuel n s0 = Returns bs s' /\
    length bs = n /\
    Forall (fun batch => nElements batch = b) bs /\
    concat bs =
      firstn (Z.to_nat (Z.of_nat n * b))
        (content (hd EmptyString (shuffled_infiles_ s0))
           ++ stream_of content (shuffled_infiles_ s0)).
Proof.
  intros Perm NE B Room Fits Fit Fuel.
  destruct (configure_new_ready files b B Room Fits)
    as (s & C & Rdy & Fl & Eb & Et).
  destruct (ready_epoch_stream rd fuel n s Perm Rdy)
    as (s0 & bs & s' & E & P & G & L & F & Front);
    try (rewrite ?Fl, ?Eb, ?Et; assumption).
  rewrite Fl in P. rewrite Eb in F, Front.
  exists s, s0, bs, s'.
  split; [exact C|]. split; [exact E|]. split; [exact P|].
  split; [exact G|]. split; [exact L|]. split; [exact F|exact Front].
Qed.

(** Extra X11: on files that are present, parse and hold as many
    samples as their shapes announce, a new generator that is given a file
    list (total below 2^63) and a positive batch size [b] and is not sent
    through [prepareNextEpoch()] serves any [n] batches with
    [n * b <= total], and they are the first [n * b] samples of the files
    in list order, every sample once. *)
Theorem files_in_list_order_without_prepareNextEpoch files b fuel n :
  0 < b ->
  sum_leading_dims env files < 2 ^ 63 ->
  Z.of_nat (length files) < 2 ^ 64 ->
  Z.of_nat n * b <= sum_leading_dims env files ->
  (length files < fuel)%nat ->
  exists s0 bs s',
    configure env files b trainDataGenerator_new = Returns tt s0 /\
    getBatches env fuel n s0 = Returns bs s' /\
    length bs = n /\
    concat bs = firstn (Z.to_nat (Z.of_nat n * b)) (stream_of content files).
Proof.
  intros B Room Fits Fit Fuel.
  pose proof (sum_leading_dims_nonneg env hold_as_announced files) as Pos.
  assert (W : wrap64 (sum_leading_dims env files) = sum_leading_dims env files).
  { apply wrap64_small. unfold size_t_range. lia. }
  unfold configure, bind.
  rewrite (setFileList_ok env hold_as_announced) by (cbn; discriminate).
  rewrite setBatchSize_ok by lia.
  match goal with
  | |- exists s0 bs s', Returns tt ?x = _ /\ _ => exists x; set (s0 := x)
  end.
  assert (I : streaming env content [] [] s0).
  { unfold streaming, s0.
    cbn -[Z.of_nat Z.pow Z.to_nat firstn stream_of wrap64 nElements
          sum_leading_dims length].
    rewrite W. repeat split; try assumption; try reflexivity; try lia. }
  pose proof (getBatches_streaming [] fuel n [] s0 I) as G.
  destruct (getBatches env fuel n s0) as [bs s'|e s'| | |];
    try contradiction.
  - destruct G as (L & F & I' & Eb' & Et' & Ef' & Ec').
    exists bs, s'. repeat split; try assumption.
    change (batchsize_ s0) with b in F.
    change (shuffled_infiles_ s0) with files in Ef'.
    pose proof (streaming_front _ _ _ I') as Front.
    cbn [app] in Front.
    rewrite (nElements_concat _ _ F), L, Ef' in Front. exact Front.
  - exfalso. unfold s0 in G.
    cbn -[Z.of_nat Z.pow Z.to_nat firstn stream_of wrap64 nElements
          sum_leading_dims length] in G.
    rewrite W in G. lia.
Qed.

(** The batch calls of an epoch started on a generator that is [ready]
    return or stay in the loop. *)
Lemma ready_epoch_never_throws rd s :
  shuffle_permutes env -> ready env s -> shuffled_infiles_ s <> [] ->
  exists s0,
    prepareNextEpoch env rd s = Returns tt s0 /\
    forall fuel n,
      match getBatches env fuel n s0 with
      | Returns bs _ =>
          Z.of_nat n * batchsize_ s <=
            nElements (content (hd EmptyString (shuffled_infiles_ s0)))
              + ntotal_ s
      | Unfinished => True
      | _ => False
      end.
Proof.
  intros Perm Rdy NE.
  destruct (prepareNextEpoch_streaming rd s Perm Rdy NE)
    as (s0 & E & I & Ord & Cnt & Eb & Eft & Et & Ep).
  exists s0. split; [exact E|]. intros fuel n.
  pose proof (getBatches_streaming
                (content (hd EmptyString (shuffled_infiles_ s0))) fuel n [] s0 I)
    as G.
  destruct (getBatches env fuel n s0) as [bs s'|e s'| | |];
    try contradiction; [|exact Logic.I].
  destruct G as (L & F & I' & Eb' & Et' & Ef' & Ec').
  pose proof (streaming_loaded _ _ _ I') as Loaded.
  cbn [app] in Loaded.
  rewrite (nElements_concat _ _ F), L, Eb, Et', Et in Loaded.
  pose proof (nElements_nonneg (buffer_store s')). lia.
Qed.

(** Successive epochs from a generator that is [ready]. *)
Lemma ready_epochs_follow_orders fuel n rds :
  forall s,
    shuffle_permutes env -> ready env s -> shuffled_infiles_ s <> [] ->
    Z.of_nat n * batchsize_ s <= ntotal_ s ->
    (length (shuffled_infiles_ s) < fuel)%nat ->
    exists bss s',
      run_epochs env fuel n rds s = Returns bss s' /\
      Forall2
        (fun bs order =>
           length bs = n /\
           concat bs =
             firstn (Z.to_nat (Z.of_nat n * batchsize_ s))
               (content (hd EmptyString order) ++ stream_of content order))
        bss (shuffle_orders env rds s).
Proof.
  induction rds as [|rd rest IH]; intros s Perm Rdy NE Fit Fuel.
  - exists [], s. split; [reflexivity|constructor].
  - destruct (prepareNextEpoch_streaming rd s Perm Rdy NE)
      as (s0 & E & I & Ord & Cnt & Eb & Eft & Et & Ep).
    assert (P : Permutation (shuffled_infiles_ s) (shuffled_infiles_ s0))
      by (rewrite Ord; apply Perm).
    pose proof (Permutation_length P) as Len.
    pose proof (getBatches_streaming
                  (content (hd EmptyString (shuffled_infiles_ s0))) fuel n []
                  s0 I) as G.
    cbn [run_epochs shuffle_orders]. unfold bind at 1. rewrite E.
    unfold bind at 1. rewrite shuffleFilelist_eq.
    destruct (getBatches env fuel n s0) as [bs s1|e s1| | |];
      try contradiction; [|exfalso; rewrite Eb, Et, Ep in G; lia].
    destruct G as (L & F & I' & Eb' & Et' & Ef' & Ec').
    destruct (IH s1 Perm (streaming_ready _ _ _ I')) as (bss & s' & R & All).
    { rewrite Ef'. intros Z. rewrite Z in P.
      apply Permutation_sym, Permutation_nil in P. contradiction. }
    { rewrite Eb', Et', Eb, Et. exact Fit. }
    { rewrite Ef', <- Len. exact Fuel. }
    exists (bs :: bss), s'. unfold bind, ret. rewrite R.
    split; [reflexivity|].
    rewrite (shuffle_orders_entropy_free env rest rest _ s1 eq_refl)
      by (cbn [randomcount_ shuffled_infiles_ set_shuffled_infiles_
               set_randomcount_]; congruence).
    constructor.
    + cbn [shuffled_infiles_ set_shuffled_infiles_]. rewrite <- Ord.
      split; [exact L|].
      pose proof (streaming_front _ _ _ I') as Front.
      cbn [app] in Front.
      rewrite (nElements_concat _ _ F), L, Ef', Eb in Front. exact Front.
    + rewrite Eb', Eb in All. exact All.
Qed.

(** Extra X12: on files that are present, parse and hold as many
    samples as their shapes announce, with a [std::shuffle] that permutes,
    take a new generator that is given a non-empty file list (total below
    2^63) and a positive batch size [b].  After [prepareNextEpoch()] the
    calls of [getBatch()] never throw and never end the process: whatever
    number of loop turns they are given, [n] calls have returned or are
    still in the loop, and they can only have returned if [n * b] is at
    most the size of the first file of the order plus the total. *)
Theorem batches_of_an_epoch_never_throw files b rd :
  shuffle_permutes env ->
  files <> [] -> 0 < b ->
  sum_leading_dims env files < 2 ^ 63 ->
  Z.of_nat (length files) < 2 ^ 64 ->
  exists s s0,
    configure env files b trainDataGenerator_new = Returns tt s /\
    prepareNextEpoch env rd s = Returns tt s0 /\
    forall fuel n,
      match getBatches env fuel n s0 with
      | Returns bs _ =>
          Z.of_nat n * b <=
            nElements (content (hd EmptyString (shuffled_infiles_ s0)))
              + sum_leading_dims env files
      | Unfinished => True
      | _ => False
      end.
Proof.
  intros Perm NE B Room Fits.
  destruct (configure_new_ready files b B Room Fits)
    as (s & C & Rdy & Fl & Eb & Et).
  destruct (ready_epoch_never_throws rd s Perm Rdy) as (s0 & E & All);
    [rewrite Fl; exact NE|].
  rewrite Eb, Et in All.
  exists s, s0. split; [exact C|]. split; [exact E|exact All].
Qed.

(** Extra X13: on files that are present, parse and hold as many
    samples as their shapes announce, with a [std::shuffle] that permutes,
    take a new generator that is given a non-empty file list (total below
    2^63) and a positive batch size [b], and run epochs of
    [prepareNextEpoch()] followed by [n] calls of [getBatch()] with
    [n * b <= total].  Every epoch returns its [n] batches, and they are
    the first [n * b] samples of the first file of the epoch's order
    followed by the files of that order, where the orders are those of
    successive in-place shuffles of the file list. *)
Theorem epochs_follow_the_shuffle_orders files b fuel n rds :
  shuffle_permutes env ->
  files <> [] -> 0 < b ->
  sum_leading_dims env files < 2 ^ 63 ->
  Z.of_nat (length files) < 2 ^ 64 ->
  Z.of_nat n * b <= sum_leading_dims env files ->
  (length files < fuel)%nat ->
  exists s bss s',
    configure env files b trainDataGenerator_new = Returns tt s /\
    run_epochs env fuel n rds s = Returns bss s' /\
    length bss = length rds /\
    Forall2
      (fun bs order =>
         length bs = n /\
         concat bs =
           firstn (Z.to_nat (Z.of_nat n * b))
             (content (hd EmptyString order) ++ stream_of content order))
      bss (shuffle_orders env rds s).
Proof.
  intros Perm NE B Room Fits Fit Fuel.
  destruct (configure_new_ready files b B Room Fits)
    as (s & C & Rdy & Fl & Eb & Et).
  destruct (ready_epochs_follow_orders fuel n rds s Perm Rdy)
    as (bss & s' & R & All);
    try (rewrite ?Fl, ?Eb, ?Et; assumption).
  rewrite Eb in All.
  exists s, bss, s'. split; [exact C|]. split; [exact R|].
  split; [|exact All].
  etransitivity; [exact (Forall2_length All)|apply shuffle_orders_length].
Qed.

End Streaming.

(** ** Batch calls, whatever the files *)

Section Batches.
Context {T : Type}.
Variable env : platform T.

Lemma getBatches_spin fuel n s :
  getBatch env fuel s = Unfinished ->
  getBatches env fuel (S n) s = Unfinished.
Proof. intros G. cbn [getBatches]. unfold bind. rewrite G. reflexivity. Qed.

(** Extra X15: once the samples handed out and those in store
    reach the total and no worker runs, a store short of a batch is never
    topped up: [getBatch()] neither returns nor throws, however many turns
    it is given. *)
Theorem getBatch_spins_once_the_total_is_reached s :
  readthread_ s = null -> buffer_read s = [] ->
  nElements (buffer_store s) < batchsize_ s ->
  ntotal_ s <= wrap64 (nsamplesprocessed_ s + nElements (buffer_store s)) ->
  forall fuel,
    getBatch env fuel s = Unfinished /\
    forall n, getBatches env fuel (S n) s = Unfinished.
Proof.
  intros P R Short Full fuel.
  pose proof (getBatch_never_returns env fuel s P R Short Full) as G.
  split; [exact G|]. intros n. apply getBatches_spin. exact G.
Qed.

Lemma getBatches_inv fuel n s bs s' :
  getBatches env fuel (S n) s = Returns bs s' ->
  exists b s1 rest,
    getBatch env fuel s = Returns b s1 /\
    getBatches env fuel n s1 = Returns rest s' /\ bs = b :: rest.
Proof.
  cbn [getBatches]. unfold bind, ret.
  destruct (getBatch env fuel s) as [b s1|e s1| | |]; try discriminate.
  destruct (getBatches env fuel n s1) as [rest s2|e s2| | |] eqn:G;
    try discriminate.
  intros E. injection E as <- <-. exists b, s1, rest. auto.
Qed.

(** Extra X16: whatever the files are, the batches that successive
    [getBatch()] calls return hold exactly [batchsize_] samples each; the
    calls advance [nsamplesprocessed_] by that much modulo 2^64, record
    the batch size and leave the configuration alone. *)
Theorem getBatches_returns fuel n :
  forall s bs s',
    getBatches env fuel n s = Returns bs s' ->
    0 <= batchsize_ s ->
    length bs = n /\
    Forall (fun b => nElements b = batchsize_ s) bs /\
    (n <> O ->
     nsamplesprocessed_ s' =
       wrap64 (nsamplesprocessed_ s + Z.of_nat n * batchsize_ s) /\
     lastbatchsize_ s' = batchsize_ s) /\
    batchsize_ s' = batchsize_ s /\ ntotal_ s' = ntotal_ s /\
    nbatches_ s' = nbatches_ s /\ filetimeout_ s' = filetimeout_ s /\
    orig_infiles_ s' = orig_infiles_ s /\
    shuffled_infiles_ s' = shuffled_infiles_ s /\
    randomcount_ s' = randomcount_ s.
Proof.
  induction n as [|n IH]; intros s bs s' G B.
  - cbn [getBatches] in G. injection G as <- <-.
    split; [reflexivity|]. split; [constructor|].
    split; [intros N; contradiction|]. repeat split; reflexivity.
  - apply getBatches_inv in G. destruct G as (b & s1 & rest & G1 & Gn & ->).
    destruct (getBatch_returns env fuel s b s1 G1 B)
      as (Rb & Rp & Rl & RB & RT & RN & RF & RO & RS & RC).
    destruct (IH s1 rest s' Gn) as (L & F & Adv & EB & ET & EN & EF & EO & ES & EC);
      [rewrite RB; exact B|].
    split; [cbn [length]; congruence|].
    split; [constructor; [exact Rb|rewrite <- RB; exact F]|].
    split; [intros _|repeat split; congruence].
    destruct n as [|n'].
    + cbn [getBatches] in Gn. injection Gn as _ <-.
      split; [|exact Rl]. rewrite Rp. f_equal. lia.
    + destruct Adv as [Ap Al]; [discriminate|].
      split; [|congruence].
      rewrite Ap, Rp, RB, wrap64_add_l. f_equal. lia.
Qed.

End Batches.

(** ** The two flags *)

Section Flags.
Context {T : Type}.
Variable env : platform T.
Variable d en : bool.

Lemma blind_bind {A B : Type} (m : M T A) (k : A -> M T B) :
  blind_to d en m -> (forall a, blind_to d en (k a)) -> blind_to d en (bind m k).
Proof.
  intros Hm Hk s. unfold bind. rewrite Hm.
  destruct (m s) as [a s1|e s1| | |]; cbn [outcome_map]; try reflexivity.
  apply Hk.
Qed.

Lemma blind_ret {A : Type} (a : A) : blind_to d en (@ret T A a).
Proof. intros s. reflexivity. Qed.

Lemma blind_throw {A : Type} e : blind_to d en (@throw T A e).
Proof. intros s. reflexivity. Qed.

Lemma blind_undefined {A : Type} : blind_to d en (@undefined T A).
Proof. intros s. reflexivity. Qed.

Lemma blind_get {A : Type} (g : trainDataGenerator T -> A) :
  (forall s, g ((set_flags d en) s) = g s) -> blind_to d en (get g).
Proof. intros H s. unfold get. rewrite H. reflexivity. Qed.

Lemma blind_modify (h : trainDataGenerator T -> trainDataGenerator T) :
  (forall s, h ((set_flags d en) s) = (set_flags d en) (h s)) -> blind_to d en (modify h).
Proof. intros H s. unfold modify. rewrite H. reflexivity. Qed.

Ltac blind :=
  repeat first
    [ apply blind_ret | apply blind_throw | apply blind_undefined
    | apply blind_get; intros ?; reflexivity
    | apply blind_modify; intros ?; reflexivity
    | apply blind_bind; [|intros ?]
    | assumption
    | match goal with
      | |- blind_to d en (match ?x with _ => _ end) => destruct x
      | |- blind_to d en (if ?c then _ else _) => destruct c
      end ].

Lemma blind_readBuffer_while fuel :
  forall ntries, blind_to d en (readBuffer_while env fuel ntries).
Proof.
  induction fuel as [|fuel IH]; intros ntries s; cbn [readBuffer_while];
    change (filetimeout_ ((set_flags d en) s)) with (filetimeout_ s);
    change (nextread_ ((set_flags d en) s)) with (nextread_ s);
    change (clock ((set_flags d en) s)) with (clock s);
    destruct (ntries <? filetimeout_ s); try reflexivity.
  destruct (probe env (clock s) (nextread_ s)); try reflexivity;
    apply (IH _ (set_clock (S (clock s)) s)).
Qed.

Lemma blind_readBuffer : blind_to d en (readBuffer env).
Proof.
  unfold readBuffer. apply blind_bind; [blind|].
  intros t. apply blind_readBuffer_while.
Qed.

Lemma blind_thread_join : blind_to d en (thread_join env).
Proof.
  intros s. unfold thread_join.
  change (readthread_ ((set_flags d en) s)) with (readthread_ s).
  destruct (readthread_ s); try reflexivity.
  rewrite blind_readBuffer.
  destruct (readBuffer env s); reflexivity.
Qed.

Lemma blind_size_t_div a b : blind_to d en (@size_t_div T a b).
Proof. unfold size_t_div. blind. Qed.

Lemma blind_vector_at l i : blind_to d en (@vector_at T l i).
Proof. unfold vector_at. blind. Qed.

Lemma blind_readNTotal_for files : blind_to d en (readNTotal_for env files).
Proof.
  induction files as [|f rest IH]; cbn [readNTotal_for]; [blind|].
  destruct (readShapesFromFile env f) as [[fs ts] ws].
  destruct fs as [|[|n ?] ?]; blind.
Qed.

Lemma blind_setFileList files : blind_to d en (setFileList env files).
Proof.
  pose proof blind_readNTotal_for. pose proof blind_size_t_div.
  unfold setFileList, readNTotal. blind; auto.
Qed.

Lemma blind_setBatchSize b : blind_to d en (@setBatchSize T b).
Proof. pose proof blind_size_t_div. unfold setBatchSize. blind; auto. Qed.

Lemma blind_setFileTimeout t : blind_to d en (@setFileTimeout T t).
Proof. unfold setFileTimeout. blind. Qed.

Lemma blind_shuffleFilelist rd : blind_to d en (shuffleFilelist env rd).
Proof. unfold shuffleFilelist. cbv zeta. blind. Qed.

Lemma blind_prepareNextEpoch rd : blind_to d en (prepareNextEpoch env rd).
Proof.
  pose proof blind_thread_join. pose proof (blind_shuffleFilelist rd).
  pose proof blind_vector_at.
  unfold prepareNextEpoch, thread_delete, thread_new. blind; auto.
Qed.

Lemma blind_end : blind_to d en (end_ env).
Proof.
  pose proof blind_thread_join.
  unfold end_, thread_delete. blind.
Qed.

Lemma blind_destructor : blind_to d en (destructor env).
Proof.
  pose proof blind_thread_join.
  unfold destructor, thread_delete. blind.
Qed.

Lemma blind_prepareBatch_turn : blind_to d en (prepareBatch_turn env).
Proof.
  pose proof blind_thread_join. pose proof blind_vector_at.
  unfold prepareBatch_turn, thread_delete, thread_new. blind; auto.
Qed.

Lemma blind_prepareBatch_while fuel :
  forall b, blind_to d en (prepareBatch_while env fuel b).
Proof.
  induction fuel as [|fuel IH]; intros b s; cbn [prepareBatch_while];
    change (batchsize_ ((set_flags d en) s)) with (batchsize_ s);
    destruct (b <? batchsize_ s); try reflexivity.
  apply (blind_bind (prepareBatch_turn env)
           (fun b => prepareBatch_while env fuel b));
    [apply blind_prepareBatch_turn|exact IH].
Qed.

Lemma blind_getBatch fuel : blind_to d en (getBatch env fuel).
Proof.
  pose proof (blind_prepareBatch_while fuel).
  unfold getBatch, prepareBatch. blind; auto.
Qed.

(** Extra X17: the [threading_] flag set by [enableThreading] and the
    public [debug] member change nothing: every call ends the same way,
    returns the same value and leaves the same object, the two flags
    apart; the getters answer the same. *)
Theorem flags_change_nothing s :
  (forall files,
      setFileList env files ((set_flags d en) s) =
        outcome_map (set_flags d en) (setFileList env files s)) /\
  (forall b,
      setBatchSize b ((set_flags d en) s) = outcome_map (set_flags d en) (setBatchSize b s)) /\
  (forall t,
      setFileTimeout t ((set_flags d en) s) =
        outcome_map (set_flags d en) (setFileTimeout t s)) /\
  (forall rd,
      prepareNextEpoch env rd ((set_flags d en) s) =
        outcome_map (set_flags d en) (prepareNextEpoch env rd s)) /\
  (forall fuel,
      getBatch env fuel ((set_flags d en) s) =
        outcome_map (set_flags d en) (getBatch env fuel s)) /\
  end_ env ((set_flags d en) s) = outcome_map (set_flags d en) (end_ env s) /\
  destructor env ((set_flags d en) s) = outcome_map (set_flags d en) (destructor env s) /\
  getNTotal ((set_flags d en) s) = getNTotal s /\
  getNBatches ((set_flags d en) s) = getNBatches s /\
  lastBatch ((set_flags d en) s) = lastBatch s.
Proof.
  split; [intros files; apply blind_setFileList|].
  split; [intros b; apply blind_setBatchSize|].
  split; [intros t; apply blind_setFileTimeout|].
  split; [intros rd; apply blind_prepareNextEpoch|].
  split; [intros fuel; apply blind_getBatch|].
  split; [apply blind_end|].
  split; [apply blind_destructor|].
  repeat split.
Qed.

End Flags.

(** ** The further properties on the example files *)

Import Cases.

Lemma steady_holds shuffle : files_hold (steady shuffle) samples_of.
Proof. intros t f. split; reflexivity. Qed.

(** Extra X1, witness: the reader on file [A], which is there from the
    fourth look on: the call returns with the samples of [A] after three
    sleeps. *)
Lemma readBuffer_ends_within_budget_witness :
  let env := there_from 3 in
  let s := reading "A" in
  filetimeout_ s < 2 ^ 64 - 1 /\
  exists s',
    (readBuffer env s = Returns tt s' /\
     probe env (clock s') (nextread_ s) = Readable (buffer_read s') \/
     readBuffer env s = Throws (readBuffer_error (nextread_ s)) s' /\
     buffer_read s' = []) /\
    (forall t, (clock s <= t < clock s')%nat ->
               unreadable (probe env t (nextread_ s))) /\
    worker_frame s' = worker_frame s /\
    (clock s <= clock s')%nat /\
    Z.of_nat (clock s') - Z.of_nat (clock s) <= Z.max 0 (filetimeout_ s).
Proof.
  cbv zeta.
  assert (H : filetimeout_ (reading "A") < 2 ^ 64 - 1) by reflexivity.
  split; [exact H|].
  exact (readBuffer_ends_within_budget (there_from 3) (reading "A") H).
Defined.

(** Extra X2, witness: file [A] on [flaky]: three failed looks cost four
    tries of the ten, and the file is read at the fourth look. *)
Lemma readBuffer_spends_budget_by_kind_witness :
  let s := reading "A" in
  looks_cost flaky "A" 0 3 = 4 /\
  exists s',
    readBuffer flaky s = Returns tt s' /\
    buffer_read s' = samples_of "A" /\ clock s' = 3%nat /\
    worker_frame s' = worker_frame s.
Proof.
  cbv zeta. split; [reflexivity|].
  assert (H : filetimeout_ (reading "A") < 2 ^ 64 - 1) by reflexivity.
  assert (U : forall i, (i < 3)%nat ->
                unreadable (probe flaky (clock (reading "A") + i)
                              (nextread_ (reading "A")))).
  { intros i Hi. destruct i as [|[|[|i]]]; simpl; try exact I. lia. }
  apply (proj1 (readBuffer_spends_budget_by_kind flaky (reading "A") 3 H U));
    reflexivity.
Defined.

(** Extra X3, witness: file [A] is never there; the reader gives up after
    the ten sleeps of the default timeout. *)
Lemma readBuffer_gives_up_on_a_file_that_stays_bad_witness :
  let s := reading "A" in
  exists s',
    readBuffer nothing_there s = Throws (readBuffer_error "A") s' /\
    buffer_read s' = [] /\ clock s' = 10%nat.
Proof.
  cbv zeta.
  assert (H : 0 <= filetimeout_ (reading "A") < 2 ^ 64 - 1)
    by (split; [discriminate|reflexivity]).
  apply (proj1 (readBuffer_gives_up_on_a_file_that_stays_bad nothing_there
                  (reading "A") H)).
  intros t _. reflexivity.
Defined.

(** Extra X4, witness: [end()] on a generator whose epoch has started. *)
Lemma end_joins_and_is_idempotent_witness :
  let env := steady keep_order in
  let s := epoch env ["A"; "B"] 100 in
  let s' := left_by s (end_ env s) in
  end_ env s = Returns tt s' /\
  readthread_ s = joinable /\
  readthread_ s' = null /\
  end_ env s' = Returns tt s' /\
  destructor env s' = Returns tt s' /\
  settings s' = settings s /\
  buffer_store s' = buffer_store s /\
  filecount_ s' = filecount_ s /\ nextread_ s' = nextread_ s /\
  (readthread_ s = null -> s' = s).
Proof.
  cbv zeta.
  set (env := steady keep_order).
  set (s := epoch env ["A"; "B"] 100).
  assert (E : end_ env s = Returns tt (left_by s (end_ env s)))
    by (vm_compute; reflexivity).
  split; [exact E|]. split; [reflexivity|].
  exact (end_joins_and_is_idempotent env s _ E).
Defined.

(** Extra X5, witness: [prepareNextEpoch()] on a new generator, which has
    no files. *)
Lemma prepareNextEpoch_without_files_witness :
  let env := steady keep_order in
  exists s',
    prepareNextEpoch env 0 trainDataGenerator_new = Throws out_of_range s' /\
    readthread_ s' = null /\
    randomcount_ s' = 2 /\
    nsamplesprocessed_ s' = 0 /\ filecount_ s' = 0 /\
    buffer_store s' = [] /\ buffer_read s' = [] /\
    end_ env s' = Returns tt s'.
Proof.
  cbv zeta.
  exact (proj1 (prepareNextEpoch_without_files (steady keep_order) 0
                  trainDataGenerator_new keep_order_permutes eq_refl)
           eq_refl).
Defined.

(** Extra X6, witness: files [A] and [B] and batch size 100 on a new
    generator, in both orders. *)
Lemma configuration_order_does_not_matter_witness :
  let env := steady keep_order in
  exists s',
    configure env ["A"; "B"] 100 trainDataGenerator_new = Returns tt s' /\
    configure_batch_first env ["A"; "B"] 100 trainDataGenerator_new =
      Returns tt s' /\
    getNTotal s' = 250 /\ getNBatches s' = 2.
Proof.
  cbv zeta.
  assert (B : batchsize_ (@trainDataGenerator_new nat) <> 0) by discriminate.
  assert (F : first_unfilled (steady keep_order) ["A"; "B"] = None)
    by reflexivity.
  assert (N : 100 <> 0) by discriminate.
  destruct (proj1 (configuration_order_does_not_matter (steady keep_order)
                     ["A"; "B"] 100 trainDataGenerator_new B F) N)
    as (s' & C1 & C2 & Tot & Nb & _).
  exists s'. split; [exact C1|]. split; [exact C2|].
  split; [exact Tot|]. rewrite Nb, Tot. reflexivity.
Defined.

(** Extra X7, witness: file [B] stores no feature array; the total is left
    at the 100 samples of [A] and the number of batches at 0. *)
Lemma setFileList_failure_leaves_partial_total_witness :
  exists s',
    setFileList half_filled ["A"; "B"; "C"] trainDataGenerator_new =
      Throws (readNTotal_error "B") s' /\
    orig_infiles_ s' = ["A"; "B"; "C"] /\
    shuffled_infiles_ s' = ["A"; "B"; "C"] /\
    getNTotal s' = 100 /\ getNBatches s' = 0 /\ batchsize_ s' = 2.
Proof.
  exact (setFileList_failure_leaves_partial_total half_filled ["A"] "B" ["C"]
           trainDataGenerator_new eq_refl eq_refl).
Defined.


(** Extra X10, witness: files [A] and [B], batch size 100, a shuffle that
    reverses the list: the two batches of the epoch are the first 200
    samples of [B], [B], [A]. *)
Lemma epoch_hands_out_first_file_then_all_files_witness :
  let env := steady reverse_order in
  exists s s0 bs s',
    configure env ["A"; "B"] 100 trainDataGenerator_new = Returns tt s /\
    prepareNextEpoch env 0 s = Returns tt s0 /\
    Permutation ["A"; "B"] (shuffled_infiles_ s0) /\
    getBatches env 3 2 s0 = Returns bs s' /\
    length bs = 2%nat /\
    Forall (fun batch => nElements batch = 100) bs /\
    concat bs =
      firstn (Z.to_nat (Z.of_nat 2 * 100))
        (samples_of (hd EmptyString (shuffled_infiles_ s0))
           ++ stream_of samples_of (shuffled_infiles_ s0)).
Proof.
  cbv zeta.
  apply (epoch_hands_out_first_file_then_all_files (steady reverse_order)
           samples_of (steady_holds reverse_order) ["A"; "B"] 100 0 3 2
           reverse_order_permutes);
    vm_compute; try reflexivity; try discriminate; lia.
Defined.

(** Extra X11, witness: files [A] and [B], batch size 100 and no
    [prepareNextEpoch()]: the two batches are the first 200 samples of
    [A], [B]. *)
Lemma files_in_list_order_without_prepareNextEpoch_witness :
  let env := steady keep_order in
  exists s0 bs s',
    configure env ["A"; "B"] 100 trainDataGenerator_new = Returns tt s0 /\
    getBatches env 3 2 s0 = Returns bs s' /\
    length bs = 2%nat /\
    concat bs =
      firstn (Z.to_nat (Z.of_nat 2 * 100)) (stream_of samples_of ["A"; "B"]).
Proof.
  cbv zeta.
  apply (files_in_list_order_without_prepareNextEpoch (steady keep_order)
           samples_of (steady_holds keep_order) ["A"; "B"] 100 3 2);
    vm_compute; try reflexivity; try discriminate; lia.
Defined.

(** Extra X12, witness: files [A] and [B] and batch size 100. *)
Lemma batches_of_an_epoch_never_throw_witness :
  let env := steady reverse_order in
  exists s s0,
    configure env ["A"; "B"] 100 trainDataGenerator_new = Returns tt s /\
    prepareNextEpoch env 0 s = Returns tt s0 /\
    forall fuel n,
      match getBatches env fuel n s0 with
      | Returns bs _ =>
          Z.of_nat n * 100 <=
            nElements (samples_of (hd EmptyString (shuffled_infiles_ s0)))
              + sum_leading_dims env ["A"; "B"]
      | Unfinished => True
      | _ => False
      end.
Proof.
  cbv zeta.
  apply (batches_of_an_epoch_never_throw (steady reverse_order) samples_of
           (steady_holds reverse_order) ["A"; "B"] 100 0
           reverse_order_permutes);
    vm_compute; try reflexivity; discriminate.
Defined.

(** Extra X13, witness: two epochs over files [A] and [B] with a shuffle
    that reverses the list. *)
Lemma epochs_follow_the_shuffle_orders_witness :
  let env := steady reverse_order in
  exists s bss s',
    configure env ["A"; "B"] 100 trainDataGenerator_new = Returns tt s /\
    run_epochs env 3 2 [0; 0] s = Returns bss s' /\
    length bss = 2%nat /\
    Forall2
      (fun bs order =>
         length bs = 2%nat /\
         concat bs =
           firstn (Z.to_nat (Z.of_nat 2 * 100))
             (samples_of (hd EmptyString order) ++ stream_of samples_of order))
      bss (shuffle_orders env [0; 0] s).
Proof.
  cbv zeta.
  apply (epochs_follow_the_shuffle_orders (steady reverse_order) samples_of
           (steady_holds reverse_order) ["A"; "B"] 100 3 2 [0; 0]
           reverse_order_permutes);
    vm_compute; try reflexivity; try discriminate; lia.
Defined.

(** Extra X15, witness: a new generator, which has no files and a total
    of zero: its [getBatch()] does not return within 1000 turns. *)
Lemma getBatch_spins_once_the_total_is_reached_witness :
  getBatch (steady keep_order) 1000 trainDataGenerator_new = Unfinished /\
  getBatches (steady keep_order) 1000 3 trainDataGenerator_new = Unfinished.
Proof.
  destruct (getBatch_spins_once_the_total_is_reached (steady keep_order)
              trainDataGenerator_new eq_refl eq_refl eq_refl)
    with (fuel := 1000%nat) as [G Gs]; [vm_compute; discriminate|].
  split; [exact G|exact (Gs 2%nat)].
Defined.

(** Extra X16, witness: the two batches of an epoch over files [A] and
    [B] with batch size 100. *)
Lemma getBatches_returns_witness :
  let env := steady keep_order in
  let s := epoch env ["A"; "B"] 100 in
  exists bs s',
    getBatches env 3 2 s = Returns bs s' /\
    length bs = 2%nat /\
    Forall (fun b => nElements b = 100) bs /\
    nsamplesprocessed_ s' = 200 /\ lastbatchsize_ s' = 100 /\
    shuffled_infiles_ s' = ["A"; "B"].
Proof.
  cbv zeta.
  set (env := steady keep_order).
  set (s := epoch env ["A"; "B"] 100).
  destruct (getBatches env 3 2 s) as [bs s'|e s'| | |] eqn:G;
    try (vm_compute in G; discriminate).
  exists bs, s'. split; [reflexivity|].
  destruct (getBatches_returns env 3 2 s bs s' G)
    as (L & F & Adv & _ & _ & _ & _ & _ & Sh & _);
    [vm_compute; discriminate|].
  destruct Adv as [Ap Al]; [discriminate|].
  split; [exact L|]. split; [exact F|].
  split; [rewrite Ap; reflexivity|]. split; [exact Al|exact Sh].
Defined.
